(** * PDFtoBPMN: the pdf_to_context core, embedded and verified

    A shallow embedding of the decision core of the [pdf_to_context]
    package: the page analyzer, the content router, the structure
    preserver (with the OCR client it drives), the IR builder and the
    structure analyzer.

    Conventions of the embedding.
    - A Python [int] is a [Z].
    - A Python [float] that holds a coordinate, a font size or a confidence
      is represented by the rational number it denotes ([Q]).  Comparison
      and negation of finite floats are exact, so every branch taken on a
      comparison is the branch the program takes; sums and quotients are
      the exact ones (rounding is not modelled, NaN and infinities are not
      values of the model).
    - A Python [str] that is only compared or copied (ids, formats) is a
      [string]; a [str] that is measured with [len], stripped or matched
      against a regular expression is the list of its code points
      ([pystr]).
    - Mutable state (the statistics of the structure preserver, the state
      of the recognition service) is threaded explicitly through a small
      state monad. *)

From Stdlib Require Import String Ascii DecimalString.
From Stdlib Require Import List ZArith QArith Bool Lia Lqa.
From Stdlib Require Import Permutation Sorted.
From Stdlib Require PrimFloat.
Import ListNotations.

Local Open Scope Z_scope.

(* ================================================================== *)
(** * Part I: the program                                              *)
(* ================================================================== *)

(** ** Numbers and text *)

Module Py.

(** [a > b] and [a <= b] on floats, decided on the rationals. *)
Definition Qgtb (a b : Q) : bool :=
  match Qcompare a b with Gt => true | _ => false end.

Definition Qltb (a b : Q) : bool :=
  match Qcompare a b with Lt => true | _ => false end.

Definition Qleb (a b : Q) : bool := negb (Qgtb a b).

Definition Qeqb (a b : Q) : bool :=
  match Qcompare a b with Eq => true | _ => false end.

(** [max(a, b)] of Python: the first argument unless the second is
    strictly greater. *)
Definition Qmax (a b : Q) : Q := if Qgtb b a then b else a.

(** [sum(l)]: a left fold starting from 0. *)
Definition Qsum (l : list Q) : Q := fold_left Qplus l 0%Q.

(** [sum(l) / len(l)]. *)
Definition Qmean (l : list Q) : Q :=
  (Qsum l / inject_Z (Z.of_nat (List.length l)))%Q.

(** A [str] as the list of its code points. *)
Definition pystr := list N.

(** The code points of a literal made of one-byte characters. *)
Definition lit (s : string) : pystr :=
  map N_of_ascii (list_ascii_of_string s).

Definition LF : N := 10%N.

(** [sep.join(parts)]. *)
Fixpoint join (sep : pystr) (parts : list pystr) : pystr :=
  match parts with
  | [] => []
  | [p] => p
  | p :: rest => p ++ sep ++ join sep rest
  end.

Definition len (s : pystr) : Z := Z.of_nat (List.length s).

End Py.

(** ** models/data_models.py *)

Module DataModels.

Inductive ContentType :=
| TEXT | IMAGE | VECTOR | TABLE | HEADING | PARAGRAPH | LIST | FIGURE
| UNKNOWN.

Definition ContentType_eqb (a b : ContentType) : bool :=
  match a, b with
  | TEXT, TEXT | IMAGE, IMAGE | VECTOR, VECTOR | TABLE, TABLE
  | HEADING, HEADING | PARAGRAPH, PARAGRAPH | LIST, LIST
  | FIGURE, FIGURE | UNKNOWN, UNKNOWN => true
  | _, _ => false
  end.

(** [ContentType(value)]: the member with that value, [None] standing
    for the [ValueError] of an unknown value. *)
Definition ContentType_of_value (s : string) : option ContentType :=
  if String.eqb s "text" then Some TEXT
  else if String.eqb s "image" then Some IMAGE
  else if String.eqb s "vector" then Some VECTOR
  else if String.eqb s "table" then Some TABLE
  else if String.eqb s "heading" then Some HEADING
  else if String.eqb s "paragraph" then Some PARAGRAPH
  else if String.eqb s "list" then Some LIST
  else if String.eqb s "figure" then Some FIGURE
  else if String.eqb s "unknown" then Some UNKNOWN
  else None.

Inductive LayoutType :=
| SINGLE_COLUMN | MULTI_COLUMN | COMPLEX | NEWSPAPER | LAYOUT_UNKNOWN.

Definition LayoutType_eqb (a b : LayoutType) : bool :=
  match a, b with
  | SINGLE_COLUMN, SINGLE_COLUMN | MULTI_COLUMN, MULTI_COLUMN
  | COMPLEX, COMPLEX | NEWSPAPER, NEWSPAPER
  | LAYOUT_UNKNOWN, LAYOUT_UNKNOWN => true
  | _, _ => false
  end.

Inductive OCRMode := TINY | SMALL | BASE | LARGE | GUNDAM.

Inductive RouteDecision := NATIVE | OCR | HYBRID.

Record BBox := mkBBox { x0 : Q; y0 : Q; x1 : Q; y1 : Q }.

(** The fields of a [TextBlock]; [metadata] is kept abstract, nothing
    in the core reads it. *)
Record TextBlock := mkTextBlock {
  tb_bbox : BBox;
  tb_text : Py.pystr;
  tb_page_num : Z;
  tb_type : ContentType;
  tb_font_name : option string;
  tb_font_size : option Q;
  tb_is_bold : bool;
  tb_is_italic : bool
}.

(** Truth value of an [Optional[float]]: [None] and [0.0] are false. *)
Definition truthy_float (f : option Q) : bool :=
  match f with
  | None => false
  | Some q => negb (Py.Qeqb q 0)
  end.

(** [TextBlock.__post_init__]. *)
Definition TextBlock_post_init (self : TextBlock) : TextBlock :=
  let heading :=
    truthy_float (tb_font_size self) &&
    match tb_font_size self with
    | Some q => Py.Qgtb q 14
    | None => false
    end in
  mkTextBlock (tb_bbox self) (tb_text self) (tb_page_num self)
    (if heading then HEADING else PARAGRAPH)
    (tb_font_name self) (tb_font_size self)
    (tb_is_bold self) (tb_is_italic self).

(** The dataclass constructor: the generated [__init__] stores the
    arguments, then runs [__post_init__]. *)
Definition TextBlock_new (bbox : BBox) (text : Py.pystr) (page_num : Z)
    (type : ContentType) (font_name : option string)
    (font_size : option Q) (is_bold is_italic : bool) : TextBlock :=
  TextBlock_post_init
    (mkTextBlock bbox text page_num type font_name font_size
       is_bold is_italic).

(** [ib_object_id] is [id(self)], the identity every object has. *)
Record ImageBlock := mkImageBlock {
  ib_object_id : Z;
  ib_bbox : BBox;
  ib_image_data : list N;
  ib_format : string;
  ib_page_num : Z;
  ib_type : ContentType;
  ib_width : option Z;
  ib_height : option Z;
  ib_xref : option Z;
  ib_needs_ocr : bool
}.

Record DrawingBlock := mkDrawingBlock {
  db_bbox : BBox;
  db_drawing_type : option string;
  db_page_num : Z;
  db_type : ContentType;
  db_image_data : option (list N);
  db_needs_ocr : bool
}.

Record TableBlock := mkTableBlock {
  tbl_bbox : BBox;
  tbl_html : Py.pystr;
  tbl_rows : Z;
  tbl_cols : Z;
  tbl_page_num : Z;
  tbl_type : ContentType;
  tbl_source : string
}.

(** The keys of an OCR block's [metadata] that the structure preserver
    writes; the keys copied from the first fragment are kept as they
    came. *)
Record OCRMeta := mkOCRMeta {
  om_source : option string;
  om_original_format : option string;
  om_markdown : option Py.pystr
}.

Definition OCRMeta_empty : OCRMeta := mkOCRMeta None None None.

Record OCRBlock := mkOCRBlock {
  ob_id : string;
  ob_type : ContentType;
  ob_content : Py.pystr;
  ob_bbox : BBox;
  ob_page_num : Z;
  ob_confidence : Q;
  ob_source : string;
  ob_metadata : OCRMeta
}.

Record OCRResponse := mkOCRResponse {
  or_markdown : Py.pystr;
  or_blocks : list OCRBlock;
  or_page_id : Z;
  or_vision_tokens_used : Z;
  or_text_tokens_generated : Z;
  or_mode : OCRMode;
  or_confidence_avg : Q
}.

Record PageMetadata := mkPageMetadata {
  page_num : Z;
  width : Q;
  height : Q;
  rotation : Z;
  has_text_layer : bool;
  text_density : Z;
  layout_type : LayoutType;
  image_count : Z;
  drawing_count : Z;
  table_count : Z;
  bbox_coverage : Q
}.

End DataModels.

(** ** core/router.py *)

Module ContentRouter.
Import DataModels.

Definition BBOX_COVERAGE_LOW : Q := 3 # 10.
Definition BBOX_COVERAGE_HIGH : Q := 5 # 10.
Definition TEXT_DENSITY_HIGH : Z := 2000.
Definition TEXT_DENSITY_VERY_HIGH : Z := 5000.
Definition MODE_TINY_MAX : Z := 500.
Definition MODE_SMALL_MAX : Z := 1000.
Definition MODE_BASE_MAX : Z := 2500.
Definition MODE_LARGE_MAX : Z := 5000.

(** The router object: only [prioritize_accuracy] takes part in the
    rules. *)
Record Router := mkRouter { prioritize_accuracy : bool }.

(** The third component of a decision: which message was formatted, and
    from which values. *)
Inductive Reason :=
| ReasonNoTextLayer
| ReasonNewspaper
| ReasonComplexLayout (l : LayoutType)
| ReasonHighCoverage (c : Q)
| ReasonHybrid (images drawings : Z)
| ReasonVeryDense (density : Z)
| ReasonStandard (l : LayoutType) (density : Z).

(** [ContentRouter._select_ocr_mode]. *)
Definition select_ocr_mode (self : Router) (text_density : Z)
    (layout : LayoutType) : OCRMode :=
  if LayoutType_eqb layout NEWSPAPER then GUNDAM
  else if prioritize_accuracy self then
    if text_density <=? MODE_SMALL_MAX then BASE
    else if text_density <=? MODE_BASE_MAX then BASE
    else if text_density <=? MODE_LARGE_MAX then LARGE
    else GUNDAM
  else
    if text_density <=? MODE_TINY_MAX then TINY
    else if text_density <=? MODE_SMALL_MAX then SMALL
    else if text_density <=? MODE_BASE_MAX then BASE
    else if text_density <=? MODE_LARGE_MAX then LARGE
    else GUNDAM.

(** [ContentRouter._apply_routing_rules]. *)
Definition apply_routing_rules (self : Router) (meta : PageMetadata)
    : RouteDecision * option OCRMode * Reason :=
  let mode := select_ocr_mode self (text_density meta) (layout_type meta) in
  if negb (has_text_layer meta) then
    (OCR, Some mode, ReasonNoTextLayer)
  else if LayoutType_eqb (layout_type meta) NEWSPAPER then
    (OCR, Some GUNDAM, ReasonNewspaper)
  else if LayoutType_eqb (layout_type meta) COMPLEX then
    (OCR, Some mode, ReasonComplexLayout (layout_type meta))
  else if Py.Qgtb (bbox_coverage meta) BBOX_COVERAGE_HIGH then
    (OCR, Some mode, ReasonHighCoverage (bbox_coverage meta))
  else
    let rules_6_7 :=
      if prioritize_accuracy self
         && (text_density meta >? TEXT_DENSITY_VERY_HIGH) then
        (OCR, Some mode, ReasonVeryDense (text_density meta))
      else
        (NATIVE, None,
         ReasonStandard (layout_type meta) (text_density meta)) in
    if Py.Qgtb (bbox_coverage meta) BBOX_COVERAGE_LOW
       && ((image_count meta >? 0) || (drawing_count meta >? 5)) then
      if prioritize_accuracy self then
        (HYBRID, Some mode,
         ReasonHybrid (image_count meta) (drawing_count meta))
      else rules_6_7
    else rules_6_7.

End ContentRouter.

(** ** [sorted(..., key=...)] *)

(** Python's [sorted] is stable and compares keys with [<] only.  On keys
    that [<] orders totally, the result of a stable sort is determined by
    the input, so it is computed here by a stable insertion sort. *)
Module PySort.

Section Sorted.
Context {A K : Type}.
Variable ltb : K -> K -> bool.
Variable key : A -> K.

(** [x] goes before the first element whose key is not smaller than
    its own: before every element with an equal key. *)
Fixpoint insert (x : A) (l : list A) : list A :=
  match l with
  | [] => [x]
  | y :: t =>
      if ltb (key y) (key x) then y :: insert x t else x :: y :: t
  end.

Definition sorted (l : list A) : list A := fold_right insert [] l.

(** [a] may stand before [b] in a sorted list. *)
Definition key_le (a b : A) : Prop := ltb (key b) (key a) = false.
End Sorted.

(** The ordering key [(page, -y1, x0)]. *)
Definition position_key := (Z * Q * Q)%type.

(** [<] on tuples: the first component that differs decides. *)
Definition position_ltb (a b : position_key) : bool :=
  let '(p, y, x) := a in
  let '(p', y', x') := b in
  match Z.compare p p' with
  | Lt => true
  | Gt => false
  | Eq =>
      match Qcompare y y' with
      | Lt => true
      | Gt => false
      | Eq => Py.Qltb x x'
      end
  end.

End PySort.

(** ** core/analyzer.py *)

Module PageAnalyzer.
Import DataModels.

Definition MULTI_COLUMN_GAP : Q := 50.
Definition TOKEN_ESTIMATE_RATIO : Q := 25 # 100.

(** A block of [page.get_text("dict")]: its ["type"] and its ["bbox"]
    [(x0, y0, x1, y1)], either of which may be missing. *)
Record DictBlock := mkDictBlock {
  blk_type : option Z;
  blk_bbox : option (Q * Q * Q * Q)
}.

Definition is_text_block (b : DictBlock) : bool :=
  match blk_type b with
  | Some t => t =? 0
  | None => false
  end.

(** The loop that collects [(bbox[0], bbox[2])] of the blocks that have
    a bbox. *)
Fixpoint collect_x_coords (text_blocks : list DictBlock) : list (Q * Q) :=
  match text_blocks with
  | [] => []
  | b :: rest =>
      match blk_bbox b with
      | Some (bx0, _, bx1, _) => (bx0, bx1) :: collect_x_coords rest
      | None => collect_x_coords rest
      end
  end.

(** One turn of the loop of [_detect_columns]: the state is the list of
    closed columns and the running column. *)
Definition columns_step (st : list (Q * Q) * (Q * Q)) (c : Q * Q)
    : list (Q * Q) * (Q * Q) :=
  let '(columns, (cs, ce)) := st in
  let '(cx0, cx1) := c in
  if Py.Qleb cx0 (ce + MULTI_COLUMN_GAP)%Q then
    (columns, (cs, Py.Qmax ce cx1))
  else
    (columns ++ [(cs, ce)], (cx0, cx1)).

(** [PageAnalyzer._detect_columns]. *)
Definition detect_columns (x_coords : list (Q * Q)) (page_width : Q)
    : list (Q * Q) :=
  match PySort.sorted Py.Qltb fst x_coords with
  | [] => []
  | first :: rest =>
      let '(columns, current_col) :=
        fold_left columns_step rest ([], first) in
      columns ++ [current_col]
  end.

(** [PageAnalyzer.detect_layout_type], on the blocks of the page's text
    dictionary and the page width. *)
Definition detect_layout_type (blocks : list DictBlock) (page_width : Q)
    : LayoutType :=
  match blocks with
  | [] => LAYOUT_UNKNOWN
  | _ =>
      let text_blocks := filter is_text_block blocks in
      if (length text_blocks <? 2)%nat then SINGLE_COLUMN
      else
        match collect_x_coords text_blocks with
        | [] => LAYOUT_UNKNOWN
        | x_coords =>
            let columns := detect_columns x_coords page_width in
            if (length columns =? 1)%nat then SINGLE_COLUMN
            else if (length columns =? 2)%nat then MULTI_COLUMN
            else if (3 <=? length columns)%nat then
              if (10 <? length text_blocks)%nat then NEWSPAPER
              else COMPLEX
            else SINGLE_COLUMN
        end
  end.

End PageAnalyzer.

(** ** Text primitives of the interpreter *)

Module PyText.
Import Py.

(** The code points [str.isspace] accepts, which are also the ones
    [str.strip], [str.split] and the pattern [\s] act on. *)
Definition is_space (c : N) : bool :=
  ((9 <=? c) && (c <=? 13) || (28 <=? c) && (c <=? 32)
   || (c =? 133) || (c =? 160) || (c =? 5760)
   || (8192 <=? c) && (c <=? 8202)
   || (c =? 8232) || (c =? 8233) || (c =? 8239) || (c =? 8287)
   || (c =? 12288))%N.

Fixpoint lstrip (s : pystr) : pystr :=
  match s with
  | c :: t => if is_space c then lstrip t else s
  | [] => []
  end.

(** [s.strip()]. *)
Definition strip (s : pystr) : pystr := rev (lstrip (rev (lstrip s))).

(** [len(s.split())]: the number of maximal runs of non-space code
    points; [in_word] tells whether the previous code point belonged to
    one. *)
Fixpoint count_words (in_word : bool) (s : pystr) : Z :=
  match s with
  | [] => 0
  | c :: t =>
      if is_space c then count_words false t
      else (if in_word then 0 else 1) + count_words true t
  end.

(** [f"{n}"] for an [int]. *)
Definition str_of_int (n : Z) : string :=
  DecimalString.NilZero.string_of_int (Z.to_int n).

End PyText.

(** ** A state monad for the stateful components *)

Module StateM.

Definition State (S A : Type) : Type := S -> A * S.

Definition ret {S A} (a : A) : State S A := fun s => (a, s).

Definition bind {S A B} (m : State S A) (k : A -> State S B)
    : State S B :=
  fun s => let '(a, s') := m s in k a s'.

(** Run a computation on the first component of a product state. *)
Definition on_fst {S T A} (m : State S A) : State (S * T) A :=
  fun st => let '(a, s') := m (fst st) in (a, (s', snd st)).

(** Update the second component of a product state. *)
Definition on_snd {S T} (f : T -> T) : State (S * T) unit :=
  fun st => (tt, (fst st, f (snd st))).

Declare Scope state_scope.
Delimit Scope state_scope with state.
Notation "x <- m ;; k" := (bind m (fun x => k))
  (at level 61, m at next level, right associativity) : state_scope.
Notation "m ;;; k" := (bind m (fun _ => k))
  (at level 61, right associativity) : state_scope.

End StateM.

(** ** extractors/ocr_client.py *)

Module OCRClient.
Import DataModels StateM.

(** The ["bbox"] of a fragment: a dict, whose keys may be missing, or a
    sequence that is splatted into [BBox]. *)
Inductive BBoxData :=
| BBoxDict (dx0 dy0 dx1 dy1 : option Q)
| BBoxSeq (coords : list Q).

(** One element of the ["blocks"] array of the service's JSON answer;
    [None] is a missing key, and a key that is there holds a value of
    the type the service documents. *)
Record BlockData := mkBlockData {
  bd_id : option string;
  bd_type : option string;
  bd_content : option Py.pystr;
  bd_bbox : option BBoxData;
  bd_confidence : option Q;
  bd_metadata : option OCRMeta
}.

Record ResponseData := mkResponseData {
  rd_markdown : option Py.pystr;
  rd_blocks : option (list BlockData);
  rd_raw_output : option Py.pystr
}.

Definition get {A} (v : option A) (default : A) : A :=
  match v with Some a => a | None => default end.

(** The bbox of a fragment; [None] is the [TypeError] of splatting a
    sequence that does not have four elements. *)
Definition parse_bbox (bbox_data : BBoxData) : option BBox :=
  match bbox_data with
  | BBoxDict dx0 dy0 dx1 dy1 =>
      Some (mkBBox (get dx0 0%Q) (get dy0 0%Q) (get dx1 0%Q) (get dy1 0%Q))
  | BBoxSeq [a; b; c; d] => Some (mkBBox a b c d)
  | BBoxSeq _ => None
  end.

(** The body of the loop of [_parse_ocr_response] for one fragment. *)
Definition parse_block (block_data : BlockData) (page_num : Z)
    : option (OCRBlock * Q) :=
  let block_id := get (bd_id block_data) ""%string in
  let type_str := get (bd_type block_data) "paragraph"%string in
  let content := get (bd_content block_data) [] in
  let bbox_data := get (bd_bbox block_data) (BBoxDict None None None None) in
  let confidence := get (bd_confidence block_data) 1%Q in
  match parse_bbox bbox_data with
  | None => None
  | Some bbox =>
      let content_type :=
        match ContentType_of_value type_str with
        | Some t => t
        | None => PARAGRAPH
        end in
      Some (mkOCRBlock block_id content_type content bbox page_num
              confidence "ocr"
              (get (bd_metadata block_data) OCRMeta_empty),
            confidence)
  end.

(** The loop of [_parse_ocr_response]: the lists [ocr_blocks] and
    [confidences] grow together. *)
Fixpoint parse_blocks (blocks_data : list BlockData) (page_num : Z)
    (ocr_blocks : list OCRBlock) (confidences : list Q)
    : option (list OCRBlock * list Q) :=
  match blocks_data with
  | [] => Some (ocr_blocks, confidences)
  | block_data :: rest =>
      match parse_block block_data page_num with
      | None => None
      | Some (ocr_block, confidence) =>
          parse_blocks rest page_num
            (ocr_blocks ++ [ocr_block]) (confidences ++ [confidence])
      end
  end.

(** [OCRClient._parse_ocr_response]; [None] is an exception raised
    while parsing. *)
Definition parse_ocr_response (response_data : ResponseData)
    (page_num : Z) : option OCRResponse :=
  let markdown := get (rd_markdown response_data) [] in
  let blocks_data := get (rd_blocks response_data) [] in
  let raw_output := get (rd_raw_output response_data) [] in
  match parse_blocks blocks_data page_num [] [] with
  | None => None
  | Some (ocr_blocks, confidences) =>
      let avg_confidence :=
        match confidences with
        | [] => 1%Q
        | _ => Py.Qmean confidences
        end in
      let vision_tokens := PyText.count_words false raw_output / 2 in
      let text_tokens := PyText.count_words false markdown in
      Some (mkOCRResponse markdown ocr_blocks page_num vision_tokens
              text_tokens BASE avg_confidence)
  end.

(** What one [self._session.post(...)] followed by [raise_for_status()]
    and [json()] comes to. *)
Inductive PostResult :=
| PostTimeout
| PostConnectionError
| PostHTTPError (status_code : Z)
| PostOtherError
| PostJSON (response_data : ResponseData).

Record Request := mkRequest {
  rq_url : string;
  rq_image : list N;
  rq_prompt_type : string;
  rq_base_size : Z;
  rq_image_size : Z;
  rq_crop_mode : bool;
  rq_timeout : Z
}.

(** The recognition service behind the HTTP session: a state [W] and
    the answer it gives to a request in that state. *)
Class Service (W : Type) := { post : Request -> State W PostResult }.

Record Client := mkClient {
  base_url : string;
  timeout : Z;
  max_retries : Z
}.

(** The outcome of a call of the client: an [OCRResponse], or a
    [RuntimeError]. *)
Inductive CallResult :=
| Raised
| Returned (response : OCRResponse).

(** The request of an attempt that follows another one.  [files] holds
    one stream, [io.BytesIO(image_data)], built before the loop; the
    session reads it to its end when it prepares the body of a request
    and nothing rewinds it, so what an attempt after the first uploads
    is what is left of the stream: an empty file.  The form data are
    the same on every attempt. *)
Definition retry_of (request : Request) : Request :=
  mkRequest (rq_url request) [] (rq_prompt_type request)
    (rq_base_size request) (rq_image_size request) (rq_crop_mode request)
    (rq_timeout request).

(** The retry loop of [ocr_image], with [attempts] turns left;
    [request] is what this turn sends. *)
Fixpoint ocr_image_loop {W} `{Service W} (attempts : nat)
    (request : Request) (page_num : Z) : State W CallResult :=
  match attempts with
  | O => ret Raised
  | S attempts' =>
      (result <- post request ;;
       match result with
       | PostTimeout | PostConnectionError | PostOtherError =>
           ocr_image_loop attempts' (retry_of request) page_num
       | PostHTTPError status_code =>
           if status_code >=? 500
           then ocr_image_loop attempts' (retry_of request) page_num
           else ret Raised
       | PostJSON response_data =>
           match parse_ocr_response response_data page_num with
           | Some response => ret (Returned response)
           | None => ocr_image_loop attempts' (retry_of request) page_num
           end
       end)%state
  end.

(** [OCRClient.ocr_image]. *)
Definition ocr_image {W} `{Service W} (self : Client)
    (image_data : list N) (page_num : Z) (bbox : option BBox)
    (prompt_type : string) (base_size image_size : Z) (crop_mode : bool)
    : State W CallResult :=
  let url := (base_url self ++ "/ocr/figure")%string in
  ocr_image_loop (Z.to_nat (max_retries self))
    (mkRequest url image_data prompt_type base_size image_size crop_mode
       (timeout self))
    page_num.

(** [OCRClient.ocr_figure]. *)
Definition ocr_figure {W} `{Service W} (self : Client)
    (image_data : list N) (page_num : Z) (bbox : option BBox)
    (prompt_type : string) (base_size image_size : Z)
    : State W CallResult :=
  ocr_image self image_data page_num bbox prompt_type base_size
    image_size false.

End OCRClient.

(** ** core/structure_preserver.py *)

Module StructurePreserver.
Import DataModels StateM OCRClient.

(** The blocks of a page: the four kinds the extractor produces and the
    OCR blocks the preserver puts in their place. *)
Inductive Block :=
| BText (b : TextBlock)
| BImage (b : ImageBlock)
| BDrawing (b : DrawingBlock)
| BTable (b : TableBlock)
| BOCR (b : OCRBlock).

Definition block_page_num (b : Block) : Z :=
  match b with
  | BText t => tb_page_num t
  | BImage i => ib_page_num i
  | BDrawing d => db_page_num d
  | BTable t => tbl_page_num t
  | BOCR o => ob_page_num o
  end.

Definition block_bbox (b : Block) : BBox :=
  match b with
  | BText t => tb_bbox t
  | BImage i => ib_bbox i
  | BDrawing d => db_bbox d
  | BTable t => tbl_bbox t
  | BOCR o => ob_bbox o
  end.

(** [self._stats]. *)
Record Stats := mkStats {
  total_images : Z;
  total_drawings : Z;
  ocr_processed : Z;
  ocr_skipped : Z;
  ocr_errors : Z
}.

(** The dictionary [__init__] and [reset_statistics] install. *)
Definition fresh_stats : Stats := mkStats 0 0 0 0 0.

Definition incr_total_images (s : Stats) : Stats :=
  mkStats (total_images s + 1) (total_drawings s) (ocr_processed s)
    (ocr_skipped s) (ocr_errors s).

Definition incr_ocr_processed (s : Stats) : Stats :=
  mkStats (total_images s) (total_drawings s) (ocr_processed s + 1)
    (ocr_skipped s) (ocr_errors s).

Definition incr_ocr_errors (s : Stats) : Stats :=
  mkStats (total_images s) (total_drawings s) (ocr_processed s)
    (ocr_skipped s) (ocr_errors s + 1).

(** The attributes [__init__] sets besides the statistics. *)
Record Preserver := mkPreserver {
  ocr_client : option Client;
  min_area : Q
}.

(** [StructurePreserver._get_position_key]. *)
Definition get_position_key (block : Block) : PySort.position_key :=
  (block_page_num block, (- y1 (block_bbox block))%Q, x0 (block_bbox block)).

(** [{"source": ..., "original_format": ..., "markdown": ...,
    **first_block.metadata}]: a key of the first fragment wins. *)
Definition merged_metadata (image_block : ImageBlock)
    (markdown : Py.pystr) (first : OCRMeta) : OCRMeta :=
  mkOCRMeta
    (Some (get (om_source first) "image_ocr"%string))
    (Some (get (om_original_format first) (ib_format image_block)))
    (Some (get (om_markdown first) markdown)).

(** [StructurePreserver._process_image_ocr]: [None] is returned when
    there is no client, when the call raised and when the answer has no
    fragment. *)
Definition process_image_ocr {W} `{Service W} (self : Preserver)
    (image_block : ImageBlock) (page_num : Z)
    : State W (option OCRBlock) :=
  match ocr_client self with
  | None => ret None
  | Some client =>
      (outcome <- ocr_figure client (ib_image_data image_block) page_num
                    (Some (ib_bbox image_block)) "parse_figure" 1024 1024 ;;
       match outcome with
       | Raised => ret None
       | Returned ocr_response =>
           match or_blocks ocr_response with
           | [] => ret None
           | first_block :: _ =>
               let combined_content :=
                 Py.join [Py.LF] (map ob_content (or_blocks ocr_response)) in
               ret (Some
                 (mkOCRBlock
                    ("ocr_image_" ++ PyText.str_of_int page_num ++ "_"
                       ++ PyText.str_of_int (ib_object_id image_block))
                    (ob_type first_block)
                    combined_content
                    (ib_bbox image_block)
                    page_num
                    (or_confidence_avg ocr_response)
                    "ocr"
                    (merged_metadata image_block
                       (or_markdown ocr_response)
                       (ob_metadata first_block))))
           end
       end)%state
  end.

(** The body of the loop of [process_structure] for one block: the
    blocks it appends to [processed_blocks]. *)
Definition process_block {W} `{Service W} (self : Preserver)
    (page_num : Z) (block : Block) : State (W * Stats) (list Block) :=
  match block with
  | BImage image =>
      if ib_needs_ocr image then
        (on_snd incr_total_images ;;;
         ocr_block <- on_fst (process_image_ocr self image page_num) ;;
         match ocr_block with
         | Some o => on_snd incr_ocr_processed ;;; ret [BOCR o]
         | None => on_snd incr_ocr_errors ;;; ret [block]
         end)%state
      else ret [block]
  | BDrawing _ => ret []
  | _ => ret [block]
  end.

(** The loop of [process_structure]. *)
Fixpoint process_blocks {W} `{Service W} (self : Preserver)
    (page_num : Z) (blocks : list Block) (processed_blocks : list Block)
    : State (W * Stats) (list Block) :=
  match blocks with
  | [] => ret processed_blocks
  | block :: rest =>
      (out <- process_block self page_num block ;;
       process_blocks self page_num rest (processed_blocks ++ out))%state
  end.

(** [StructurePreserver.process_structure]. *)
Definition process_structure {W} `{Service W} (self : Preserver)
    (blocks : list Block) (page_num : Z)
    : State (W * Stats) (list Block) :=
  (processed_blocks <- process_blocks self page_num blocks [] ;;
   ret (PySort.sorted PySort.position_ltb get_position_key
          processed_blocks))%state.

(** [StructurePreserver.reset_statistics]. *)
Definition reset_statistics {W} : State (W * Stats) unit :=
  on_snd (fun _ => fresh_stats).

(** What a caller can do with a preserver between its construction and
    the reading of the statistics. *)
Inductive Call :=
| CallProcess (blocks : list Block) (page_num : Z)
| CallReset.

(** A sequence of calls on the same preserver; the lists returned by
    [process_structure] are collected. *)
Fixpoint run_calls {W} `{Service W} (self : Preserver)
    (calls : list Call) : State (W * Stats) (list (list Block)) :=
  match calls with
  | [] => ret []
  | CallProcess blocks page_num :: rest =>
      (out <- process_structure self blocks page_num ;;
       outs <- run_calls self rest ;;
       ret (out :: outs))%state
  | CallReset :: rest => (reset_statistics ;;; run_calls self rest)%state
  end.

(** A preserver as [__init__] leaves it: the attributes and fresh
    statistics, facing a service in state [w]. *)
Definition init {W} (w : W) : W * Stats := (w, fresh_stats).

End StructurePreserver.

(** ** ir/models.py and ir/builder.py *)

Module IR.
Import DataModels.

(** How a key of [metadata] that holds an optional number can look:
    missing, present with [None], present with a number. *)
Inductive Entry :=
| Missing
| IsNone
| Num (v : Q).

(** The keys of [IRBlock.metadata] the structure analyzer reads or
    writes. *)
Record Metadata := mkMetadata {
  font_size : Entry;
  is_bold : bool;
  heading_level : option Z;
  original_type : option string;
  parent_heading : option string;
  list_id : option string;
  list_type : option string
}.

Record IRBlock := mkIRBlock {
  id : string;
  type : ContentType;
  content : Py.pystr;
  page : Z;
  bbox : BBox;
  source : string;
  confidence : option Q;
  metadata : Metadata
}.

(** [IRBlock.get_position_key]. *)
Definition get_position_key (self : IRBlock) : PySort.position_key :=
  (page self, (- y1 (bbox self))%Q, x0 (bbox self)).

Record IRRelation := mkIRRelation {
  rel_type : string;
  from_id : string;
  to_id : string;
  rel_sequence : Z
}.

(** The body of the loop of [_build_relations] at index [i]; an index
    out of range, which would be an [IndexError], yields nothing. *)
Definition relation_at (sorted_blocks : list IRBlock) (i : nat)
    : list IRRelation :=
  match nth_error sorted_blocks i, nth_error sorted_blocks (i + 1) with
  | Some current, Some next_block =>
      [mkIRRelation "reading_order" (id current) (id next_block)
         (Z.of_nat i)]
  | _, _ => []
  end.

(** [IRBuilder._build_relations]: [i] ranges over
    [range(len(sorted_blocks) - 1)]. *)
Definition build_relations (blocks : list IRBlock) : list IRRelation :=
  let sorted_blocks :=
    PySort.sorted PySort.position_ltb get_position_key blocks in
  flat_map (relation_at sorted_blocks)
    (seq 0 (length sorted_blocks - 1)).

End IR.

(** ** Regular expressions, as [re.match] decides them *)

Module Regex.
Import Py.

(** The table behind the pattern [\d]: the code points of category Nd.
    It belongs to the interpreter's Unicode database, not to the
    program, and is a parameter of the embedding. *)
Class DecimalTable := { is_decimal : N -> bool }.

(** The patterns of the program use character classes, concatenation
    and [+] only. *)
Inductive re :=
| Void
| Eps
| Sym (p : N -> bool)
| Cat (a b : re)
| Alt (a b : re)
| Star (a : re).

Definition Plus (a : re) : re := Cat a (Star a).

(** The strings an expression denotes. *)
Inductive matches : re -> pystr -> Prop :=
| MEps : matches Eps []
| MSym p c : p c = true -> matches (Sym p) [c]
| MCat a b s t : matches a s -> matches b t -> matches (Cat a b) (s ++ t)
| MAltL a b s : matches a s -> matches (Alt a b) s
| MAltR a b s : matches b s -> matches (Alt a b) s
| MStarNil a : matches (Star a) []
| MStarCons a s t :
    matches a s -> matches (Star a) t -> matches (Star a) (s ++ t).

Fixpoint nullable (r : re) : bool :=
  match r with
  | Void => false
  | Eps => true
  | Sym _ => false
  | Cat a b => nullable a && nullable b
  | Alt a b => nullable a || nullable b
  | Star _ => true
  end.

(** What is left of [r] once the code point [c] has been read. *)
Fixpoint deriv (c : N) (r : re) : re :=
  match r with
  | Void => Void
  | Eps => Void
  | Sym p => if p c then Eps else Void
  | Cat a b =>
      if nullable a then Alt (Cat (deriv c a) b) (deriv c b)
      else Cat (deriv c a) b
  | Alt a b => Alt (deriv c a) (deriv c b)
  | Star a => Cat (deriv c a) (Star a)
  end.

(** [re.match(r, s)] is not [None]: some prefix of [s] is matched. *)
Fixpoint match_prefix (r : re) (s : pystr) : bool :=
  nullable r ||
  match s with
  | [] => false
  | c :: t => match_prefix (deriv c r) t
  end.

(** [re.match(r + '$', s)] is not [None]: [$] holds at the end of the
    string and just before a line feed that ends it. *)
Fixpoint match_dollar (r : re) (s : pystr) : bool :=
  match s with
  | [] => nullable r
  | c :: t =>
      (nullable r && (c =? LF)%N
       && match t with [] => true | _ => false end)
      || match_dollar (deriv c r) t
  end.

Fixpoint word (w : pystr) : re :=
  match w with
  | [] => Eps
  | c :: t => Cat (Sym (N.eqb c)) (word t)
  end.

Definition chr (c : string) : re := word (lit c).

Definition in_range (lo hi c : N) : bool := ((lo <=? c) && (c <=? hi))%N.

Definition digit `{DecimalTable} : re := Sym is_decimal.
Definition space : re := Sym PyText.is_space.

(** [[A-ZА-Я]]: the Latin capitals and U+0410..U+042F. *)
Definition is_capital (c : N) : bool :=
  in_range 65 90 c || in_range 1040 1071 c.

(** The Nd code points of Unicode 14.0: sixty-one runs of ten digits
    and the mathematical digits U+1D7CE..U+1D7FF. *)
Definition decimal_runs : list N :=
  [48; 1632; 1776; 1984; 2406; 2534; 2662; 2790; 2918; 3046; 3174; 3302;
   3430; 3558; 3664; 3792; 3872; 4160; 4240; 6112; 6160; 6470; 6608;
   6784; 6800; 6992; 7088; 7232; 7248; 42528; 43216; 43264; 43472;
   43504; 43600; 44016; 65296; 66720; 68912; 69734; 69872; 69942; 70096;
   70384; 70736; 70864; 71248; 71360; 71472; 71904; 72016; 72784; 73040;
   73120; 92768; 92864; 93008; 123200; 123632; 125264; 130032]%N.

#[export] Instance unicode14 : DecimalTable :=
  {| is_decimal c :=
       existsb (fun lo => in_range lo (lo + 9) c) decimal_runs
       || in_range 120782 120831 c |}.

End Regex.

(** ** ir/structure_analyzer.py *)

Module StructureAnalyzer.
Import DataModels IR Regex.

(** A pattern of the program: its body and whether it ends in [$]. *)
Record Pattern := mkPattern { body : re; dollar : bool }.

Definition re_match (p : Pattern) (text : Py.pystr) : bool :=
  if dollar p then match_dollar (body p) text
  else match_prefix (body p) text.

Section Patterns.
Context `{DecimalTable}.

(** U+0413 U+043B U+0430 U+0432 U+0430 *)
Definition Glava : Py.pystr := [1043; 1083; 1072; 1074; 1072]%N.
(** U+0420 U+0430 U+0437 U+0434 U+0435 U+043B *)
Definition Razdel : Py.pystr := [1056; 1072; 1079; 1076; 1077; 1083]%N.
(** U+041F U+0440 U+0438 U+043B U+043E U+0436 U+0435 U+043D U+0438
    U+0435 *)
Definition Prilozhenie : Py.pystr :=
  [1055; 1088; 1080; 1083; 1086; 1078; 1077; 1085; 1080; 1077]%N.

Definition HEADING_PATTERNS : list Pattern :=
  [ mkPattern (Cat (Plus digit) (Cat (chr ".") (Plus space))) false;
    mkPattern
      (Cat (Plus digit) (Cat (chr ".") (Cat (Plus digit) (Plus space))))
      false;
    mkPattern
      (Cat (Sym is_capital)
           (Plus (Sym (fun c => is_capital c || PyText.is_space c))))
      true;
    mkPattern (Cat (word Glava) (Cat (Plus space) (Plus digit))) false;
    mkPattern (Cat (word Razdel) (Cat (Plus space) (Plus digit))) false;
    mkPattern
      (Cat (word Prilozhenie)
           (Cat (Plus space)
                (Sym (fun c => is_capital c || is_decimal c))))
      false ].

(** [^\d+\.\d+\.\d+], [^\d+\.\d+] and [^\d+\.]. *)
Definition depth3 : Pattern :=
  mkPattern
    (Cat (Plus digit) (Cat (chr ".") (Cat (Plus digit)
       (Cat (chr ".") (Plus digit))))) false.
Definition depth2 : Pattern :=
  mkPattern (Cat (Plus digit) (Cat (chr ".") (Plus digit))) false.
Definition depth1 : Pattern :=
  mkPattern (Cat (Plus digit) (chr ".")) false.

(** Heuristic 1: the loop over [HEADING_PATTERNS], entered with
    [is_heading = False] and [heading_level = 1]. *)
Definition heuristic_patterns (text : Py.pystr) : bool * Z :=
  if existsb (fun p => re_match p text) HEADING_PATTERNS then
    (true,
     if re_match depth3 text then 3
     else if re_match depth2 text then 2
     else if re_match depth1 text then 1
     else 1)
  else (false, 1).
End Patterns.

(** An exception leaves the function: the [TypeError] of comparing
    [None] with a float. *)
Inductive result (A : Type) :=
| Ok (a : A)
| TypeError.
Arguments Ok {A} a.
Arguments TypeError {A}.

Definition is_text_type (t : ContentType) : bool :=
  match t with TEXT | PARAGRAPH => true | _ => false end.

Definition is_candidate_type (t : ContentType) : bool :=
  match t with TEXT | PARAGRAPH | HEADING => true | _ => false end.

(** The first loop of [_identify_headings]: the font sizes that are
    present and true. *)
Fixpoint collect_font_sizes (blocks : list IRBlock) : list Q :=
  match blocks with
  | [] => []
  | block :: rest =>
      if is_text_type (type block) then
        match font_size (metadata block) with
        | Num v =>
            if Py.Qeqb v 0 then collect_font_sizes rest
            else v :: collect_font_sizes rest
        | _ => collect_font_sizes rest
        end
      else collect_font_sizes rest
  end.

Definition avg_font_size (blocks : list IRBlock) : Q :=
  match collect_font_sizes blocks with
  | [] => 12%Q
  | font_sizes => Py.Qmean font_sizes
  end.

(** Heuristic 2, on a font size that is a number. *)
Definition heuristic_font (avg font : Q) (st : bool * Z) : bool * Z :=
  if Py.Qgtb font (avg * (12 # 10))%Q then
    (true,
     if Py.Qgtb font (avg * (15 # 10))%Q then 1
     else if Py.Qgtb font (avg * (13 # 10))%Q then 2
     else 3)
  else st.

(** Heuristic 3. *)
Definition heuristic_bold (is_bold : bool) (text : Py.pystr)
    (st : bool * Z) : bool * Z :=
  if is_bold && (Py.len text <? 100) then (true, Z.min (snd st) 2)
  else st.

Definition set_heading (block : IRBlock) (heading_level : Z) : IRBlock :=
  let m := metadata block in
  mkIRBlock (id block) HEADING (content block) (page block) (bbox block)
    (source block) (confidence block)
    (mkMetadata (font_size m) (is_bold m) (Some heading_level)
       (Some "heading"%string) (parent_heading m) (list_id m)
       (list_type m)).

(** The body of the second loop of [_identify_headings]. *)
Definition classify_block `{DecimalTable} (avg : Q) (block : IRBlock)
    : result IRBlock :=
  if negb (is_candidate_type (type block)) then Ok block
  else
    let text := PyText.strip (content block) in
    let is_bold := is_bold (metadata block) in
    let st1 := heuristic_patterns text in
    let after_font :=
      match font_size (metadata block) with
      | Missing => Ok (heuristic_font avg avg st1)
      | Num v => Ok (heuristic_font avg v st1)
      | IsNone => TypeError
      end in
    match after_font with
    | TypeError => TypeError
    | Ok st2 =>
        let '(is_heading, heading_level) :=
          heuristic_bold is_bold text st2 in
        if is_heading then Ok (set_heading block heading_level)
        else Ok block
    end.

Fixpoint classify_blocks `{DecimalTable} (avg : Q)
    (blocks : list IRBlock) : result (list IRBlock) :=
  match blocks with
  | [] => Ok []
  | block :: rest =>
      match classify_block avg block with
      | TypeError => TypeError
      | Ok block' =>
          match classify_blocks avg rest with
          | TypeError => TypeError
          | Ok rest' => Ok (block' :: rest')
          end
      end
  end.

(** [StructureAnalyzer._identify_headings], on [ir.blocks]. *)
Definition identify_headings `{DecimalTable} (blocks : list IRBlock)
    : result (list IRBlock) :=
  classify_blocks (avg_font_size blocks) blocks.

Definition set_parent_heading (block : IRBlock) (parent : string)
    : IRBlock :=
  let m := metadata block in
  mkIRBlock (id block) (type block) (content block) (page block)
    (bbox block) (source block) (confidence block)
    (mkMetadata (font_size m) (is_bold m) (heading_level m)
       (original_type m) (Some parent) (list_id m) (list_type m)).

(** [heading_stack], its top first. *)
Definition Stack := list (Z * string).

(** [while heading_stack and heading_stack[-1][0] >= level: pop()]. *)
Fixpoint pop_while (stack : Stack) (level : Z) : Stack :=
  match stack with
  | (l, _) :: below => if l >=? level then pop_while below level else stack
  | [] => []
  end.

(** The body of the loop of [_build_hierarchy]. *)
Definition hierarchy_step (stack : Stack) (block : IRBlock)
    : Stack * IRBlock :=
  if ContentType_eqb (type block) HEADING then
    let level :=
      match heading_level (metadata block) with
      | Some l => l
      | None => 1
      end in
    let stack' := pop_while stack level in
    let block' :=
      match stack' with
      | (_, parent_id) :: _ => set_parent_heading block parent_id
      | [] => block
      end in
    ((level, id block) :: stack', block')
  else
    match stack with
    | (_, parent_id) :: _ => (stack, set_parent_heading block parent_id)
    | [] => (stack, block)
    end.

Fixpoint hierarchy_loop (stack : Stack) (blocks : list IRBlock)
    : Stack * list IRBlock :=
  match blocks with
  | [] => (stack, [])
  | block :: rest =>
      let '(stack', block') := hierarchy_step stack block in
      let '(final, rest') := hierarchy_loop stack' rest in
      (final, block' :: rest')
  end.

(** [StructureAnalyzer._build_hierarchy], on [ir.blocks]. *)
Definition build_hierarchy (blocks : list IRBlock) : list IRBlock :=
  snd (hierarchy_loop [] blocks).

End StructureAnalyzer.

(** ** Vocabulary of the statements *)

Module Chain.
Import IR.

(** The relations of a path through [l]: one edge from each block to
    the next, numbered from [i]. *)
Fixpoint path_relations (i : Z) (l : list IRBlock) : list IRRelation :=
  match l with
  | current :: ((next_block :: _) as rest) =>
      mkIRRelation "reading_order" (id current) (id next_block) i
        :: path_relations (i + 1) rest
  | _ => []
  end.

(** The blocks in reading order. *)
Definition reading_order (blocks : list IRBlock) : list IRBlock :=
  PySort.sorted PySort.position_ltb get_position_key blocks.

End Chain.

Module Recognition.
Import DataModels StateM OCRClient StructurePreserver.

(** The call the preserver makes for an image. *)
Definition figure_call {W} `{Service W} (client : Client)
    (image : ImageBlock) (page_num : Z) : State W CallResult :=
  ocr_figure client (ib_image_data image) page_num
    (Some (ib_bbox image)) "parse_figure" 1024 1024.

(** Recognition of [image] fails in the service state [w]: there is no
    client, or the call raises, or it returns no fragment. *)
Definition recognition_fails {W} `{Service W} (self : Preserver)
    (image : ImageBlock) (page_num : Z) (w : W) : Prop :=
  match ocr_client self with
  | None => True
  | Some client =>
      match fst (figure_call client image page_num w) with
      | Raised => True
      | Returned response => or_blocks response = []
      end
  end.

(** The state of the service once the preserver has dealt with
    [image]. *)
Definition service_after {W} `{Service W} (self : Preserver)
    (image : ImageBlock) (page_num : Z) (w : W) : W :=
  match ocr_client self with
  | None => w
  | Some client => snd (figure_call client image page_num w)
  end.

(** The two invariants of the statistics. *)
Definition stats_consistent (s : Stats) : Prop :=
  total_images s = ocr_processed s + ocr_errors s /\ ocr_skipped s = 0.

Definition is_flagged_image (b : Block) : bool :=
  match b with
  | BImage image => ib_needs_ocr image
  | _ => false
  end.

(** A service that answers every request with the same JSON
    document. *)
Definition constant_service (answer : ResponseData) : Service unit :=
  {| post := fun _ => ret (PostJSON answer) |}.

(** A service that is never reached. *)
Definition unreachable_service : Service unit :=
  {| post := fun _ => ret PostConnectionError |}.

End Recognition.

(** ** Sample inputs *)

Module Samples.
Import DataModels OCRClient StructurePreserver PageAnalyzer.

Definition placeholder_bbox : BBox := mkBBox 50 400 300 700.

(** A flagged image, as the extractor renders a graphical region. *)
Definition flagged_image : ImageBlock :=
  mkImageBlock 140000 placeholder_bbox [137; 80; 78; 71]%N "png" 2
    IMAGE (Some 250) (Some 300) None true.

Definition paragraph_above : TextBlock :=
  TextBlock_new (mkBBox 50 720 500 740) (Py.lit "Process overview") 2 TEXT
    (Some "Arial"%string) (Some 11%Q) false false.

Definition border_drawing : DrawingBlock :=
  mkDrawingBlock (mkBBox 40 390 310 710) (Some "rect"%string) 2 VECTOR
    None false.

Definition client : Client := mkClient "http://localhost:8000" 120 3.

Definition preserver : Preserver := mkPreserver (Some client) 1000.

(** The answer of the merging scenario: fragments "A" and "B" with
    confidences 0.9 and 0.7, each with a bbox of its own. *)
Definition answer_A_B : ResponseData :=
  mkResponseData (Some (Py.lit "A B"))
    (Some
       [ mkBlockData (Some "ocr_block_0"%string) (Some "heading"%string)
           (Some (Py.lit "A")) (Some (BBoxDict (Some 1) (Some 2) (Some 3)
           (Some 4))%Q) (Some (9 # 10)) None;
         mkBlockData (Some "ocr_block_1"%string) (Some "paragraph"%string)
           (Some (Py.lit "B")) (Some (BBoxSeq [5; 6; 7; 8]%Q))
           (Some (7 # 10)) None ])
    (Some (Py.lit "A B")).


End Samples.

Module Headings.
Import DataModels IR StructureAnalyzer.

(** What the heading pass decides about a block. *)
Definition classification (b : IRBlock) : ContentType * option Z :=
  (type b, heading_level (metadata b)).



Definition level_of (block : IRBlock) : Z :=
  match heading_level (metadata block) with
  | Some l => l
  | None => 1
  end.

(** A native text block of the IR, with the metadata the builder
    copies from the extractor. *)
Definition text_block (name : string) (text : string) (size : Q)
    (bold : bool) : IRBlock :=
  mkIRBlock name PARAGRAPH (Py.lit text) 1 (mkBBox 50 700 500 720)
    "native" None
    (mkMetadata (Num size) bold None None None None None).


(** A page whose body is set in 8 points, with a note in 11 points
    and a bold caption in 14 points. *)
Definition mixed_sizes : list IRBlock :=
  [ text_block "text_1" "first paragraph of the body" 8 false;
    text_block "text_2" "second paragraph of the body" 8 false;
    text_block "text_3" "a note set slightly larger" 11 false;
    text_block "text_4" "caption in bold" 14 true ].

(** A page in one size with a bold line. *)
Definition one_size : list IRBlock :=
  [ text_block "text_1" "first paragraph of the body" 12 false;
    text_block "text_2" "summary" 12 true ].


End Headings.

(** ** models/data_models.py: the methods of [BBox] *)

Module BBoxMethods.
Import DataModels.

(** [min(a, b)] of Python: the first argument unless the second is
    strictly smaller. *)
Definition py_min (a b : Q) : Q := if Py.Qltb b a then b else a.

(** [BBox.to_tuple]. *)
Definition to_tuple (self : BBox) : Q * Q * Q * Q :=
  (x0 self, y0 self, x1 self, y1 self).

(** [BBox.area]. *)
Definition area (self : BBox) : Q :=
  ((x1 self - x0 self) * (y1 self - y0 self))%Q.

(** [BBox.overlaps]. *)
Definition overlaps (self other : BBox) : bool :=
  negb (Py.Qltb (x1 self) (x0 other)
        || Py.Qgtb (x0 self) (x1 other)
        || Py.Qltb (y1 self) (y0 other)
        || Py.Qgtb (y0 self) (y1 other)).

(** [BBox.overlap_area]. *)
Definition overlap_area (self other : BBox) : Q :=
  if negb (overlaps self other) then 0%Q
  else
    let x_overlap :=
      (py_min (x1 self) (x1 other) - Py.Qmax (x0 self) (x0 other))%Q in
    let y_overlap :=
      (py_min (y1 self) (y1 other) - Py.Qmax (y0 self) (y0 other))%Q in
    (x_overlap * y_overlap)%Q.

(** The invariant of the data model: the corners are in order. *)
Definition well_formed (b : BBox) : Prop :=
  (x0 b <= x1 b)%Q /\ (y0 b <= y1 b)%Q.

End BBoxMethods.

(** ** core/analyzer.py and core/router.py: the page-level entry points *)

Module PageAnalysis.
Import DataModels PageAnalyzer ContentRouter.

Definition HIGH_DENSITY_CHARS : Z := 2000.

(** What the analyzer reads from a [fitz.Page]: its number, size and
    rotation, the text of [get_text()], the blocks of
    [get_text("dict")], and, for each image of [get_images] and each
    drawing of [get_drawings], the rectangle the page reports ([None]
    when [get_image_bbox] raises or when the rectangle is missing or
    false). *)
Record Page := mkPage {
  pg_number : Z;
  pg_width : Q;
  pg_height : Q;
  pg_rotation : Z;
  pg_text : Py.pystr;
  pg_blocks : list DictBlock;
  pg_images : list (option BBox);
  pg_drawings : list (option (Q * Q * Q * Q))
}.

(** [int(x)] on a float: truncation towards zero. *)
Definition py_int (q : Q) : Z := Z.quot (Qnum q) (Z.pos (Qden q)).

(** [PageAnalyzer.estimate_text_density]. *)
Definition estimate_text_density (page : Page) : Z :=
  let text := PyText.strip (pg_text page) in
  match text with
  | [] => 0
  | _ =>
      let char_count := Py.len text in
      py_int (inject_Z char_count * TOKEN_ESTIMATE_RATIO)
  end.

(** [PageAnalyzer.has_text_layer]. *)
Definition has_text_layer_of (page : Page) : bool :=
  match PyText.strip (pg_text page) with
  | [] => false
  | _ => true
  end.

(** The two loops of [calculate_bbox_coverage]. *)
Definition add_image_area (graphic_area : Q) (img : option BBox) : Q :=
  match img with
  | Some bbox =>
      (graphic_area + (x1 bbox - x0 bbox) * (y1 bbox - y0 bbox))%Q
  | None => graphic_area
  end.

Definition add_drawing_area (graphic_area : Q)
    (rect : option (Q * Q * Q * Q)) : Q :=
  match rect with
  | Some (r0, r1, r2, r3) => (graphic_area + (r2 - r0) * (r3 - r1))%Q
  | None => graphic_area
  end.

(** [PageAnalyzer.calculate_bbox_coverage]. *)
Definition calculate_bbox_coverage (page : Page) : Q :=
  let page_area := (pg_width page * pg_height page)%Q in
  if Py.Qeqb page_area 0 then 0%Q
  else
    let graphic_area := fold_left add_image_area (pg_images page) 0%Q in
    let graphic_area :=
      fold_left add_drawing_area (pg_drawings page) graphic_area in
    BBoxMethods.py_min (graphic_area / page_area) 1.

(** [PageAnalyzer.analyze_page]. *)
Definition analyze_page (page : Page) : PageMetadata :=
  mkPageMetadata (pg_number page) (pg_width page) (pg_height page)
    (pg_rotation page)
    (has_text_layer_of page)
    (estimate_text_density page)
    (detect_layout_type (pg_blocks page) (pg_width page))
    (Z.of_nat (length (pg_images page)))
    (Z.of_nat (length (pg_drawings page)))
    0
    (calculate_bbox_coverage page).

(** [PageAnalyzer.is_dense_page], with its optional threshold. *)
Definition is_dense_page (page : Page) (threshold : option Z) : bool :=
  let threshold :=
    match threshold with
    | Some t => t
    | None => HIGH_DENSITY_CHARS
    end in
  estimate_text_density page >=? threshold.

(** [PageAnalyzer.is_complex_layout]. *)
Definition is_complex_layout (page : Page) : bool :=
  match detect_layout_type (pg_blocks page) (pg_width page) with
  | COMPLEX | NEWSPAPER => true
  | _ => false
  end.

(** [RouteDecisionInfo], the reason kept as the router built it. *)
Record RouteDecisionInfo := mkRouteDecisionInfo {
  rd_decision : RouteDecision;
  rd_ocr_mode : option OCRMode;
  rd_reason : Reason;
  rd_metadata : PageMetadata
}.

(** [ContentRouter.route_page]. *)
Definition route_page (self : Router) (page : Page)
    (metadata : option PageMetadata) : RouteDecisionInfo :=
  let metadata :=
    match metadata with
    | Some m => m
    | None => analyze_page page
    end in
  let '(decision, ocr_mode, reason) := apply_routing_rules self metadata in
  mkRouteDecisionInfo decision ocr_mode reason metadata.

(** The tiers in the order of their capacity. *)
Definition tier_rank (m : OCRMode) : Z :=
  match m with
  | TINY => 0 | SMALL => 1 | BASE => 2 | LARGE => 3 | GUNDAM => 4
  end.

(** The rectangle of a drawing has its corners in order. *)
Definition rect_well_formed (r : option (Q * Q * Q * Q)) : Prop :=
  match r with
  | Some (r0, r1, r2, r3) => (r0 <= r2)%Q /\ (r1 <= r3)%Q
  | None => True
  end.

Definition image_well_formed (b : option BBox) : Prop :=
  match b with
  | Some bbox => BBoxMethods.well_formed bbox
  | None => True
  end.

(** Two columns next to each other in a list of columns. *)
Fixpoint adjacent_gaps (columns : list (Q * Q)) : Prop :=
  match columns with
  | (_, e) :: (((s, _) :: _) as rest) =>
      (e + MULTI_COLUMN_GAP < s)%Q /\ adjacent_gaps rest
  | _ => True
  end.

(** The interval lies within the column. *)
Definition within (interval column : Q * Q) : Prop :=
  (fst column <= fst interval)%Q /\ (snd interval <= snd column)%Q.

(** The interval lies within one of the columns. *)
Definition covered (columns : list (Q * Q)) (interval : Q * Q) : Prop :=
  exists c, In c columns /\ within interval c.

End PageAnalysis.

(** ** pipeline.py: handing the page over to the builder *)

Module Pipeline.
Import DataModels StructurePreserver.

(** The dictionary of one page the builder consumes. *)
Record PageData := mkPageData {
  text_blocks : list TextBlock;
  image_blocks : list ImageBlock;
  drawing_blocks : list DrawingBlock;
  table_blocks : list TableBlock;
  ocr_blocks : list OCRBlock
}.

Definition empty_page_data : PageData := mkPageData [] [] [] [] [].

(** The body of the loop of [_split_blocks_by_type]. *)
Definition split_step (result : PageData) (block : Block) : PageData :=
  match block with
  | BText b =>
      mkPageData (text_blocks result ++ [b]) (image_blocks result)
        (drawing_blocks result) (table_blocks result) (ocr_blocks result)
  | BOCR b =>
      mkPageData (text_blocks result) (image_blocks result)
        (drawing_blocks result) (table_blocks result)
        (ocr_blocks result ++ [b])
  | BImage b =>
      mkPageData (text_blocks result) (image_blocks result ++ [b])
        (drawing_blocks result) (table_blocks result) (ocr_blocks result)
  | BDrawing b =>
      mkPageData (text_blocks result) (image_blocks result)
        (drawing_blocks result ++ [b]) (table_blocks result)
        (ocr_blocks result)
  | BTable b =>
      mkPageData (text_blocks result) (image_blocks result)
        (drawing_blocks result) (table_blocks result ++ [b])
        (ocr_blocks result)
  end.

(** [PDFToContextPipeline._split_blocks_by_type]. *)
Definition split_blocks_by_type (blocks : list Block) : PageData :=
  fold_left split_step blocks empty_page_data.

(** [page_data["text_blocks"] + page_data["image_blocks"] +
    page_data["drawing_blocks"] + page_data["table_blocks"]], the list
    the pipeline hands to the preserver. *)
Definition all_blocks (page_data : PageData) : list Block :=
  map BText (text_blocks page_data)
  ++ map BImage (image_blocks page_data)
  ++ map BDrawing (drawing_blocks page_data)
  ++ map BTable (table_blocks page_data).

(** The body of the page loop of [process_to_ir] once the extractor has
    delivered [page_data]: the preserver runs when OCR is enabled and
    the page has images. *)
Definition embed_ocr {W} `{OCRClient.Service W} (enable_ocr : bool)
    (preserver : Preserver) (page_data : PageData) (page_num : Z)
    : StateM.State (W * Stats) PageData :=
  if enable_ocr
     && match image_blocks page_data with [] => false | _ => true end
  then
    StateM.bind
      (process_structure preserver (all_blocks page_data) page_num)
      (fun processed_blocks =>
         StateM.ret (split_blocks_by_type processed_blocks))
  else StateM.ret page_data.

(** The same step in the page loop of [process]: there the preserver
    also runs on a page that has drawings and no image. *)
Definition embed_ocr_process {W} `{OCRClient.Service W} (enable_ocr : bool)
    (preserver : Preserver) (page_data : PageData) (page_num : Z)
    : StateM.State (W * Stats) PageData :=
  if enable_ocr
     && (match image_blocks page_data with [] => false | _ => true end
         || match drawing_blocks page_data with [] => false | _ => true end)
  then
    StateM.bind
      (process_structure preserver (all_blocks page_data) page_num)
      (fun processed_blocks =>
         StateM.ret (split_blocks_by_type processed_blocks))
  else StateM.ret page_data.

(** The kinds of blocks, as projections of a list. *)
Definition texts_of (blocks : list Block) : list TextBlock :=
  flat_map (fun b => match b with BText t => [t] | _ => [] end) blocks.
Definition images_of (blocks : list Block) : list ImageBlock :=
  flat_map (fun b => match b with BImage t => [t] | _ => [] end) blocks.
Definition drawings_of (blocks : list Block) : list DrawingBlock :=
  flat_map (fun b => match b with BDrawing t => [t] | _ => [] end) blocks.
Definition tables_of (blocks : list Block) : list TableBlock :=
  flat_map (fun b => match b with BTable t => [t] | _ => [] end) blocks.
Definition ocrs_of (blocks : list Block) : list OCRBlock :=
  flat_map (fun b => match b with BOCR t => [t] | _ => [] end) blocks.

Definition is_drawing (b : Block) : bool :=
  match b with BDrawing _ => true | _ => false end.

(** The blocks the preserver keeps. *)
Definition kept (b : Block) : bool := negb (is_drawing b).

(** The blocks in reading order. *)
Definition in_reading_order (blocks : list Block) : list Block :=
  PySort.sorted PySort.position_ltb get_position_key blocks.

End Pipeline.

(** ** Counting the requests a client makes *)

Module Requests.
Import StateM OCRClient.

(** The service [S] with a counter of the requests it has answered. *)
Definition counting {W} (S : Service W) : Service (W * nat) :=
  {| post := fun request st =>
       let '(result, w') := @post W S request (fst st) in
       (result, (w', Datatypes.S (snd st))) |}.

(** The answer cannot be used: the client logs it and tries again. *)
Definition is_transient (page_num : Z) (result : PostResult) : bool :=
  match result with
  | PostTimeout | PostConnectionError | PostOtherError => true
  | PostHTTPError status_code => status_code >=? 500
  | PostJSON response_data =>
      match parse_ocr_response response_data page_num with
      | Some _ => false
      | None => true
      end
  end.

(** A fragment whose ["bbox"] is a sequence that [BBox] cannot be
    built from. *)
Definition malformed_bbox (block_data : BlockData) : bool :=
  match bd_bbox block_data with
  | Some (BBoxSeq coords) => negb (length coords =? 4)%nat
  | _ => false
  end.

Definition in_unit_interval (q : Q) : Prop := (0 <= q)%Q /\ (q <= 1)%Q.

End Requests.

(** ** The answers a client gets *)

Module Answers.
Import StateM OCRClient Requests.

(** The answers the service gives to the first [k] requests of a call,
    one after the other: [request] is the first of them. *)
Fixpoint answers {W} `{Service W} (k : nat) (request : Request) (w : W)
    : list PostResult :=
  match k with
  | O => []
  | S k' =>
      let '(result, w') := post request w in
      result :: answers k' (retry_of request) w'
  end.

(** The answers the service gives to a list of requests. *)
Fixpoint answers_to {W} `{Service W} (requests : list Request) (w : W)
    : list PostResult :=
  match requests with
  | [] => []
  | request :: rest =>
      let '(result, w') := post request w in
      result :: answers_to rest w'
  end.

(** A service that asks the caller to come back once, then reads the
    upload: it answers the first request with a timeout, later ones
    with a document when a file came with them and with the status 422
    when the file is empty.  Its state is the number of requests it has
    seen. *)
Definition busy_once : Service nat :=
  {| post := fun request seen =>
       (match seen, rq_image request with
        | O, _ => PostTimeout
        | _, [] => PostHTTPError 422
        | _, _ => PostJSON (mkResponseData None None None)
        end, S seen) |}.

(** What the client makes of an answer it can use. *)
Definition outcome_of (page_num : Z) (result : PostResult) : CallResult :=
  match result with
  | PostJSON response_data =>
      match parse_ocr_response response_data page_num with
      | Some response => Returned response
      | None => Raised
      end
  | _ => Raised
  end.

(** The first answer that is not transient, if there is one. *)
Definition decisive (page_num : Z) (results : list PostResult)
    : option PostResult :=
  find (fun r => negb (is_transient page_num r)) results.

(** The number of answers up to the decisive one, or all of them. *)
Fixpoint answers_used (page_num : Z) (results : list PostResult) : nat :=
  match results with
  | [] => O
  | r :: rest =>
      if is_transient page_num r then S (answers_used page_num rest)
      else 1%nat
  end.

(** The fragment the parser builds from [block_data], when the bbox can
    be built. *)
Definition fragment_type (block_data : BlockData)
    : DataModels.ContentType :=
  match DataModels.ContentType_of_value
          (get (bd_type block_data) "paragraph"%string) with
  | Some t => t
  | None => DataModels.PARAGRAPH
  end.

End Answers.

(* ------------------------------------------------------------------ *)
(** ** Structure analyzer: lists, table of contents and sections

    scripts/pdf_to_context/ir/structure_analyzer.py *)

Module StructureAnalysis.
Import DataModels IR Regex StructureAnalyzer.

(** [text.startswith(prefix)]. *)
Fixpoint startswith (text prefix : Py.pystr) : bool :=
  match prefix, text with
  | [], _ => true
  | p :: prefix', c :: text' => (c =? p)%N && startswith text' prefix'
  | _ :: _, [] => false
  end.

(** A pattern of [LIST_PATTERNS]: its text and what it matches. *)
Record ListPattern := mkListPattern {
  pattern_text : Py.pystr;
  compiled : Pattern
}.

(** [[-•·]]: the hyphen, U+2022 and U+00B7. *)
Definition is_bullet (c : N) : bool :=
  ((c =? 45) || (c =? 8226) || (c =? 183))%N.

(** [[а-я]]: U+0430..U+044F. *)
Definition is_cyrillic_small (c : N) : bool := in_range 1072 1103 c.

(** [[ivxlcdm]]. *)
Definition is_roman (c : N) : bool :=
  ((c =? 105) || (c =? 118) || (c =? 120) || (c =? 108) || (c =? 99)
   || (c =? 100) || (c =? 109))%N.

Section Lists.
Context `{DecimalTable}.

Definition LIST_PATTERNS : list ListPattern :=
  [ mkListPattern (Py.lit "^[-" ++ [8226; 183]%N ++ Py.lit "]\s+")
      (mkPattern (Cat (Sym is_bullet) (Plus space)) false);
    mkListPattern (Py.lit "^\d+\)\s+")
      (mkPattern (Cat (Plus digit) (Cat (chr ")") (Plus space))) false);
    mkListPattern (Py.lit "^[" ++ [1072; 45; 1103]%N ++ Py.lit "]\)\s+")
      (mkPattern
         (Cat (Sym is_cyrillic_small) (Cat (chr ")") (Plus space))) false);
    mkListPattern (Py.lit "^[ivxlcdm]+\)\s+")
      (mkPattern
         (Cat (Plus (Sym is_roman)) (Cat (chr ")") (Plus space))) false) ].

(** The loop over [LIST_PATTERNS]: the list type the first pattern
    that matches gives, [None] when [is_list_item] stays false. *)
Definition list_item_type (text : Py.pystr) : option string :=
  match find (fun p => re_match (compiled p) text) LIST_PATTERNS with
  | Some p =>
      Some (if startswith (pattern_text p) (Py.lit "^\d+")
            then "ordered"%string else "unordered"%string)
  | None => None
  end.

Definition set_list_item (block : IRBlock) (current_list_id : string)
    (list_type : string) : IRBlock :=
  let m := metadata block in
  mkIRBlock (id block) LIST (content block) (page block) (bbox block)
    (source block) (confidence block)
    (mkMetadata (font_size m) (is_bold m) (heading_level m)
       (Some "list_item"%string) (parent_heading m)
       (Some current_list_id) (Some list_type)).

(** The state of the loop of [_identify_lists]: [list_id_counter] and
    [current_list_id]. *)
Definition ListState : Type := Z * option string.

(** The body of the loop of [_identify_lists]. *)
Definition lists_step (st : ListState) (block : IRBlock)
    : ListState * IRBlock :=
  let '(list_id_counter, current_list_id) := st in
  if negb (is_text_type (type block)) then
    ((list_id_counter, None), block)
  else
    match list_item_type (PyText.strip (content block)) with
    | Some list_type =>
        let '(counter', list_id') :=
          match current_list_id with
          | None =>
              (list_id_counter + 1,
               ("list_" ++ PyText.str_of_int (list_id_counter + 1))%string)
          | Some current => (list_id_counter, current)
          end in
        ((counter', Some list_id'),
         set_list_item block list_id' list_type)
    | None => ((list_id_counter, None), block)
    end.

Fixpoint lists_loop (st : ListState) (blocks : list IRBlock)
    : list IRBlock :=
  match blocks with
  | [] => []
  | block :: rest =>
      let '(st', block') := lists_step st block in
      block' :: lists_loop st' rest
  end.

(** [StructureAnalyzer._identify_lists], on [ir.blocks]. *)
Definition identify_lists (blocks : list IRBlock) : list IRBlock :=
  lists_loop (0, None) blocks.
End Lists.

Definition is_heading (block : IRBlock) : bool :=
  ContentType_eqb (type block) HEADING.

(** An element of the table of contents. *)
Record TocEntry := mkTocEntry {
  toc_level : Z;
  toc_text : Py.pystr;
  toc_block_id : string;
  toc_page : Z
}.

(** [StructureAnalyzer._build_toc]. *)
Fixpoint build_toc (blocks : list IRBlock) : list TocEntry :=
  match blocks with
  | [] => []
  | block :: rest =>
      if is_heading block then
        mkTocEntry (Headings.level_of block) (PyText.strip (content block))
          (id block) (page block) :: build_toc rest
      else build_toc rest
  end.

(** A section of [get_sections]. *)
Record DocSection := mkDocSection {
  sec_heading : Py.pystr;
  sec_heading_block_id : string;
  sec_level : Z;
  sec_page : Z;
  sec_blocks : list IRBlock
}.

(** [sections.append(current_section)] when there is one. *)
Definition close_section (sections : list DocSection)
    (current_section : option DocSection) : list DocSection :=
  match current_section with
  | Some section => sections ++ [section]
  | None => sections
  end.

(** The body of the loop of [get_sections]. *)
Definition sections_step
    (st : list DocSection * option DocSection) (block : IRBlock)
    : list DocSection * option DocSection :=
  let '(sections, current_section) := st in
  if is_heading block then
    (close_section sections current_section,
     Some (mkDocSection (PyText.strip (content block)) (id block)
             (Headings.level_of block) (page block) []))
  else
    match current_section with
    | Some section =>
        (sections,
         Some (mkDocSection (sec_heading section)
                 (sec_heading_block_id section) (sec_level section)
                 (sec_page section) (sec_blocks section ++ [block])))
    | None => (sections, None)
    end.

(** [StructureAnalyzer.get_sections]. *)
Definition get_sections (blocks : list IRBlock) : list DocSection :=
  let '(sections, current_section) :=
    fold_left sections_step blocks ([], None) in
  close_section sections current_section.

(** [StructureAnalyzer.analyze]: the blocks as the three passes leave
    them and the table of contents it stores. *)
Definition analyze `{DecimalTable} (blocks : list IRBlock)
    : result (list IRBlock * list TocEntry) :=
  match identify_headings blocks with
  | TypeError => TypeError
  | Ok with_headings =>
      let with_lists := identify_lists with_headings in
      let with_parents := build_hierarchy with_lists in
      Ok (with_parents, build_toc with_parents)
  end.

(** A block the heading pass looks at whose [font_size] is present and
    [None]. *)
Definition font_size_is_none (block : IRBlock) : bool :=
  is_candidate_type (type block)
  && match font_size (metadata block) with
     | IsNone => true
     | _ => false
     end.

(** What the heading pass may do to a block: leave it, or make a block
    typed Text, Paragraph or Heading a heading of level 1, 2 or 3. *)
Definition promoted (before after : IRBlock) : Prop :=
  after = before
  \/ (is_candidate_type (type before) = true
      /\ exists level, 1 <= level <= 3 /\ after = set_heading before level).

(** The header of a section, as an element of the table of contents. *)
Definition header_of (section : DocSection) : TocEntry :=
  mkTocEntry (sec_level section) (sec_heading section)
    (sec_heading_block_id section) (sec_page section).

(** Every block of the section names the heading of the section as its
    parent. *)
Definition parent_is_heading (section : DocSection) : Prop :=
  Forall (fun block =>
            parent_heading (metadata block)
            = Some (sec_heading_block_id section))
    (sec_blocks section).

(** The blocks from the first heading on. *)
Fixpoint from_first_heading (blocks : list IRBlock) : list IRBlock :=
  match blocks with
  | [] => []
  | block :: rest =>
      if is_heading block then blocks else from_first_heading rest
  end.

(** What the list pass and the hierarchy pass leave of a block: its
    identity, its text, its place and whether it is a heading, of which
    level. *)
Definition outline_of (block : IRBlock)
    : string * Py.pystr * Z * BBox * bool * option Z :=
  (id block, content block, page block, bbox block, is_heading block,
   heading_level (metadata block)).

(** A page with a numbered heading, a paragraph and a list of two
    items, as the builder delivers it. *)
Definition outline_page : list IRBlock :=
  [ Headings.text_block "text_1" "1. Scope" 12 false;
    Headings.text_block "text_2" "This procedure applies to all units." 12
      false;
    Headings.text_block "text_3" "1) the first item" 12 false;
    Headings.text_block "text_4" "- the second item" 12 false ].

End StructureAnalysis.

(* ------------------------------------------------------------------ *)
(** ** Structure analyzer: what the passes keep *)

Module Outline.
Import DataModels IR StructureAnalyzer StructureAnalysis.

(** What the list pass may do to a block: leave it, or make a block
    typed Text or Paragraph an item of a list. *)
Definition listed (before after : IRBlock) : Prop :=
  after = before
  \/ (is_text_type (type before) = true
      /\ exists list_id list_type,
           (list_type = "ordered"%string \/ list_type = "unordered"%string)
           /\ after = set_list_item before list_id list_type).

Definition level_in_range (block : IRBlock) : Prop :=
  1 <= Headings.level_of block <= 3.

(** What [analyze] keeps of a block. *)
Definition kept_by_analysis (before after : IRBlock) : Prop :=
  id after = id before
  /\ content after = content before
  /\ page after = page before
  /\ bbox after = bbox before
  /\ (is_heading before = true -> is_heading after = true).

(** The state of the loop of [get_sections] once the loop is over. *)
Definition finish (st : list DocSection * option DocSection)
    : list DocSection :=
  close_section (fst st) (snd st).

(** The section that is open and the stack of the hierarchy pass go
    together: the top of the stack is the heading of the section. *)
Definition open_section_on_top (stack : Stack)
    (current_section : option DocSection) : Prop :=
  match current_section with
  | Some section =>
      parent_is_heading section
      /\ exists level below,
           stack = (level, sec_heading_block_id section) :: below
  | None => stack = []
  end.

End Outline.

(* ------------------------------------------------------------------ *)
(** ** The IR and its indexes

    scripts/pdf_to_context/ir/models.py, and the statistics of
    scripts/pdf_to_context/ir/builder.py *)

Module IRQueries.
Import DataModels IR.

(** [len(l)]. *)
Definition len {A : Type} (l : list A) : Z := Z.of_nat (length l).

(** A [dict]: the keys in the order of their insertion. *)
Definition dict (K V : Type) : Type := list (K * V).

Section Dict.
Context {K V : Type}.
Variable eqb : K -> K -> bool.

(** [d.get(k)]. *)
Fixpoint dict_get (d : dict K V) (k : K) : option V :=
  match d with
  | [] => None
  | (k', v) :: rest => if eqb k' k then Some v else dict_get rest k
  end.

(** [d[k] = v]: a key that is there keeps its place. *)
Fixpoint dict_set (d : dict K V) (k : K) (v : V) : dict K V :=
  match d with
  | [] => [(k, v)]
  | (k', v') :: rest =>
      if eqb k' k then (k', v) :: rest else (k', v') :: dict_set rest k v
  end.
End Dict.

(** [{block.id: block for block in self.blocks}]. *)
Definition index_by_id (blocks : list IRBlock) : dict string IRBlock :=
  fold_left (fun d block => dict_set String.eqb d (id block) block)
    blocks [].

(** The second loop of [_index_blocks]: a page that is not a key yet
    gets the empty list, then the block is appended to the list of its
    page. *)
Definition index_by_page (blocks : list IRBlock) : dict Z (list IRBlock) :=
  fold_left
    (fun d block =>
       match dict_get Z.eqb d (page block) with
       | None => dict_set Z.eqb d (page block) [block]
       | Some on_page => dict_set Z.eqb d (page block) (on_page ++ [block])
       end)
    blocks [].

(** [d.get(p, [])]. *)
Definition on_page_of (d : dict Z (list IRBlock)) (p : Z) : list IRBlock :=
  match dict_get Z.eqb d p with
  | Some on_page => on_page
  | None => []
  end.

(** An [IR] with the two indexes [__post_init__] builds; of the
    document metadata the number of pages is kept. *)
Record IRDoc := mkIRDoc {
  blocks : list IRBlock;
  relations : list IRRelation;
  total_pages : Z;
  blocks_by_id : dict string IRBlock;
  blocks_by_page : dict Z (list IRBlock)
}.

(** [IR(blocks=..., relations=..., document_metadata=...)]. *)
Definition IR_new (blocks : list IRBlock) (relations : list IRRelation)
    (total_pages : Z) : IRDoc :=
  mkIRDoc blocks relations total_pages (index_by_id blocks)
    (index_by_page blocks).

(** [IR.get_block]. *)
Definition get_block (self : IRDoc) (block_id : string) : option IRBlock :=
  dict_get String.eqb (blocks_by_id self) block_id.

(** [IR.get_blocks_by_page]. *)
Definition get_blocks_by_page (self : IRDoc) (page : Z) : list IRBlock :=
  on_page_of (blocks_by_page self) page.

(** [IR.get_blocks_by_type]. *)
Definition get_blocks_by_type (self : IRDoc) (content_type : ContentType)
    : list IRBlock :=
  filter (fun b => ContentType_eqb (type b) content_type) (blocks self).

(** [IRBlock.is_from_ocr]. *)
Definition is_from_ocr (self : IRBlock) : bool :=
  String.eqb (source self) "ocr".

(** [IRBlock.is_high_confidence]. *)
Definition is_high_confidence (self : IRBlock) (threshold : Q) : bool :=
  match confidence self with
  | None => true
  | Some c => Py.Qleb threshold c
  end.

(** [IR.get_ocr_blocks]. *)
Definition get_ocr_blocks (self : IRDoc) : list IRBlock :=
  filter is_from_ocr (blocks self).

(** [IR.get_native_blocks]. *)
Definition get_native_blocks (self : IRDoc) : list IRBlock :=
  filter (fun b => negb (is_from_ocr b)) (blocks self).

(** [IR.get_low_confidence_blocks]. *)
Definition get_low_confidence_blocks (self : IRDoc) (threshold : Q)
    : list IRBlock :=
  filter (fun b => negb (is_high_confidence b threshold)) (blocks self).

(** [IR.get_relations_from] and [IR.get_relations_to]. *)
Definition get_relations_from (self : IRDoc) (block_id : string)
    : list IRRelation :=
  filter (fun r => String.eqb (from_id r) block_id) (relations self).
Definition get_relations_to (self : IRDoc) (block_id : string)
    : list IRRelation :=
  filter (fun r => String.eqb (to_id r) block_id) (relations self).

(** [ContentType.value]. *)
Definition ContentType_value (t : ContentType) : string :=
  match t with
  | TEXT => "text"
  | IMAGE => "image"
  | VECTOR => "vector"
  | TABLE => "table"
  | HEADING => "heading"
  | PARAGRAPH => "paragraph"
  | LIST => "list"
  | FIGURE => "figure"
  | UNKNOWN => "unknown"
  end.

(** [counts[type_name] = counts.get(type_name, 0) + 1]. *)
Definition count_step (counts : dict string Z) (block : IRBlock)
    : dict string Z :=
  let type_name := ContentType_value (type block) in
  dict_set String.eqb counts type_name
    (match dict_get String.eqb counts type_name with
     | Some n => n
     | None => 0
     end + 1).

Record Statistics := mkStatistics {
  st_total_blocks : Z;
  st_total_relations : Z;
  st_pages : Z;
  st_blocks_by_type : dict string Z;
  st_native : Z;
  st_ocr : Z;
  st_low_confidence_blocks : Z
}.

(** [IR.get_statistics]. *)
Definition get_statistics (self : IRDoc) : Statistics :=
  mkStatistics
    (len (blocks self))
    (len (relations self))
    (total_pages self)
    (fold_left count_step (blocks self) [])
    (len (get_native_blocks self))
    (len (get_ocr_blocks self))
    (len (get_low_confidence_blocks self (9 # 10))).

(** [IRBuilder._count_by_type]. *)
Definition count_by_type (blocks : list IRBlock) : dict string Z :=
  fold_left count_step blocks [].

(** The dictionary [build_ir] stores as [processing_stats]. *)
Record ProcessingStats := mkProcessingStats {
  ps_total_blocks : Z;
  ps_native_blocks : Z;
  ps_ocr_blocks : Z;
  ps_blocks_by_type : dict string Z
}.

Definition processing_stats (all_blocks : list IRBlock) : ProcessingStats :=
  mkProcessingStats
    (len all_blocks)
    (len (filter (fun b => String.eqb (source b) "native") all_blocks))
    (len (filter (fun b => String.eqb (source b) "ocr") all_blocks))
    (count_by_type all_blocks).

(** The source of a block is one of the two the statistics know. *)
Definition known_source (block : IRBlock) : bool :=
  String.eqb (source block) "native" || String.eqb (source block) "ocr".

(** A table whose source names the tool it was taken from. *)
Definition foreign_table : IRBlock :=
  mkIRBlock "table_1_0a1b2c3d" TABLE (Py.lit "<table></table>") 1
    (mkBBox 50 100 500 300) "pdfplumber" None
    (mkMetadata Missing false None None None None None).

End IRQueries.

(* ------------------------------------------------------------------ *)
(** ** The numbering patterns of the heading pass *)

Module Numbering.
Import DataModels Regex StructureAnalyzer.

(** [^\d+\.\s+] and [^\d+\.\d+\s+], the first two of
    [HEADING_PATTERNS]. *)
Definition numbered_one_level : Pattern :=
  mkPattern (Cat (Plus digit) (Cat (chr ".") (Plus space))) false.
Definition numbered_two_levels : Pattern :=
  mkPattern
    (Cat (Plus digit) (Cat (chr ".") (Cat (Plus digit) (Plus space))))
    false.

(** The code points [\s] accepts and the ones [[A-ZА-Я]] accepts. *)
Definition space_code_points : list N :=
  [9; 10; 11; 12; 13; 28; 29; 30; 31; 32; 133; 160; 5760; 8192; 8193;
   8194; 8195; 8196; 8197; 8198; 8199; 8200; 8201; 8202; 8232; 8233;
   8239; 8287; 12288]%N.
Definition capital_code_points : list N :=
  Eval vm_compute in map N.of_nat (seq 65 26 ++ seq 1040 32).

(** U+002E, the full stop. *)
Definition DOT : N := 46%N.

End Numbering.

(* ------------------------------------------------------------------ *)
(** ** The order of the position keys, spelled out *)

Module KeyOrder.

(** [a <= b] on keys [(page, -y1, x0)]: the page decides, then the
    second component, then the third. *)
Definition key_order_le (a b : Z * Q * Q) : Prop :=
  let '(p, y, x) := a in
  let '(p', y', x') := b in
  p < p' \/ (p = p' /\ ((y < y')%Q \/ ((y == y')%Q /\ (x <= x')%Q))).

(** [a == b] on keys: component by component. *)
Definition key_eqb (a b : Z * Q * Q) : bool :=
  let '(p, y, x) := a in
  let '(p', y', x') := b in
  (p =? p') && Qeq_bool y y' && Qeq_bool x x'.

End KeyOrder.

(* ------------------------------------------------------------------ *)
(** ** The clustering of the intervals, in the words of the
    specification *)

Module Clustering.



End Clustering.

(* ================================================================== *)
(** * Part II: properties                                              *)
(* ================================================================== *)

(** ** The sort *)

Module PySortFacts.
Import PySort.

Section StableSort.
Context {A K : Type}.
Variable ltb : K -> K -> bool.
Variable key : A -> K.

(** [<] is a strict weak order on the keys. *)
Hypothesis ltb_asym : forall a b, ltb a b = true -> ltb b a = false.
Hypothesis ltb_cotrans :
  forall a b c, ltb a b = true -> ltb a c = true \/ ltb c b = true.

Local Abbreviation ins := (insert ltb key).
Local Abbreviation srt := (sorted ltb key).
Local Abbreviation le := (key_le ltb key).

Lemma insert_perm x l : Permutation (ins x l) (x :: l).
Proof.
  induction l as [|y t IH]; simpl; [reflexivity|].
  destruct (ltb (key y) (key x)); [|reflexivity].
  rewrite IH. apply perm_swap.
Qed.

Lemma sorted_perm l : Permutation (srt l) l.
Proof.
  induction l as [|x t IH]; simpl; [constructor|].
  unfold sorted in IH. rewrite insert_perm. now constructor.
Qed.

Lemma sorted_length l : length (srt l) = length l.
Proof. apply Permutation_length, sorted_perm. Qed.

Lemma insert_hdrel a x l :
  le a x -> HdRel le a l -> HdRel le a (ins x l).
Proof.
  intros Hax Hal. destruct l as [|y t]; simpl.
  - now constructor.
  - destruct (ltb (key y) (key x)); constructor; trivial.
    now inversion Hal.
Qed.

Lemma insert_sorted x l : Sorted le l -> Sorted le (ins x l).
Proof.
  induction 1 as [|y t Ht IH Hhd]; simpl.
  - repeat constructor.
  - destruct (ltb (key y) (key x)) eqn:E.
    + constructor; [exact IH|].
      apply insert_hdrel; [|exact Hhd].
      unfold key_le. now apply ltb_asym.
    + constructor; [now constructor|]. now constructor.
Qed.

Lemma sorted_sorted l : Sorted le (srt l).
Proof.
  induction l as [|x t IH]; simpl; [constructor|].
  now apply insert_sorted.
Qed.

Lemma key_le_trans a b c : le a b -> le b c -> le a c.
Proof.
  unfold key_le. intros Hab Hbc.
  destruct (ltb (key c) (key a)) eqn:E; [|reflexivity].
  destruct (ltb_cotrans _ _ (key b) E) as [H|H]; congruence.
Qed.

Lemma sorted_strongly l : StronglySorted le (srt l).
Proof.
  apply Sorted_StronglySorted; [|apply sorted_sorted].
  intros a b c. apply key_le_trans.
Qed.

(** The elements whose key is equal to [k]. *)
Definition with_key (k : K) (a : A) : bool :=
  negb (ltb (key a) k) && negb (ltb k (key a)).

Lemma insert_stable k x l :
  filter (with_key k) (ins x l) = filter (with_key k) (x :: l).
Proof.
  induction l as [|y t IH]; [reflexivity|].
  simpl. destruct (ltb (key y) (key x)) eqn:E; [|reflexivity].
  simpl. rewrite IH. simpl.
  destruct (with_key k x) eqn:Ex, (with_key k y) eqn:Ey; trivial.
  exfalso. unfold with_key in Ex, Ey.
  apply andb_prop in Ex, Ey. destruct Ex as [Ex1 Ex2], Ey as [Ey1 Ey2].
  rewrite negb_true_iff in *.
  destruct (ltb_cotrans _ _ k E); congruence.
Qed.

(** Stability: elements with equal keys keep their relative order. *)
Lemma sorted_stable k l :
  filter (with_key k) (srt l) = filter (with_key k) l.
Proof.
  induction l as [|x t IH]; [reflexivity|].
  change (srt (x :: t)) with (ins x (srt t)).
  rewrite insert_stable. simpl. now rewrite IH.
Qed.

(** A list that is already in order is left as it is. *)
Lemma sorted_id l : StronglySorted le l -> srt l = l.
Proof.
  induction 1 as [|x t Ht IH Hx]; [reflexivity|].
  change (srt (x :: t)) with (ins x (srt t)). rewrite IH.
  destruct t as [|y t']; [reflexivity|].
  simpl. inversion Hx as [|? ? Hxy _]; subst.
  unfold key_le in Hxy. now rewrite Hxy.
Qed.

Lemma with_key_self a : with_key (key a) a = true.
Proof.
  unfold with_key.
  destruct (ltb (key a) (key a)) eqn:E; [|reflexivity].
  pose proof (ltb_asym _ _ E). congruence.
Qed.

(** Two lists in order that agree on every class of equal keys are the
    same list: the outcome of a stable sort does not depend on the
    algorithm. *)
Lemma stable_sorted_unique l1 :
  forall l2,
    StronglySorted le l1 -> StronglySorted le l2 ->
    (forall k, filter (with_key k) l1 = filter (with_key k) l2) ->
    l1 = l2.
Proof.
  induction l1 as [|x t1 IH]; intros l2 S1 S2 Hf.
  - destruct l2 as [|y t2]; [reflexivity|].
    specialize (Hf (key y)). simpl in Hf.
    rewrite with_key_self in Hf. discriminate Hf.
  - destruct l2 as [|y t2].
    { specialize (Hf (key x)). simpl in Hf.
      rewrite with_key_self in Hf. discriminate Hf. }
    apply StronglySorted_inv in S1, S2.
    destruct S1 as [S1 H1], S2 as [S2 H2].
    rewrite Forall_forall in H1, H2.
    assert (Exy : x = y).
    { pose proof (Hf (key x)) as Hx. pose proof (Hf (key y)) as Hy.
      simpl in Hx, Hy. rewrite with_key_self in Hx, Hy.
      destruct (with_key (key x) y) eqn:Ey; [now injection Hx|].
      destruct (with_key (key y) x) eqn:Ex; [now injection Hy|].
      exfalso.
      assert (Ix : In x t2).
      { assert (I : In x (filter (with_key (key x)) t2))
          by (rewrite <- Hx; now left).
        now apply filter_In in I. }
      assert (Iy : In y t1).
      { assert (I : In y (filter (with_key (key y)) t1))
          by (rewrite Hy; now left).
        now apply filter_In in I. }
      specialize (H1 y Iy). specialize (H2 x Ix).
      unfold key_le in H1, H2. unfold with_key in Ey.
      rewrite H1, H2 in Ey. discriminate Ey. }
    subst y. f_equal. apply IH; trivial.
    intros k. specialize (Hf k). simpl in Hf.
    destruct (with_key k x); [now injection Hf|exact Hf].
Qed.

(** Whatever stable sorting algorithm is run on [l], it returns
    [sorted l]. *)
Lemma sorted_unique l l' :
  StronglySorted le l' ->
  (forall k, filter (with_key k) l' = filter (with_key k) l) ->
  l' = srt l.
Proof.
  intros S Hf. apply stable_sorted_unique; trivial.
  - apply sorted_strongly.
  - intros k. now rewrite sorted_stable.
Qed.
End StableSort.

(** *** The order of the position keys *)

Lemma Qltb_lt a b : Py.Qltb a b = true <-> (a < b)%Q.
Proof.
  unfold Py.Qltb. rewrite Qlt_alt.
  destruct (a ?= b)%Q; split; congruence.
Qed.

Lemma Qgtb_lt a b : Py.Qgtb a b = true <-> (b < a)%Q.
Proof.
  unfold Py.Qgtb. rewrite Qgt_alt.
  destruct (a ?= b)%Q; split; congruence.
Qed.

Lemma Qltb_asym a b : Py.Qltb a b = true -> Py.Qltb b a = false.
Proof.
  intros H. apply Qltb_lt in H.
  destruct (Py.Qltb b a) eqn:E; [|reflexivity].
  apply Qltb_lt in E. exfalso.
  apply (Qlt_irrefl a). now apply Qlt_trans with b.
Qed.

Lemma Qltb_cotrans a b c :
  Py.Qltb a b = true -> Py.Qltb a c = true \/ Py.Qltb c b = true.
Proof.
  intros H. apply Qltb_lt in H. rewrite !Qltb_lt.
  destruct (Qlt_le_dec a c) as [L|L]; [now left|right].
  now apply Qle_lt_trans with a.
Qed.

(** [position_ltb] is the lexicographic order. *)
Lemma position_ltb_spec p y x p' y' x' :
  position_ltb (p, y, x) (p', y', x') = true <->
  p < p' \/ (p = p' /\ ((y < y')%Q \/ (y == y' /\ x < x')%Q)).
Proof.
  unfold position_ltb.
  destruct (Z.compare_spec p p') as [E|L|G].
  - destruct (Qcompare_spec y y') as [Ey|Ly|Gy].
    + rewrite Qltb_lt. split; [intros; right; auto|].
      intros [?|[_ [Hy|[_ Hx]]]]; [lia| |exact Hx].
      rewrite Ey in Hy. now apply Qlt_irrefl in Hy.
    + split; auto.
    + split; [discriminate|].
      intros [?|[_ [Hy|[Hy _]]]]; [lia| |].
      * exfalso. apply (Qlt_irrefl y). now apply Qlt_trans with y'.
      * rewrite Hy in Gy. now apply Qlt_irrefl in Gy.
  - split; auto.
  - split; [discriminate|]. intros [?|[? _]]; lia.
Qed.

Lemma position_ltb_asym a b :
  position_ltb a b = true -> position_ltb b a = false.
Proof.
  destruct a as [[p y] x], b as [[p' y'] x']. intros H.
  destruct (position_ltb (p', y', x') (p, y, x)) eqn:E; [|reflexivity].
  apply position_ltb_spec in H, E. exfalso.
  destruct H as [H|[Hp [H|[Hy H]]]], E as [E|[Ep [E|[Ey E]]]];
    try lia.
  - apply (Qlt_irrefl y). now apply Qlt_trans with y'.
  - rewrite Ey in H. now apply Qlt_irrefl in H.
  - rewrite Hy in E. now apply Qlt_irrefl in E.
  - apply (Qlt_irrefl x). now apply Qlt_trans with x'.
Qed.

Lemma position_ltb_cotrans a b c :
  position_ltb a b = true ->
  position_ltb a c = true \/ position_ltb c b = true.
Proof.
  destruct a as [[p y] x], b as [[p' y'] x'], c as [[q v] u].
  rewrite !position_ltb_spec. intros H.
  destruct (Z.lt_trichotomy p q) as [L|[E|G]]; [left; lia| |right; lia].
  subst q.
  destruct H as [H|[Hp H]]; [right; lia|]. subst p'.
  destruct (Qlt_le_dec y v) as [Lv|Lv]; [left; right; auto|].
  destruct (Qlt_le_dec v y) as [Gv|Gv].
  { right; right; split; trivial. left.
    destruct H as [H|[Hy _]].
    - now apply Qlt_trans with y.
    - now rewrite <- Hy. }
  assert (Eyv : (y == v)%Q) by now apply Qle_antisym.
  destruct H as [H|[Hy H]].
  { right; right; split; trivial. left. now rewrite <- Eyv. }
  destruct (Qlt_le_dec x u) as [Lu|Lu].
  - left; right; split; trivial. right. now split.
  - right; right; split; trivial. right. split.
    + now rewrite <- Eyv.
    + now apply Qle_lt_trans with x.
Qed.

(** What the comparison of two keys says about their components. *)
Lemma position_not_ltb_le a b :
  position_ltb b a = false -> KeyOrder.key_order_le a b.
Proof.
  destruct a as [[p y] x], b as [[p' y'] x']. intros E.
  assert (N : ~ (p' < p \/ (p' = p /\ ((y' < y)%Q \/ (y' == y /\ x' < x)%Q))))
    by (rewrite <- position_ltb_spec; congruence).
  cbn [KeyOrder.key_order_le].
  destruct (Z.lt_trichotomy p p') as [L|[->|G]]; [now left| |tauto].
  right. split; [reflexivity|].
  destruct (Qlt_le_dec y' y) as [Ly|Ly]; [tauto|].
  apply Qle_lt_or_eq in Ly. destruct Ly as [Ly|Ey]; [now left|].
  right. split; [exact Ey|].
  destruct (Qlt_le_dec x' x) as [Lx|Lx]; [|exact Lx].
  exfalso. apply N. right. split; [reflexivity|]. right.
  split; [now symmetry|exact Lx].
Qed.

Lemma position_same_key a k :
  negb (position_ltb a k) && negb (position_ltb k a) = KeyOrder.key_eqb a k.
Proof.
  destruct a as [[p y] x], k as [[p' y'] x'].
  apply Bool.eq_iff_eq_true.
  rewrite andb_true_iff, !negb_true_iff.
  cbn [KeyOrder.key_eqb]. rewrite !andb_true_iff, Z.eqb_eq, !Qeq_bool_iff.
  split.
  - intros [E1 E2].
    assert (N1 : ~ (p < p' \/ (p = p' /\ ((y < y')%Q \/ (y == y' /\ x < x')%Q))))
      by (rewrite <- position_ltb_spec; congruence).
    assert (N2 : ~ (p' < p \/ (p' = p /\ ((y' < y)%Q \/ (y' == y /\ x' < x)%Q))))
      by (rewrite <- position_ltb_spec; congruence).
    assert (Ep : p = p') by lia. subst p'.
    assert (Ey : (y == y')%Q).
    { destruct (Q_dec y y') as [[L|G]|E]; [tauto|tauto|exact E]. }
    assert (Ex : (x == x')%Q).
    { destruct (Q_dec x x') as [[L|G]|E]; [|
        |exact E]; exfalso.
      - apply N1. right. split; [reflexivity|]. right. now split.
      - apply N2. right. split; [reflexivity|]. right.
        split; [now symmetry|exact G]. }
    repeat split; assumption.
  - intros [[-> Ey] Ex].
    split; apply not_true_is_false; rewrite position_ltb_spec;
      intros [L|[_ [L|[_ L]]]]; try lia.
    + rewrite Ey in L. now apply Qlt_irrefl in L.
    + rewrite Ex in L. now apply Qlt_irrefl in L.
    + rewrite Ey in L. now apply Qlt_irrefl in L.
    + rewrite Ex in L. now apply Qlt_irrefl in L.
Qed.

Lemma StronglySorted_weaken {A} (R R' : A -> A -> Prop) l :
  (forall a b, R a b -> R' a b) ->
  StronglySorted R l -> StronglySorted R' l.
Proof.
  intros HR. induction 1 as [|a l Hl IH Ha]; constructor; [exact IH|].
  eapply Forall_impl; [|exact Ha]. intros b. apply HR.
Qed.

End PySortFacts.

(** ** IR builder *)

Module BuilderFacts.
Import DataModels IR Chain PySortFacts.

Lemma relation_at_app pre a b t :
  relation_at (pre ++ a :: b :: t) (length pre) =
  [mkIRRelation "reading_order" (id a) (id b) (Z.of_nat (length pre))].
Proof.
  unfold relation_at.
  rewrite nth_error_app2 by lia. rewrite Nat.sub_diag. simpl.
  rewrite nth_error_app2 by lia.
  replace (length pre + 1 - length pre)%nat with 1%nat by lia.
  reflexivity.
Qed.

(** The indexed loop of the program walks the consecutive pairs. *)
Lemma indexed_loop_path pre l :
  flat_map (relation_at (pre ++ l)) (seq (length pre) (length l - 1)) =
  path_relations (Z.of_nat (length pre)) l.
Proof.
  revert pre. induction l as [|a t IH]; intros pre; [reflexivity|].
  destruct t as [|b t]; [reflexivity|].
  replace (length (a :: b :: t) - 1)%nat with (S (length t)) by (simpl; lia).
  cbn [seq flat_map]. rewrite relation_at_app.
  cbn [path_relations app]. f_equal.
  specialize (IH (pre ++ [a])).
  rewrite <- app_assoc in IH. cbn [app] in IH.
  rewrite length_app in IH. cbn [length] in IH.
  replace (length pre + 1)%nat with (S (length pre)) in IH by lia.
  replace (S (length t) - 1)%nat with (length t) in IH by lia.
  rewrite IH, Nat2Z.inj_succ. reflexivity.
Qed.

Lemma build_relations_path blocks :
  build_relations blocks = path_relations 0 (reading_order blocks).
Proof.
  unfold build_relations, reading_order.
  exact (indexed_loop_path [] _).
Qed.

Lemma path_relations_cons i a b t :
  path_relations i (a :: b :: t) =
  mkIRRelation "reading_order" (id a) (id b) i
    :: path_relations (i + 1) (b :: t).
Proof. reflexivity. Qed.

Lemma path_relations_length i l :
  length (path_relations i l) = (length l - 1)%nat.
Proof.
  revert i. induction l as [|a t IH]; intros i; [reflexivity|].
  destruct t as [|b t]; [reflexivity|].
  rewrite path_relations_cons. cbn [length]. rewrite IH. simpl. lia.
Qed.

Lemma path_relations_type i l :
  Forall (fun r => rel_type r = "reading_order"%string)
    (path_relations i l).
Proof.
  revert i. induction l as [|a t IH]; intros i; [constructor|].
  destruct t as [|b t]; [constructor|].
  rewrite path_relations_cons. constructor; [reflexivity|apply IH].
Qed.

Lemma path_relations_from i l :
  map from_id (path_relations i l) = map id (removelast l).
Proof.
  revert i. induction l as [|a t IH]; intros i; [reflexivity|].
  destruct t as [|b t]; [reflexivity|].
  rewrite path_relations_cons. cbn [map]. rewrite IH. reflexivity.
Qed.

Lemma path_relations_to i l :
  map to_id (path_relations i l) = map id (tl l).
Proof.
  revert i. induction l as [|a t IH]; intros i; [reflexivity|].
  destruct t as [|b t]; [reflexivity|].
  rewrite path_relations_cons. cbn [map tl]. rewrite IH. reflexivity.
Qed.

Lemma path_relations_sequence i l :
  map rel_sequence (path_relations i l) =
  map (fun k => i + Z.of_nat k) (seq 0 (length l - 1)).
Proof.
  revert i. induction l as [|a t IH]; intros i; [reflexivity|].
  destruct t as [|b t]; [reflexivity|].
  replace (length (a :: b :: t) - 1)%nat with (S (length t)) by (simpl; lia).
  rewrite path_relations_cons. cbn [map seq]. rewrite IH.
  replace (length (b :: t) - 1)%nat with (length t) by (simpl; lia).
  rewrite <- seq_shift, map_map. f_equal; [simpl; lia|].
  apply map_ext. intros; lia.
Qed.

(** C1.  For every list of N blocks, [_build_relations] works on the
    stable sort of the blocks by the key (page, -y1, x0): a permutation
    of the blocks in which the keys (page, -y1, x0) never decrease -
    the page decides, then -y1, then x0 - and in which the blocks that
    have the same key keep their order.  It emits N-1 relations (none
    for an empty list), all of type "reading_order", and the i-th one
    leads from the i-th sorted block to the next one: the relations
    form one chain that passes through every block once. *)
Theorem build_relations_reading_order_chain (blocks : list IRBlock) :
  let sorted_blocks := reading_order blocks in
  let relations := build_relations blocks in
  Permutation sorted_blocks blocks /\
  StronglySorted
    (fun a b =>
       KeyOrder.key_order_le (page a, (- y1 (bbox a))%Q, x0 (bbox a))
         (page b, (- y1 (bbox b))%Q, x0 (bbox b)))
    sorted_blocks /\
  (forall k,
      filter (fun b =>
                KeyOrder.key_eqb (page b, (- y1 (bbox b))%Q, x0 (bbox b)) k)
        sorted_blocks =
      filter (fun b =>
                KeyOrder.key_eqb (page b, (- y1 (bbox b))%Q, x0 (bbox b)) k)
        blocks) /\
  length relations = (length blocks - 1)%nat /\
  Forall (fun r => rel_type r = "reading_order"%string) relations /\
  map from_id relations = map id (removelast sorted_blocks) /\
  map to_id relations = map id (tl sorted_blocks) /\
  map rel_sequence relations =
    map Z.of_nat (seq 0 (length blocks - 1)).
Proof.
  cbv zeta. rewrite build_relations_path.
  unfold reading_order.
  repeat split.
  - apply sorted_perm.
  - apply (StronglySorted_weaken
             (PySort.key_le PySort.position_ltb get_position_key)).
    + intros a b Hab. exact (position_not_ltb_le _ _ Hab).
    + apply sorted_strongly.
      * exact position_ltb_asym.
      * exact position_ltb_cotrans.
  - intros k.
    rewrite !(filter_ext
                (fun b =>
                   KeyOrder.key_eqb
                     (page b, (- y1 (bbox b))%Q, x0 (bbox b)) k)
                (with_key PySort.position_ltb get_position_key k))
      by (intros b; symmetry; apply position_same_key).
    apply (sorted_stable _ _ position_ltb_cotrans).
  - rewrite path_relations_length. now rewrite sorted_length.
  - apply path_relations_type.
  - apply path_relations_from.
  - apply path_relations_to.
  - rewrite path_relations_sequence, sorted_length. reflexivity.
Qed.

Lemma NoDup_map_removelast {A B} (f : A -> B) (l : list A) :
  NoDup (map f l) -> NoDup (map f (removelast l)).
Proof.
  destruct l as [|a t _] using rev_ind; [trivial|].
  rewrite removelast_last, map_app. apply NoDup_app_remove_r.
Qed.

(** When the ids are unique, as the builder makes them, no id starts
    two relations and no id ends two: the chain is a simple path. *)
Lemma build_relations_simple_path (blocks : list IRBlock) :
  NoDup (map id blocks) ->
  NoDup (map from_id (build_relations blocks))
  /\ NoDup (map to_id (build_relations blocks)).
Proof.
  intros Hn.
  assert (Hs : NoDup (map id (reading_order blocks))).
  { apply (Permutation_NoDup (l := map id blocks)); [|exact Hn].
    apply Permutation_map, Permutation_sym, sorted_perm. }
  rewrite build_relations_path, path_relations_from, path_relations_to.
  split.
  - now apply NoDup_map_removelast.
  - destruct (reading_order blocks) as [|b t]; [constructor|].
    simpl in *. now inversion Hs.
Qed.

End BuilderFacts.

(** ** Data models *)

Module DataModelsFacts.
Import DataModels PySortFacts.

(** C10.  Whatever [type] the caller passes, a freshly constructed
    [TextBlock] is a HEADING when [font_size] is set and greater than
    14 and a PARAGRAPH otherwise; it is never TEXT. *)
Theorem TextBlock_type_never_text
    (bbox : BBox) (text : Py.pystr) (page_num : Z) (type : ContentType)
    (font_name : option string) (font_size : option Q)
    (is_bold is_italic : bool) :
  let block :=
    TextBlock_new bbox text page_num type font_name font_size is_bold
      is_italic in
  tb_type block =
    match font_size with
    | Some q => if Qlt_le_dec 14 q then HEADING else PARAGRAPH
    | None => PARAGRAPH
    end
  /\ tb_type block <> TEXT.
Proof.
  cbv zeta. unfold TextBlock_new, TextBlock_post_init.
  cbn [tb_type tb_font_size].
  destruct font_size as [q|]; cbn [truthy_float].
  - destruct (Qlt_le_dec 14 q) as [L|L].
    + assert (G : Py.Qgtb q 14 = true) by now apply Qgtb_lt.
      assert (Z0 : Py.Qeqb q 0 = false).
      { unfold Py.Qeqb. destruct (Qcompare_spec q 0) as [E| |]; trivial.
        exfalso. rewrite E in L. revert L. compute. discriminate. }
      rewrite G, Z0. split; [reflexivity|discriminate].
    + assert (G : Py.Qgtb q 14 = false).
      { destruct (Py.Qgtb q 14) eqn:E; trivial.
        apply Qgtb_lt in E. exfalso.
        apply (Qlt_irrefl q). now apply Qle_lt_trans with 14%Q. }
      rewrite G, andb_false_r. split; [reflexivity|discriminate].
  - split; [reflexivity|discriminate].
Qed.

(** The default [type] of the dataclass is overwritten as well. *)
Example TextBlock_default_type :
  tb_type (TextBlock_new (mkBBox 0 0 10 10) (Py.lit "x") 0 TEXT None None
             false false) = PARAGRAPH.
Proof. reflexivity. Qed.

End DataModelsFacts.

(** ** Content router *)

Module RouterFacts.
Import DataModels ContentRouter.

(** Under accuracy priority the tiers are Base up to 2500 tokens, Large
    up to 5000 and Gundam above; Tiny and Small are never chosen. *)
Lemma select_ocr_mode_accuracy density layout :
  layout <> NEWSPAPER ->
  select_ocr_mode (mkRouter true) density layout =
    if density <=? 2500 then BASE
    else if density <=? 5000 then LARGE
    else GUNDAM.
Proof.
  intros Hl. unfold select_ocr_mode. cbn [prioritize_accuracy].
  replace (LayoutType_eqb layout NEWSPAPER) with false
    by (destruct layout; trivial; congruence).
  unfold MODE_SMALL_MAX, MODE_BASE_MAX, MODE_LARGE_MAX.
  destruct (density <=? 1000) eqn:E1; [|reflexivity].
  apply Z.leb_le in E1.
  replace (density <=? 2500) with true; [reflexivity|].
  symmetry. apply Z.leb_le. lia.
Qed.

(** Rule 3: a page with a text layer and a complex layout goes to OCR,
    with the tier its density selects, whatever the other metrics. *)
Lemma complex_layout_rule self meta :
  has_text_layer meta = true ->
  layout_type meta = COMPLEX ->
  apply_routing_rules self meta =
    (OCR, Some (select_ocr_mode self (text_density meta) COMPLEX),
     ReasonComplexLayout COMPLEX).
Proof.
  intros Ht Hl. unfold apply_routing_rules. rewrite Ht, Hl. reflexivity.
Qed.

(** The scenario of C2 as it is stated: the tier is not Base. *)
Lemma routing_scenario_tier_is_not_base :
  ~ (let '(decision, ocr_mode, _) :=
       apply_routing_rules (mkRouter true)
         (mkPageMetadata 0 595 842 0 true 3000 COMPLEX 0 0 0 (2 # 10)) in
     decision = OCR /\ ocr_mode = Some BASE).
Proof. cbn. intros [_ H]. discriminate H. Qed.

(** C2, amended.  With a text layer, a complex layout, a density of
    3000, a graphics coverage of 0.2 and accuracy priority, the router
    decides OCR by rule 3 and the tier is Large: 3000 lies above the
    Base bound of 2500 and within the Large bound of 5000. *)
Theorem routing_scenario_complex_3000
    (page_num : Z) (width height : Q)
    (rotation image_count drawing_count table_count : Z) :
  apply_routing_rules (mkRouter true)
    (mkPageMetadata page_num width height rotation true 3000 COMPLEX
       image_count drawing_count table_count (2 # 10))
  = (OCR, Some LARGE, ReasonComplexLayout COMPLEX).
Proof.
  rewrite complex_layout_rule by reflexivity.
  cbn [text_density].
  rewrite select_ocr_mode_accuracy by discriminate.
  reflexivity.
Qed.

End RouterFacts.

(** ** Page analyzer *)

Module AnalyzerFacts.
Import DataModels PageAnalyzer PySortFacts.


(** Every turn of the clustering loop either widens the running column
    or closes it and opens the next one. *)
Lemma columns_step_count columns cur c :
  let '(columns', _) := columns_step (columns, cur) c in
  length columns' =
    if Py.Qleb (fst c) (snd cur + MULTI_COLUMN_GAP)%Q
    then length columns else S (length columns).
Proof.
  destruct cur as [cs ce], c as [cx0 cx1]. cbn.
  destruct (Py.Qleb cx0 (ce + MULTI_COLUMN_GAP)%Q); [reflexivity|].
  rewrite length_app. simpl. lia.
Qed.






(** The clustering on three text blocks 100 points apart, given out
    of order: three columns. *)
Example detect_columns_run :
  detect_columns [(350, 550); (650, 850); (50, 250)]%Q 895
  = [(50, 250); (350, 550); (650, 850)]%Q
  /\ detect_columns [(50, 250); (280, 550); (100, 200)]%Q 595
     = [(50, 550)]%Q.
Proof. split; reflexivity. Qed.


End AnalyzerFacts.

(** ** OCR client *)

Module ClientFacts.
Import DataModels StateM OCRClient.

Lemma parse_block_confidence block_data page_num ocr_block confidence :
  parse_block block_data page_num = Some (ocr_block, confidence) ->
  ob_confidence ocr_block = confidence.
Proof.
  unfold parse_block. destruct (parse_bbox _); [|discriminate].
  intros E. injection E as <- <-. reflexivity.
Qed.

(** The two lists of the parsing loop stay aligned. *)
Lemma parse_blocks_confidences blocks_data page_num :
  forall acc_blocks acc_conf ocr_blocks confidences,
    map ob_confidence acc_blocks = acc_conf ->
    parse_blocks blocks_data page_num acc_blocks acc_conf =
      Some (ocr_blocks, confidences) ->
    map ob_confidence ocr_blocks = confidences.
Proof.
  induction blocks_data as [|d rest IH]; intros ab ac bs cs Hacc; simpl.
  - intros E. injection E as <- <-. exact Hacc.
  - destruct (parse_block d page_num) as [[b c]|] eqn:Eb; [|discriminate].
    apply IH. rewrite map_app, Hacc. simpl.
    now rewrite (parse_block_confidence _ _ _ _ Eb).
Qed.

(** The average confidence of a parsed answer is the mean of the
    confidences of its fragments. *)
Lemma parse_ocr_response_average response_data page_num response :
  parse_ocr_response response_data page_num = Some response ->
  or_blocks response <> [] ->
  or_confidence_avg response =
    Py.Qmean (map ob_confidence (or_blocks response)).
Proof.
  unfold parse_ocr_response.
  destruct (parse_blocks _ page_num [] []) as [[bs cs]|] eqn:E;
    [|discriminate].
  apply parse_blocks_confidences in E; [|reflexivity].
  intros R. injection R as <-. cbn [or_blocks or_confidence_avg].
  intros Hne. rewrite E.
  destruct cs as [|c cs']; [|reflexivity].
  destruct bs; [congruence|discriminate].
Qed.

(** A response the client returns was parsed from an answer of the
    service. *)
Lemma ocr_image_loop_returns {W} `{Service W} attempts page_num :
  forall request w response w',
    ocr_image_loop attempts request page_num w = (Returned response, w') ->
    exists response_data,
      parse_ocr_response response_data page_num = Some response.
Proof.
  induction attempts as [|n IH]; intros request w response w'; simpl.
  - unfold ret. discriminate.
  - unfold bind. destruct (post request w) as [result w1].
    destruct result as [| |status| |data]; try apply IH.
    + destruct (status >=? 500); [apply IH|]. unfold ret. discriminate.
    + destruct (parse_ocr_response data page_num) as [r|] eqn:E;
        [|apply IH].
      unfold ret. intros R. injection R as <- <-. now exists data.
Qed.

Lemma ocr_figure_average {W} `{Service W} client image_data page_num bbox
    prompt_type base_size image_size w response w' :
  ocr_figure client image_data page_num bbox prompt_type base_size
    image_size w = (Returned response, w') ->
  or_blocks response <> [] ->
  or_confidence_avg response =
    Py.Qmean (map ob_confidence (or_blocks response)).
Proof.
  unfold ocr_figure, ocr_image. intros E Hne.
  destruct (ocr_image_loop_returns _ _ _ _ _ _ E) as [data Hd].
  now apply (parse_ocr_response_average data page_num).
Qed.

(** With no attempt allowed the client raises without a request. *)
Lemma ocr_image_no_attempt {W} `{Service W} request page_num w :
  ocr_image_loop 0 request page_num w = (Raised, w).
Proof. reflexivity. Qed.

End ClientFacts.

(** ** The merging scenario in binary64 *)

Module Binary64.
Import PrimFloat.

Set Warnings "-inexact-float".

(** The embedding computes the mean of 0.9 and 0.7 exactly.  The
    interpreter computes it in binary64, and finds the double nearest
    to 0.8: the rounding the embedding leaves out does not show in the
    scenario. *)
Example mean_of_scenario :
  eqb (div (add (add 0%float 0.9%float) 0.7%float) 2%float) 0.8%float
  = true.
Proof. vm_compute. reflexivity. Qed.

Set Warnings "+inexact-float".

End Binary64.

(** ** Structure preserver *)

Module PreserverFacts.
Import DataModels StateM OCRClient StructurePreserver Recognition.
Import PySortFacts ClientFacts.

Section WithService.
Context {W : Type} `{Service W}.
Variable self : Preserver.
Variable page_num : Z.

Local Abbreviation run := (process_blocks self page_num).

Lemma process_blocks_acc blocks :
  forall acc st,
    run blocks acc st =
    (acc ++ fst (run blocks [] st), snd (run blocks [] st)).
Proof.
  induction blocks as [|b rest IH]; intros acc st; simpl.
  - unfold ret. simpl. now rewrite app_nil_r.
  - unfold bind.
    destruct (process_block self page_num b st) as [out st1].
    rewrite IH. rewrite (IH ([] ++ out)). simpl.
    now rewrite app_assoc.
Qed.

Lemma process_blocks_cons b rest st :
  run (b :: rest) [] st =
  (fst (process_block self page_num b st)
     ++ fst (run rest [] (snd (process_block self page_num b st))),
   snd (run rest [] (snd (process_block self page_num b st)))).
Proof.
  simpl. unfold bind.
  destruct (process_block self page_num b st) as [out st1].
  simpl. apply process_blocks_acc.
Qed.

Lemma process_blocks_app pre post st :
  run (pre ++ post) [] st =
  (fst (run pre [] st) ++ fst (run post [] (snd (run pre [] st))),
   snd (run post [] (snd (run pre [] st)))).
Proof.
  revert st. induction pre as [|b pre IH]; intros st.
  - simpl. unfold ret. simpl. now destruct (run post [] st).
  - rewrite <- app_comm_cons. rewrite !process_blocks_cons.
    rewrite IH. simpl. now rewrite app_assoc.
Qed.

Lemma process_image_ocr_fails image w :
  recognition_fails self image page_num w ->
  process_image_ocr self image page_num w =
  (None, service_after self image page_num w).
Proof.
  unfold recognition_fails, service_after, process_image_ocr.
  destruct (ocr_client self) as [client|]; [|reflexivity].
  unfold bind. fold (figure_call client image page_num).
  destruct (figure_call client image page_num w) as [outcome w1].
  simpl. destruct outcome as [|response]; [reflexivity|].
  intros ->. reflexivity.
Qed.

Lemma process_block_failure image w s :
  ib_needs_ocr image = true ->
  recognition_fails self image page_num w ->
  process_block self page_num (BImage image) (w, s) =
  ([BImage image],
   (service_after self image page_num w,
    incr_ocr_errors (incr_total_images s))).
Proof.
  intros Hf Hr. unfold process_block. rewrite Hf.
  unfold bind, on_snd, on_fst. simpl.
  now rewrite (process_image_ocr_fails _ _ Hr).
Qed.

Lemma process_structure_perm blocks st :
  Permutation (fst (process_structure self blocks page_num st))
    (fst (run blocks [] st)).
Proof.
  unfold process_structure, bind.
  destruct (run blocks [] st) as [out st1]. simpl.
  apply sorted_perm.
Qed.

(** C4.  Take a flagged image whose recognition fails - no client,
    a call that raises, or an answer without fragments - anywhere on
    a page.  The loop of [process_structure] appends the image block
    itself, adds one to [ocr_errors] (and to [total_images]) and
    nothing to [ocr_processed], and treats the blocks before and
    after the image as it treats them on their own; the image block
    is in the list [process_structure] returns.  The failure is a
    value here, not an exception: the function returns normally. *)
Theorem recognition_failure_keeps_placeholder
    (pre post : list Block) (image : ImageBlock) (w : W) (stats : Stats) :
  ib_needs_ocr image = true ->
  let before := run pre [] (w, stats) in
  let w1 := fst (snd before) in
  let s1 := snd (snd before) in
  recognition_fails self image page_num w1 ->
  let s2 := incr_ocr_errors (incr_total_images s1) in
  let after :=
    run post [] (service_after self image page_num w1, s2) in
  run (pre ++ BImage image :: post) [] (w, stats) =
    (fst before ++ BImage image :: fst after, snd after)
  /\ ocr_errors s2 = ocr_errors s1 + 1
  /\ ocr_processed s2 = ocr_processed s1
  /\ total_images s2 = total_images s1 + 1
  /\ In (BImage image)
       (fst (process_structure self (pre ++ BImage image :: post)
               page_num (w, stats))).
Proof.
  intros Hf. cbv zeta.
  destruct (run pre [] (w, stats)) as [out_pre [w1 s1]] eqn:Epre.
  cbn [fst snd]. intros Hr.
  assert (E : run (pre ++ BImage image :: post) [] (w, stats) =
              (out_pre ++ BImage image
                 :: fst (run post []
                           (service_after self image page_num w1,
                            incr_ocr_errors (incr_total_images s1))),
               snd (run post []
                      (service_after self image page_num w1,
                       incr_ocr_errors (incr_total_images s1))))).
  { rewrite process_blocks_app, process_blocks_cons, Epre.
    cbn [fst snd].
    rewrite (process_block_failure image w1 s1 Hf Hr). reflexivity. }
  split; [exact E|]. repeat split.
  apply (Permutation_in _ (Permutation_sym (process_structure_perm _ _))).
  rewrite E. simpl. apply in_or_app. right. now left.
Qed.

(** C3.  When the call for a flagged image returns at least one
    fragment, the loop appends exactly one block in its place, an OCR
    block: its content is the texts of the fragments, in the order of
    the answer, joined by line feeds; its confidence is the mean of
    the confidences of the fragments; its bbox is the bbox of the
    image; its type is the type of the first fragment. *)
Theorem recognition_success_merges
    (client : Client) (image : ImageBlock) (w w' : W) (stats : Stats)
    (response : OCRResponse) :
  ib_needs_ocr image = true ->
  ocr_client self = Some client ->
  figure_call client image page_num w = (Returned response, w') ->
  or_blocks response <> [] ->
  exists merged : OCRBlock,
    process_block self page_num (BImage image) (w, stats) =
      ([BOCR merged], (w', incr_ocr_processed (incr_total_images stats)))
    /\ ob_content merged =
         Py.join [Py.LF] (map ob_content (or_blocks response))
    /\ ob_confidence merged =
         Py.Qmean (map ob_confidence (or_blocks response))
    /\ ob_bbox merged = ib_bbox image
    /\ Some (ob_type merged) =
         option_map ob_type (hd_error (or_blocks response)).
Proof.
  intros Hf Hc Hcall Hne.
  assert (Havg := Hcall). unfold figure_call in Havg.
  apply ocr_figure_average in Havg; [|exact Hne].
  unfold process_block. rewrite Hf.
  unfold bind, on_snd, on_fst, process_image_ocr. cbn [fst snd].
  rewrite Hc. unfold bind. fold (figure_call client image page_num).
  rewrite Hcall.
  destruct (or_blocks response) as [|first others] eqn:Eb; [congruence|].
  unfold ret. eexists. split; [reflexivity|].
  cbn [ob_content ob_confidence ob_bbox ob_type hd_error option_map].
  repeat split. exact Havg.
Qed.

(** *** The statistics *)

Lemma process_block_consistent b w s :
  stats_consistent s ->
  stats_consistent (snd (snd (process_block self page_num b (w, s)))).
Proof.
  intros [Ht Hs]. destruct b as [t|image|d|t|o]; try (now split).
  unfold process_block. destruct (ib_needs_ocr image); [|now split].
  unfold bind, on_snd, on_fst. simpl.
  destruct (process_image_ocr self image page_num w) as [[o|] w'];
    simpl; split; simpl; lia.
Qed.

Lemma process_block_total_images b w s :
  total_images (snd (snd (process_block self page_num b (w, s)))) =
  total_images s + (if is_flagged_image b then 1 else 0).
Proof.
  destruct b as [t|image|d|t|o]; simpl; try lia.
  destruct (ib_needs_ocr image); [|simpl; lia].
  unfold bind, on_snd, on_fst. simpl.
  destruct (process_image_ocr self image page_num w) as [[o|] w'];
    reflexivity.
Qed.

Lemma process_blocks_consistent blocks :
  forall st,
    stats_consistent (snd st) ->
    stats_consistent (snd (snd (run blocks [] st))).
Proof.
  induction blocks as [|b rest IH]; intros [w s] Hc; [exact Hc|].
  rewrite process_blocks_cons. simpl. apply IH.
  now apply process_block_consistent.
Qed.

Lemma process_blocks_total_images blocks :
  forall st,
    total_images (snd (snd (run blocks [] st))) =
    total_images (snd st)
    + Z.of_nat (length (filter is_flagged_image blocks)).
Proof.
  induction blocks as [|b rest IH]; intros [w s]; [simpl; lia|].
  rewrite process_blocks_cons. cbn [snd]. rewrite IH.
  destruct (process_block self page_num b (w, s)) as [out [w1 s1]] eqn:E.
  pose proof (process_block_total_images b w s) as Ht.
  rewrite E in Ht. cbn [snd] in *. rewrite Ht. cbn [filter].
  destruct (is_flagged_image b); cbn [length]; lia.
Qed.

Lemma process_structure_stats blocks st :
  snd (process_structure self blocks page_num st) =
  snd (run blocks [] st).
Proof.
  unfold process_structure, bind.
  now destruct (run blocks [] st).
Qed.
End WithService.

Lemma run_calls_consistent {W} `{Service W} self calls :
  forall st,
    stats_consistent (snd st) ->
    stats_consistent (snd (snd (run_calls self calls st))).
Proof.
  induction calls as [|c rest IH]; intros st Hc; [exact Hc|].
  destruct c as [blocks page_num|]; simpl; unfold bind.
  - pose proof (process_structure_stats self page_num blocks st) as Es.
    destruct (process_structure self blocks page_num st) as [out st1].
    simpl in Es. specialize (IH st1).
    destruct (run_calls self rest st1) as [outs st2]. simpl in *.
    apply IH. rewrite Es. now apply process_blocks_consistent.
  - unfold reset_statistics, on_snd. apply IH. simpl. now split.
Qed.

Lemma process_blocks_min_area {W} `{Service W} client a1 a2 page_num
    blocks :
  forall acc st,
    process_blocks (mkPreserver client a1) page_num blocks acc st =
    process_blocks (mkPreserver client a2) page_num blocks acc st.
Proof.
  induction blocks as [|b rest IH]; intros acc st; [reflexivity|].
  simpl. unfold bind.
  replace (process_block (mkPreserver client a1) page_num b st)
    with (process_block (mkPreserver client a2) page_num b st)
    by (destruct b; reflexivity).
  destruct (process_block (mkPreserver client a2) page_num b st).
  apply IH.
Qed.

(** The threshold [min_area] plays no part in the processing. *)
Lemma process_structure_min_area {W} `{Service W} client a1 a2 blocks
    page_num st :
  process_structure (mkPreserver client a1) blocks page_num st =
  process_structure (mkPreserver client a2) blocks page_num st.
Proof.
  unfold process_structure, bind.
  now rewrite (process_blocks_min_area client a1 a2).
Qed.

(** C9.  After any sequence of [process_structure] and
    [reset_statistics] calls on a new preserver, [total_images] is the
    sum of [ocr_processed] and [ocr_errors] and [ocr_skipped] is 0.
    One call adds to [total_images] the number of flagged images of
    the page, and its outcome does not depend on [min_area]. *)
Theorem statistics_invariant {W} `{Service W}
    (self : Preserver) (calls : list Call) (w : W) :
  let s := snd (snd (run_calls self calls (init w))) in
  (total_images s = ocr_processed s + ocr_errors s /\ ocr_skipped s = 0)
  /\ (forall blocks page_num st,
        total_images (snd (snd (process_structure self blocks page_num st)))
        = total_images (snd st)
          + Z.of_nat (length (filter is_flagged_image blocks)))
  /\ (forall a blocks page_num st,
        process_structure (mkPreserver (ocr_client self) a) blocks
          page_num st
        = process_structure self blocks page_num st).
Proof.
  cbv zeta. split; [|split].
  - apply (run_calls_consistent self calls (init w)). now split.
  - intros blocks page_num st.
    rewrite process_structure_stats. apply process_blocks_total_images.
  - intros a blocks page_num st. destruct self as [c a0].
    apply process_structure_min_area.
Qed.

Lemma recognition_failure_keeps_placeholder_witness :
  In (BImage Samples.flagged_image)
    (fst (@process_structure unit unreachable_service Samples.preserver
            [BText Samples.paragraph_above; BImage Samples.flagged_image;
             BDrawing Samples.border_drawing] 2 (init tt))).
Proof.
  destruct (@recognition_failure_keeps_placeholder unit
              unreachable_service Samples.preserver 2
              [BText Samples.paragraph_above]
              [BDrawing Samples.border_drawing]
              Samples.flagged_image tt fresh_stats eq_refl I)
    as (_ & _ & _ & _ & Hin).
  exact Hin.
Defined.

(** The failure scenario, run: the service cannot be reached, the
    client gives up after three attempts, the image stays where it was
    and one error is counted. *)
Example recognition_failure_run :
  @process_structure unit unreachable_service Samples.preserver
    [BText Samples.paragraph_above; BImage Samples.flagged_image;
     BDrawing Samples.border_drawing] 2 (init tt)
  = ([BText Samples.paragraph_above; BImage Samples.flagged_image],
     (tt, mkStats 1 0 0 0 1)).
Proof. vm_compute. reflexivity. Qed.

Lemma recognition_success_merges_witness :
  exists merged : OCRBlock,
    @process_block unit (constant_service Samples.answer_A_B)
      Samples.preserver 2 (BImage Samples.flagged_image) (init tt)
    = ([BOCR merged], (tt, mkStats 1 0 1 0 0))
    /\ ob_content merged = Py.lit "A" ++ [Py.LF] ++ Py.lit "B"
    /\ (ob_confidence merged == 8 # 10)%Q
    /\ ob_bbox merged = Samples.placeholder_bbox
    /\ ob_type merged = HEADING.
Proof.
  pose (S := constant_service Samples.answer_A_B).
  destruct (@figure_call unit S Samples.client Samples.flagged_image 2 tt)
    as [outcome w'] eqn:Ecall.
  assert (Erun := Ecall). vm_compute in Erun.
  destruct outcome as [|response]; [discriminate Erun|].
  destruct w'.
  assert (Er : or_blocks response <> []).
  { injection Erun as <-. discriminate. }
  destruct (@recognition_success_merges unit S Samples.preserver 2
              Samples.client Samples.flagged_image tt tt fresh_stats
              response eq_refl eq_refl Ecall Er)
    as (merged & Eblock & Econtent & Econf & Ebbox & Etype).
  exists merged. injection Erun as <-.
  split; [exact Eblock|]. split; [exact Econtent|].
  split; [rewrite Econf; reflexivity|]. split; [exact Ebbox|].
  injection Etype as ->. reflexivity.
Defined.

End PreserverFacts.

(** ** Regular expressions *)

Module RegexFacts.
Import Py Regex.

Lemma matches_nil_nullable r s : matches r s -> s = [] -> nullable r = true.
Proof.
  induction 1 as [|p c Hp|a b s t Ha IHa Hb IHb|a b s Ha IH|a b s Hb IH
                  |a|a s t Ha IHa Hs IHs]; intros E; simpl; trivial.
  - discriminate E.
  - apply app_eq_nil in E. destruct E as [-> ->].
    now rewrite IHa, IHb.
  - now rewrite IH.
  - rewrite IH by exact E. apply orb_true_r.
Qed.

Lemma nullable_matches r : nullable r = true <-> matches r [].
Proof.
  split; [|intros M; now apply (matches_nil_nullable r [])].
  induction r as [| |p|a IHa b IHb|a IHa b IHb|a IH]; simpl; intros E;
    try discriminate E.
  - constructor.
  - apply andb_prop in E. destruct E as [Ea Eb].
    change (@nil N) with (@nil N ++ []). constructor; auto.
  - apply orb_prop in E. destruct E as [E|E];
      [apply MAltL|apply MAltR]; auto.
  - constructor.
Qed.

Lemma deriv_sound c r : forall s, matches (deriv c r) s -> matches r (c :: s).
Proof.
  induction r as [| |p|a IHa b IHb|a IHa b IHb|a IH]; simpl; intros s M.
  - inversion M.
  - inversion M.
  - destruct (p c) eqn:Ep; inversion M; subst. now constructor.
  - destruct (nullable a) eqn:En.
    + inversion M as [| | |? ? ? M1|? ? ? M2| |]; subst.
      * inversion M1 as [| |? ? s1 s2 Ma Mb| | | |]; subst.
        change (c :: s1 ++ s2) with ((c :: s1) ++ s2).
        constructor; auto.
      * change (c :: s) with ([] ++ c :: s).
        constructor; [now apply nullable_matches|auto].
    + inversion M as [| |? ? s1 s2 Ma Mb| | | |]; subst.
      change (c :: s1 ++ s2) with ((c :: s1) ++ s2).
      constructor; auto.
  - inversion M; subst; [apply MAltL|apply MAltR]; auto.
  - inversion M as [| |? ? s1 s2 Ma Mb| | | |]; subst.
    change (c :: s1 ++ s2) with ((c :: s1) ++ s2).
    constructor; auto.
Qed.

Lemma deriv_complete c r u :
  matches r u -> forall s, u = c :: s -> matches (deriv c r) s.
Proof.
  induction 1 as [|p c' Hp|a b s1 t Ha IHa Hb IHb|a b s1 Ha IH|a b s1 Hb IH
                  |a|a s1 t Ha IHa Hs IHs]; intros s E; simpl.
  - discriminate E.
  - injection E as -> <-. rewrite Hp. constructor.
  - destruct s1 as [|c1 s1'].
    + simpl in E. subst t.
      rewrite (matches_nil_nullable a [] Ha eq_refl).
      apply MAltR. now apply IHb.
    + simpl in E. injection E as -> <-.
      assert (M : matches (Cat (deriv c a) b) (s1' ++ t))
        by (constructor; auto).
      destruct (nullable a); [now apply MAltL|exact M].
  - apply MAltL. auto.
  - apply MAltR. auto.
  - discriminate E.
  - destruct s1 as [|c1 s1'].
    + simpl in E. now apply IHs.
    + simpl in E. injection E as -> <-. constructor; auto.
Qed.

(** [match_prefix] decides whether some prefix of the text is denoted. *)
Lemma match_prefix_spec : forall s r,
  match_prefix r s = true <->
  exists p q, s = p ++ q /\ matches r p.
Proof.
  induction s as [|c t IH]; intros r; simpl.
  - rewrite orb_false_r, nullable_matches. split.
    + intros M. now exists [], [].
    + intros (p & q & E & M). symmetry in E.
      apply app_eq_nil in E. destruct E as [-> _]. exact M.
  - rewrite orb_true_iff, nullable_matches, IH. split.
    + intros [M|(p & q & -> & M)].
      * now exists [], (c :: t).
      * exists (c :: p), q. split; [reflexivity|now apply deriv_sound].
    + intros (p & q & E & M). destruct p as [|c' p'].
      * now left.
      * simpl in E. injection E as <- ->. right. exists p', q.
        split; [reflexivity|]. now apply (deriv_complete c r (c :: p')).
Qed.

(** [match_dollar] decides whether a prefix is denoted that ends where
    the text ends, or just before its final line feed. *)
Lemma match_dollar_spec : forall s r,
  match_dollar r s = true <->
  exists p q, s = p ++ q /\ matches r p /\ (q = [] \/ q = [LF]).
Proof.
  induction s as [|c t IH]; intros r; simpl.
  - rewrite nullable_matches. split.
    + intros M. exists [], []. auto.
    + intros (p & q & E & M & _). symmetry in E.
      apply app_eq_nil in E. destruct E as [-> _]. exact M.
  - rewrite orb_true_iff, IH. split.
    + intros [E|(p & q & -> & M & Hq)].
      * apply andb_prop in E. destruct E as [E Et].
        apply andb_prop in E. destruct E as [En Ec].
        apply N.eqb_eq in Ec. subst c. destruct t; [|discriminate Et].
        exists [], [LF]. rewrite <- nullable_matches. auto.
      * exists (c :: p), q. split; [reflexivity|].
        split; [now apply deriv_sound|exact Hq].
    + intros (p & q & E & M & Hq). destruct p as [|c' p'].
      * left. simpl in E. subst q. destruct Hq as [Hq|Hq];
          [discriminate Hq|]. injection Hq as -> ->.
        apply nullable_matches in M. rewrite M. reflexivity.
      * simpl in E. injection E as <- ->. right. exists p', q.
        split; [reflexivity|].
        split; [now apply (deriv_complete c r (c :: p'))|exact Hq].
Qed.

End RegexFacts.

(** ** Structure analyzer: hierarchy *)

Module HierarchyFacts.
Import DataModels IR StructureAnalyzer Headings.









End HierarchyFacts.

(** ** Structure analyzer: headings *)

Module HeadingFacts.
Import DataModels IR Regex StructureAnalyzer Headings.

(** The patterns at work. *)
Example numbered_heading :
  heuristic_patterns (Py.lit "1. Scope") = (true, 1)
  /\ heuristic_patterns (Py.lit "2.4 Roles") = (true, 2)
  /\ heuristic_patterns (Py.lit "GENERAL PROVISIONS") = (true, 1)
  /\ heuristic_patterns (Glava ++ Py.lit " 3") = (true, 1)
  /\ heuristic_patterns (Py.lit "General provisions") = (false, 1)
  /\ heuristic_patterns (Py.lit "1.2.3 Details") = (false, 1).
Proof. repeat split. Qed.

Lemma Qgtb_compat a b b' : (b == b')%Q -> Py.Qgtb a b = Py.Qgtb a b'.
Proof. intros E. unfold Py.Qgtb. now rewrite E. Qed.

Lemma Qgtb_compat_both a a' c :
  (a == a')%Q -> Py.Qgtb a (a * c) = Py.Qgtb a' (a' * c).
Proof. intros E. unfold Py.Qgtb. now rewrite E. Qed.

(** Only comparisons look at the mean: equal means, equal verdicts. *)
Lemma heuristic_font_compat avg avg' font st :
  (avg == avg')%Q ->
  heuristic_font avg font st = heuristic_font avg' font st.
Proof.
  intros E. unfold heuristic_font.
  rewrite (Qgtb_compat font (avg * (12 # 10)) (avg' * (12 # 10)))
    by now rewrite E.
  rewrite (Qgtb_compat font (avg * (15 # 10)) (avg' * (15 # 10)))
    by now rewrite E.
  rewrite (Qgtb_compat font (avg * (13 # 10)) (avg' * (13 # 10)))
    by now rewrite E.
  reflexivity.
Qed.

Lemma heuristic_font_default_compat avg avg' st :
  (avg == avg')%Q ->
  heuristic_font avg avg st = heuristic_font avg' avg' st.
Proof.
  intros E. unfold heuristic_font.
  now rewrite !(Qgtb_compat_both avg avg' _ E).
Qed.

Lemma set_heading_twice block level :
  set_heading (set_heading block level) level = set_heading block level.
Proof. reflexivity. Qed.

Section Stability.
Context `{DecimalTable}.

(** A block the pass has classified is classified the same way again,
    as long as the mean it is compared with is the same. *)
Lemma classify_block_stable avg avg' block block' :
  (avg == avg')%Q ->
  classify_block avg block = Ok block' ->
  classify_block avg' block' = Ok block'.
Proof.
  intros E. unfold classify_block at 1.
  destruct (is_candidate_type (type block)) eqn:Ec; cbn [negb].
  2:{ intros R. injection R as <-. unfold classify_block. now rewrite Ec. }
  destruct (font_size (metadata block)) as [| |v] eqn:Ef; [|discriminate|].
  - destruct (heuristic_bold _ _ _) as [is_heading level] eqn:Eh.
    destruct is_heading; intros R; injection R as <-.
    + unfold classify_block. cbn [set_heading type content metadata
        font_size is_bold is_candidate_type negb].
      rewrite Ef, <- (heuristic_font_default_compat avg avg' _ E), Eh.
      reflexivity.
    + unfold classify_block. rewrite Ec, Ef. cbn [negb].
      now rewrite <- (heuristic_font_default_compat avg avg' _ E), Eh.
  - destruct (heuristic_bold _ _ _) as [is_heading level] eqn:Eh.
    destruct is_heading; intros R; injection R as <-.
    + unfold classify_block. cbn [set_heading type content metadata
        font_size is_bold is_candidate_type negb].
      rewrite Ef, <- (heuristic_font_compat avg avg' _ _ E), Eh.
      reflexivity.
    + unfold classify_block. rewrite Ec, Ef. cbn [negb].
      now rewrite <- (heuristic_font_compat avg avg' _ _ E), Eh.
Qed.

Lemma classify_blocks_stable avg avg' blocks :
  forall blocks',
    (avg == avg')%Q ->
    classify_blocks avg blocks = Ok blocks' ->
    classify_blocks avg' blocks' = Ok blocks'.
Proof.
  induction blocks as [|b rest IH]; intros blocks' E; simpl.
  - intros R. injection R as <-. reflexivity.
  - destruct (classify_block avg b) as [b'|] eqn:Eb; [|discriminate].
    destruct (classify_blocks avg rest) as [rest'|] eqn:Er; [|discriminate].
    intros R. injection R as <-. simpl.
    rewrite (classify_block_stable _ _ _ _ E Eb).
    now rewrite (IH rest' E eq_refl).
Qed.

(** C6, amended.  A second run of the heading pass on the outcome of a
    first run leaves every block as the first run left it, provided the
    mean font size of the blocks typed Text or Paragraph is the same
    before and after the first run. *)
Theorem identify_headings_idempotent_same_mean
    (blocks once : list IRBlock) :
  identify_headings blocks = Ok once ->
  (avg_font_size once == avg_font_size blocks)%Q ->
  exists twice : list IRBlock,
    identify_headings once = Ok twice
    /\ map classification twice = map classification once
    /\ twice = once.
Proof.
  intros Hrun Hmean. exists once. split; [|now split].
  unfold identify_headings in *.
  apply (classify_blocks_stable (avg_font_size blocks) _ blocks);
    [|exact Hrun].
  now symmetry.
Qed.

(** Heuristic 3 alone: a bold, short Text or Paragraph block that
    matches no pattern and whose font size is not above the threshold
    becomes a heading of level 1. *)
Lemma bold_short_alone_level_1 avg block v :
  is_text_type (type block) = true ->
  is_bold (metadata block) = true ->
  Py.len (PyText.strip (content block)) < 100 ->
  existsb (fun p => re_match p (PyText.strip (content block)))
    HEADING_PATTERNS = false ->
  font_size (metadata block) = Num v ->
  Py.Qgtb v (avg * (12 # 10)) = false ->
  classify_block avg block = Ok (set_heading block 1).
Proof.
  intros Ht Hb Hl Hp Hf Hs. unfold classify_block.
  replace (is_candidate_type (type block)) with true
    by (destruct (type block); trivial; discriminate).
  cbn [negb]. rewrite Hf. unfold heuristic_patterns. rewrite Hp.
  unfold heuristic_font. rewrite Hs.
  unfold heuristic_bold. rewrite Hb.
  replace (Py.len (PyText.strip (content block)) <? 100) with true
    by (symmetry; now apply Z.ltb_lt).
  reflexivity.
Qed.
End Stability.

Lemma identify_headings_idempotent_same_mean_witness :
  exists twice : list IRBlock,
    identify_headings
      [ text_block "text_1" "first paragraph of the body" 12 false;
        set_heading (text_block "text_2" "summary" 12 true) 1 ]
    = Ok twice
    /\ map classification twice = [ (PARAGRAPH, None); (HEADING, Some 1) ]
    /\ twice =
         [ text_block "text_1" "first paragraph of the body" 12 false;
           set_heading (text_block "text_2" "summary" 12 true) 1 ].
Proof.
  apply (identify_headings_idempotent_same_mean one_size).
  - vm_compute. reflexivity.
  - vm_compute. reflexivity.
Defined.

(** C6 as it is stated fails: on a page set in 8, 8, 11 and 14 (bold)
    points the first run makes the bold caption a heading of level 2 and
    leaves the note a paragraph; the caption then no longer counts in
    the mean, and the second run makes the note a heading of level 3
    and the caption a heading of level 1. *)
Lemma second_run_changes_levels :
  exists once twice : list IRBlock,
    identify_headings mixed_sizes = Ok once
    /\ identify_headings once = Ok twice
    /\ map classification once =
         [ (PARAGRAPH, None); (PARAGRAPH, None); (PARAGRAPH, None);
           (HEADING, Some 2) ]
    /\ map classification twice =
         [ (PARAGRAPH, None); (PARAGRAPH, None); (HEADING, Some 3);
           (HEADING, Some 1) ]
    /\ map classification twice <> map classification once
    /\ map content once = map content mixed_sizes
    /\ map (fun b => font_size (metadata b)) once =
         map (fun b => font_size (metadata b)) mixed_sizes.
Proof.
  destruct (identify_headings mixed_sizes) as [once|] eqn:E1;
    vm_compute in E1; [|discriminate E1].
  injection E1 as <-.
  eexists. eexists. split; [reflexivity|].
  split; [vm_compute; reflexivity|].
  repeat split. discriminate.
Qed.

(** C8 on the code: the bold line of a page set in one size, which
    matches no pattern and is not larger than its neighbours, becomes a
    heading of level 1; heuristic 3 takes the minimum of 2 and the
    level the block has, which starts at 1. *)
Theorem bold_short_block_becomes_level_1 :
  exists headed : list IRBlock,
    identify_headings one_size = Ok headed
    /\ map classification headed = [ (PARAGRAPH, None); (HEADING, Some 1) ]
    /\ heuristic_patterns (PyText.strip (Py.lit "summary")) = (false, 1)
    /\ heuristic_font 12 12 (false, 1) = (false, 1)
    /\ heuristic_bold true (Py.lit "summary") (false, 1) = (true, 1).
Proof.
  eexists. split; [vm_compute; reflexivity|].
  repeat split.
Qed.

End HeadingFacts.

(** ** Bounding boxes *)

Module BBoxFacts.
Import DataModels BBoxMethods PySortFacts.

Lemma Qltb_gtb a b : Py.Qltb a b = Py.Qgtb b a.
Proof.
  unfold Py.Qltb, Py.Qgtb. rewrite <- (Qcompare_antisym a b).
  now destruct (a ?= b)%Q.
Qed.

Lemma Qgtb_false_le a b : Py.Qgtb a b = false -> (a <= b)%Q.
Proof.
  intros E. destruct (Qlt_le_dec b a) as [L|L]; [|exact L].
  apply Qgtb_lt in L. congruence.
Qed.

Lemma Qltb_false_le a b : Py.Qltb a b = false -> (b <= a)%Q.
Proof. rewrite Qltb_gtb. apply Qgtb_false_le. Qed.

Lemma py_min_cases a b :
  ((b < a)%Q /\ py_min a b = b) \/ ((a <= b)%Q /\ py_min a b = a).
Proof.
  unfold py_min. destruct (Py.Qltb b a) eqn:E.
  - left. split; [now apply Qltb_lt|reflexivity].
  - right. split; [now apply Qltb_false_le|reflexivity].
Qed.

Lemma Qmax_cases a b :
  ((a < b)%Q /\ Py.Qmax a b = b) \/ ((b <= a)%Q /\ Py.Qmax a b = a).
Proof.
  unfold Py.Qmax. destruct (Py.Qgtb b a) eqn:E.
  - left. split; [now apply Qgtb_lt|reflexivity].
  - right. split; [now apply Qgtb_false_le|reflexivity].
Qed.

Lemma py_min_comm a b : (py_min a b == py_min b a)%Q.
Proof.
  destruct (py_min_cases a b) as [[L ->]|[L ->]],
           (py_min_cases b a) as [[L' ->]|[L' ->]]; lra.
Qed.

Lemma Qmax_comm a b : (Py.Qmax a b == Py.Qmax b a)%Q.
Proof.
  destruct (Qmax_cases a b) as [[L ->]|[L ->]],
           (Qmax_cases b a) as [[L' ->]|[L' ->]]; lra.
Qed.

Lemma overlaps_comm a b : overlaps a b = overlaps b a.
Proof.
  unfold overlaps. rewrite !Qltb_gtb.
  destruct (Py.Qgtb (x0 b) (x1 a)), (Py.Qgtb (x0 a) (x1 b)),
           (Py.Qgtb (y0 b) (y1 a)), (Py.Qgtb (y0 a) (y1 b)); reflexivity.
Qed.

(** The four inequalities behind a positive answer of [overlaps]. *)
Lemma overlaps_true a b :
  overlaps a b = true ->
  (x0 b <= x1 a)%Q /\ (x0 a <= x1 b)%Q /\
  (y0 b <= y1 a)%Q /\ (y0 a <= y1 b)%Q.
Proof.
  unfold overlaps. rewrite negb_true_iff, !orb_false_iff.
  intros [[[H1 H2] H3] H4].
  repeat split;
    first [now apply Qltb_false_le | now apply Qgtb_false_le].
Qed.

(** X1.  Whether two boxes overlap, and by how much, does not depend on
    which of the two is asked. *)
Theorem overlap_symmetric (a b : BBox) :
  overlaps a b = overlaps b a
  /\ (overlap_area a b == overlap_area b a)%Q.
Proof.
  split; [apply overlaps_comm|].
  unfold overlap_area. rewrite (overlaps_comm b a).
  destruct (overlaps a b); cbn [negb]; [|reflexivity].
  rewrite (py_min_comm (x1 a) (x1 b)), (py_min_comm (y1 a) (y1 b)).
  rewrite (Qmax_comm (x0 a) (x0 b)), (Qmax_comm (y0 a) (y0 b)).
  reflexivity.
Qed.

(** X2.  For boxes whose corners are in order the overlap area is
    never negative and never exceeds the area of either box. *)
Theorem overlap_area_bounds (a b : BBox) :
  well_formed a -> well_formed b ->
  (0 <= overlap_area a b)%Q
  /\ (overlap_area a b <= area a)%Q
  /\ (overlap_area a b <= area b)%Q.
Proof.
  intros [Hax Hay] [Hbx Hby]. unfold overlap_area, area.
  destruct (overlaps a b) eqn:E; cbn [negb].
  2:{ repeat split; nra. }
  apply overlaps_true in E. destruct E as (E1 & E2 & E3 & E4).
  destruct (py_min_cases (x1 a) (x1 b)) as [[? ->]|[? ->]],
           (Qmax_cases (x0 a) (x0 b)) as [[? ->]|[? ->]],
           (py_min_cases (y1 a) (y1 b)) as [[? ->]|[? ->]],
           (Qmax_cases (y0 a) (y0 b)) as [[? ->]|[? ->]];
    repeat split; nra.
Qed.

Lemma overlap_area_bounds_witness :
  (0 <= overlap_area (mkBBox 0 0 10 10) (mkBBox 5 5 20 8))%Q
  /\ (overlap_area (mkBBox 0 0 10 10) (mkBBox 5 5 20 8)
      <= area (mkBBox 0 0 10 10))%Q
  /\ (overlap_area (mkBBox 0 0 10 10) (mkBBox 5 5 20 8)
      <= area (mkBBox 5 5 20 8))%Q.
Proof.
  apply overlap_area_bounds; split; simpl; discriminate.
Defined.

(** Boxes that only share an edge count as overlapping, with an
    overlap of area 0. *)
Example touching_boxes_overlap :
  overlaps (mkBBox 0 0 10 10) (mkBBox 10 0 20 10) = true
  /\ (overlap_area (mkBBox 0 0 10 10) (mkBBox 10 0 20 10) == 0)%Q.
Proof. split; reflexivity. Qed.

End BBoxFacts.
(** ** Content router: the whole rule table *)

Module RouterTableFacts.
Import DataModels ContentRouter PageAnalysis PySortFacts BBoxFacts.

(** X3.  The tier is a monotone function of the density: a denser page
    never gets a tier of lower capacity, with or without accuracy
    priority and whatever the layout. *)
Theorem select_ocr_mode_monotone
    (self : Router) (layout : LayoutType) (d1 d2 : Z) :
  d1 <= d2 ->
  tier_rank (select_ocr_mode self d1 layout)
  <= tier_rank (select_ocr_mode self d2 layout).
Proof.
  intros Hd. unfold select_ocr_mode.
  destruct (LayoutType_eqb layout NEWSPAPER); [reflexivity|].
  unfold MODE_TINY_MAX, MODE_SMALL_MAX, MODE_BASE_MAX, MODE_LARGE_MAX.
  destruct (prioritize_accuracy self);
    repeat match goal with
           | |- context [?a <=? ?b] => destruct (Z.leb_spec a b)
           end; simpl; lia.
Qed.

Lemma select_ocr_mode_monotone_witness :
  tier_rank (select_ocr_mode (mkRouter false) 800 SINGLE_COLUMN)
  <= tier_rank (select_ocr_mode (mkRouter false) 2600 SINGLE_COLUMN).
Proof. apply select_ocr_mode_monotone. lia. Defined.

(** X4.  A decision carries a tier exactly when it is not Native. *)
Theorem tier_present_unless_native (self : Router) (meta : PageMetadata) :
  match apply_routing_rules self meta with
  | (NATIVE, ocr_mode, _) => ocr_mode = None
  | (_, ocr_mode, _) => exists tier, ocr_mode = Some tier
  end.
Proof.
  unfold apply_routing_rules.
  destruct (negb (has_text_layer meta)); [eexists; reflexivity|].
  destruct (LayoutType_eqb (layout_type meta) NEWSPAPER);
    [eexists; reflexivity|].
  destruct (LayoutType_eqb (layout_type meta) COMPLEX);
    [eexists; reflexivity|].
  destruct (Py.Qgtb (bbox_coverage meta) BBOX_COVERAGE_HIGH);
    [eexists; reflexivity|].
  destruct (Py.Qgtb (bbox_coverage meta) BBOX_COVERAGE_LOW
            && ((image_count meta >? 0) || (drawing_count meta >? 5))),
           (prioritize_accuracy self); cbn [andb];
    try (eexists; reflexivity);
    destruct (text_density meta >? TEXT_DENSITY_VERY_HIGH);
    first [reflexivity | eexists; reflexivity].
Qed.

(** X5.  Without accuracy priority rules 5 and 6 never fire: the
    router never decides Hybrid, the density never changes the
    decision, and the decision is OCR exactly when the page has no
    text layer, a newspaper or complex layout, or a graphics coverage
    above 0.5. *)
Theorem routing_without_accuracy_priority (meta : PageMetadata) :
  fst (fst (apply_routing_rules (mkRouter false) meta)) =
  if negb (has_text_layer meta)
     || LayoutType_eqb (layout_type meta) NEWSPAPER
     || LayoutType_eqb (layout_type meta) COMPLEX
     || Py.Qgtb (bbox_coverage meta) (5 # 10)
  then OCR else NATIVE.
Proof.
  unfold apply_routing_rules. cbn [prioritize_accuracy andb].
  destruct (negb (has_text_layer meta)); [reflexivity|].
  destruct (LayoutType_eqb (layout_type meta) NEWSPAPER); [reflexivity|].
  destruct (LayoutType_eqb (layout_type meta) COMPLEX); [reflexivity|].
  unfold BBOX_COVERAGE_HIGH.
  destruct (Py.Qgtb (bbox_coverage meta) (5 # 10)); [reflexivity|].
  now destruct (Py.Qgtb (bbox_coverage meta) BBOX_COVERAGE_LOW
                && ((image_count meta >? 0) || (drawing_count meta >? 5))).
Qed.

Lemma select_ocr_mode_accuracy_rank density layout :
  2 <= tier_rank (select_ocr_mode (mkRouter true) density layout).
Proof.
  unfold select_ocr_mode. cbn [prioritize_accuracy].
  destruct (LayoutType_eqb layout NEWSPAPER); [simpl; lia|].
  destruct (density <=? MODE_SMALL_MAX); [simpl; lia|].
  destruct (density <=? MODE_BASE_MAX); [simpl; lia|].
  destruct (density <=? MODE_LARGE_MAX); simpl; lia.
Qed.

(** X6.  With accuracy priority no decision carries the tier Tiny or
    Small, whichever rule made it; and a newspaper layout gets OCR
    with the tier Gundam under either setting, with or without a text
    layer. *)
Theorem accuracy_priority_tiers (meta : PageMetadata) (self : Router) :
  match snd (fst (apply_routing_rules (mkRouter true) meta)) with
  | Some tier => 2 <= tier_rank tier
  | None => True
  end
  /\ (layout_type meta = NEWSPAPER ->
      fst (apply_routing_rules self meta) = (OCR, Some GUNDAM)).
Proof.
  split.
  - unfold apply_routing_rules.
    pose proof (select_ocr_mode_accuracy_rank (text_density meta)
                  (layout_type meta)) as Hr.
    cbn [prioritize_accuracy].
    destruct (negb (has_text_layer meta)); [exact Hr|].
    destruct (LayoutType_eqb (layout_type meta) NEWSPAPER);
      [simpl; lia|].
    destruct (LayoutType_eqb (layout_type meta) COMPLEX); [exact Hr|].
    destruct (Py.Qgtb (bbox_coverage meta) BBOX_COVERAGE_HIGH);
      [exact Hr|].
    destruct (Py.Qgtb (bbox_coverage meta) BBOX_COVERAGE_LOW
              && ((image_count meta >? 0) || (drawing_count meta >? 5)));
      [exact Hr|].
    cbn [andb].
    destruct (text_density meta >? TEXT_DENSITY_VERY_HIGH);
      [exact Hr|exact I].
  - intros Hl. unfold apply_routing_rules, select_ocr_mode. rewrite Hl.
    cbn [LayoutType_eqb]. now destruct (negb (has_text_layer meta)).
Qed.

Lemma accuracy_priority_tiers_witness :
  fst (apply_routing_rules (mkRouter false)
         (mkPageMetadata 4 595 842 0 false 0 NEWSPAPER 0 0 0 0))
  = (OCR, Some GUNDAM).
Proof.
  apply (accuracy_priority_tiers
           (mkPageMetadata 4 595 842 0 false 0 NEWSPAPER 0 0 0 0)).
  reflexivity.
Defined.

End RouterTableFacts.

(** ** Page analyzer: density, coverage and columns *)

Module PageFacts.
Import DataModels PageAnalyzer ContentRouter PageAnalysis BBoxMethods.
Import PySortFacts BBoxFacts.

Lemma py_int_quarter (n : Z) :
  0 <= n -> py_int (inject_Z n * TOKEN_ESTIMATE_RATIO) = n / 4.
Proof.
  intros Hn. unfold py_int, TOKEN_ESTIMATE_RATIO. cbn [Qmult Qnum Qden inject_Z].
  rewrite Z.quot_div_nonneg by lia.
  change (Z.pos (1 * 100)) with (4 * 25).
  apply Z.div_mul_cancel_r; lia.
Qed.

(** X7.  The density estimate is a quarter of the length of the
    stripped text, rounded down, and the page has a text layer exactly
    when the stripped text is not empty: a page without a text layer
    has density 0, while a text of one to three characters makes a
    text layer of density 0. *)
Theorem density_is_quarter_of_length (page : Page) :
  let text := PyText.strip (pg_text page) in
  estimate_text_density page = Py.len text / 4
  /\ has_text_layer_of page = negb (Py.len text =? 0).
Proof.
  cbv zeta. unfold estimate_text_density, has_text_layer_of.
  destruct (PyText.strip (pg_text page)) as [|c t] eqn:E.
  - split; reflexivity.
  - split; [|reflexivity].
    apply py_int_quarter. unfold Py.len. lia.
Qed.

Lemma add_image_area_nonneg acc img :
  (0 <= acc)%Q -> image_well_formed img ->
  (0 <= add_image_area acc img)%Q.
Proof.
  destruct img as [b|]; simpl; [|tauto].
  intros Ha [Hx Hy]. nra.
Qed.

Lemma add_drawing_area_nonneg acc r :
  (0 <= acc)%Q -> rect_well_formed r ->
  (0 <= add_drawing_area acc r)%Q.
Proof.
  destruct r as [[[[r0 r1] r2] r3]|]; simpl; [|tauto].
  intros Ha [Hx Hy]. nra.
Qed.

Lemma fold_image_area_nonneg images :
  forall acc,
    (0 <= acc)%Q -> Forall image_well_formed images ->
    (0 <= fold_left add_image_area images acc)%Q.
Proof.
  induction images as [|img rest IH]; intros acc Ha Hf; [exact Ha|].
  inversion Hf; subst. simpl. apply IH; trivial.
  now apply add_image_area_nonneg.
Qed.

Lemma fold_drawing_area_nonneg drawings :
  forall acc,
    (0 <= acc)%Q -> Forall rect_well_formed drawings ->
    (0 <= fold_left add_drawing_area drawings acc)%Q.
Proof.
  induction drawings as [|r rest IH]; intros acc Ha Hf; [exact Ha|].
  inversion Hf; subst. simpl. apply IH; trivial.
  now apply add_drawing_area_nonneg.
Qed.

(** X8.  On a page whose sides are not negative and whose graphics
    have their corners in order the graphics coverage lies between 0
    and 1, however much the graphics overlap or stick out of the page,
    and it is 0 on a page of area 0. *)
Theorem coverage_bounds (page : Page) :
  (0 <= pg_width page)%Q -> (0 <= pg_height page)%Q ->
  Forall image_well_formed (pg_images page) ->
  Forall rect_well_formed (pg_drawings page) ->
  (0 <= calculate_bbox_coverage page)%Q
  /\ (calculate_bbox_coverage page <= 1)%Q
  /\ ((pg_width page * pg_height page == 0)%Q ->
      calculate_bbox_coverage page = 0%Q).
Proof.
  intros Hw Hh Hi Hd. unfold calculate_bbox_coverage.
  set (page_area := (pg_width page * pg_height page)%Q).
  set (graphic_area :=
         fold_left add_drawing_area (pg_drawings page)
           (fold_left add_image_area (pg_images page) 0%Q)).
  assert (Hg : (0 <= graphic_area)%Q).
  { apply fold_drawing_area_nonneg; trivial.
    apply fold_image_area_nonneg; trivial. lra. }
  unfold Py.Qeqb.
  destruct (Qcompare_spec page_area 0) as [E|L|G].
  - repeat split; lra.
  - exfalso. assert (0 <= page_area)%Q by (unfold page_area; nra). lra.
  - assert (Hq : (0 <= graphic_area / page_area)%Q).
    { unfold Qdiv. apply Qmult_le_0_compat; [exact Hg|].
      apply Qlt_le_weak, Qinv_lt_0_compat. exact G. }
    destruct (py_min_cases (graphic_area / page_area) 1) as [[L ->]|[L ->]].
    + repeat split; lra.
    + repeat split; lra.
Qed.

Lemma coverage_bounds_witness :
  (0 <= calculate_bbox_coverage
          (mkPage 0 595 842 0 (Py.lit "text") []
             [Some (mkBBox 0 0 500 800); Some (mkBBox 0 0 500 800)]
             [Some (10, 10, 90, 20)%Q; None]))%Q
  /\ (calculate_bbox_coverage
        (mkPage 0 595 842 0 (Py.lit "text") []
           [Some (mkBBox 0 0 500 800); Some (mkBBox 0 0 500 800)]
           [Some (10, 10, 90, 20)%Q; None]) <= 1)%Q.
Proof.
  destruct (coverage_bounds
              (mkPage 0 595 842 0 (Py.lit "text") []
                 [Some (mkBBox 0 0 500 800); Some (mkBBox 0 0 500 800)]
                 [Some (10, 10, 90, 20)%Q; None]))
    as (H0 & H1 & _).
  - simpl. discriminate.
  - simpl. discriminate.
  - repeat constructor; simpl; discriminate.
  - repeat constructor; simpl; discriminate.
  - split; [exact H0|exact H1].
Defined.

(** *** The columns *)

Lemma adjacent_gaps_widen columns s e e' :
  adjacent_gaps (columns ++ [(s, e)]) ->
  adjacent_gaps (columns ++ [(s, e')]).
Proof.
  induction columns as [|[s1 e1] rest IH]; simpl; [trivial|].
  destruct rest as [|[s2 e2] rest']; simpl in *.
  - tauto.
  - intros [H1 H2]. split; [exact H1|]. apply IH. exact H2.
Qed.

Lemma adjacent_gaps_open columns s e c :
  adjacent_gaps (columns ++ [(s, e)]) ->
  (e + MULTI_COLUMN_GAP < fst c)%Q ->
  adjacent_gaps ((columns ++ [(s, e)]) ++ [c]).
Proof.
  destruct c as [s' e']. simpl.
  induction columns as [|[s1 e1] rest IH]; simpl; [tauto|].
  destruct rest as [|[s2 e2] rest']; simpl in *.
  - intros [H1 _] H. tauto.
  - intros [H1 H2] H. split; [exact H1|]. now apply IH.
Qed.

Lemma columns_step_gaps columns cur c :
  adjacent_gaps (columns ++ [cur]) ->
  adjacent_gaps (fst (columns_step (columns, cur) c)
                   ++ [snd (columns_step (columns, cur) c)]).
Proof.
  destruct cur as [cs ce], c as [cx0 cx1]. cbn [columns_step].
  destruct (Py.Qleb cx0 (ce + MULTI_COLUMN_GAP)%Q) eqn:E; cbn [fst snd].
  - apply adjacent_gaps_widen.
  - intros Hg. apply adjacent_gaps_open; [exact Hg|].
    unfold Py.Qleb in E. rewrite negb_false_iff in E.
    now apply Qgtb_lt in E.
Qed.

Lemma fold_columns_gaps rest :
  forall columns cur,
    adjacent_gaps (columns ++ [cur]) ->
    adjacent_gaps (fst (fold_left columns_step rest (columns, cur))
                     ++ [snd (fold_left columns_step rest (columns, cur))]).
Proof.
  induction rest as [|c rest IH]; intros columns cur Hg; [exact Hg|].
  cbn [fold_left]. pose proof (columns_step_gaps columns cur c Hg) as Hs.
  destruct (columns_step (columns, cur) c) as [columns1 cur1].
  apply (IH columns1 cur1). exact Hs.
Qed.

Lemma fold_columns_count rest :
  forall columns cur,
    (length (fst (fold_left columns_step rest (columns, cur)))
     <= length columns + length rest)%nat.
Proof.
  induction rest as [|c rest IH]; intros columns cur; [simpl; lia|].
  cbn [fold_left length].
  pose proof (AnalyzerFacts.columns_step_count columns cur c) as Hc.
  destruct (columns_step (columns, cur) c) as [columns1 cur1].
  specialize (IH columns1 cur1).
  destruct (Py.Qleb (fst c) (snd cur + MULTI_COLUMN_GAP)%Q); lia.
Qed.

(** X9.  Any two neighbouring columns the clustering returns are more
    than the gap threshold apart (the next one starts more than 50
    beyond the end of the previous one), and there are never more
    columns than intervals. *)
Theorem detect_columns_separated (x_coords : list (Q * Q)) (page_width : Q) :
  adjacent_gaps (detect_columns x_coords page_width)
  /\ (length (detect_columns x_coords page_width) <= length x_coords)%nat.
Proof.
  unfold detect_columns.
  pose proof (sorted_length Py.Qltb fst x_coords) as Hlen.
  destruct (PySort.sorted Py.Qltb fst x_coords) as [|first rest];
    [split; [exact I|simpl; lia]|].
  pose proof (fold_columns_gaps rest [] first) as Hg.
  pose proof (fold_columns_count rest [] first) as Hc.
  destruct (fold_left columns_step rest ([], first)) as [columns cur].
  split.
  - apply Hg. destruct first. exact I.
  - rewrite length_app. simpl in *. lia.
Qed.

Lemma within_refl c : within c c.
Proof. split; lra. Qed.

Lemma within_trans a b c : within a b -> within b c -> within a c.
Proof. intros [H1 H2] [H3 H4]. split; lra. Qed.

Lemma covered_trans columns a b :
  within a b -> covered columns b -> covered columns a.
Proof.
  intros Hab (c & Hc & Hbc). exists c. split; [exact Hc|].
  now apply within_trans with b.
Qed.

(** While the intervals arrive in the order of their left edges, every
    interval seen and every column built stays within a column. *)
Lemma fold_columns_cover rest :
  forall columns cur,
    StronglySorted (PySort.key_le Py.Qltb fst) rest ->
    Forall (fun r => (fst cur <= fst r)%Q) rest ->
    let st := fold_left columns_step rest (columns, cur) in
    (forall c, In c (columns ++ [cur]) -> covered (fst st ++ [snd st]) c)
    /\ (forall r, In r rest -> covered (fst st ++ [snd st]) r).
Proof.
  induction rest as [|r rest IH]; intros columns cur Hs Hc; cbv zeta.
  - split; [|intros r []].
    intros c Hin. exists c. split; [exact Hin|apply within_refl].
  - apply StronglySorted_inv in Hs. destruct Hs as [Hs Hr].
    inversion Hc as [|? ? Hcr Hc']; subst.
    cbn [fold_left]. destruct cur as [cs ce], r as [rx0 rx1].
    cbn [columns_step]. cbn [fst] in Hcr.
    destruct (Py.Qleb rx0 (ce + MULTI_COLUMN_GAP)%Q) eqn:E.
    + destruct (IH columns (cs, Py.Qmax ce rx1) Hs Hc') as [A B].
      assert (Hcur : within (cs, ce) (cs, Py.Qmax ce rx1)).
      { split; cbn [fst snd]; [lra|].
        destruct (Qmax_cases ce rx1) as [[? ->]|[? ->]]; lra. }
      assert (Hnew : within (rx0, rx1) (cs, Py.Qmax ce rx1)).
      { split; cbn [fst snd]; [exact Hcr|].
        destruct (Qmax_cases ce rx1) as [[? ->]|[? ->]]; lra. }
      assert (Hin : In (cs, Py.Qmax ce rx1)
                      (columns ++ [(cs, Py.Qmax ce rx1)]))
        by (apply in_or_app; right; now left).
      split.
      * intros c Hc0. apply in_app_or in Hc0.
        destruct Hc0 as [Hc0|[<-|[]]].
        -- apply A. apply in_or_app. now left.
        -- apply (covered_trans _ _ _ Hcur). now apply A.
      * intros r [<-|Hr0]; [|now apply B].
        apply (covered_trans _ _ _ Hnew). now apply A.
    + assert (Hc2 : Forall (fun r => (fst (rx0, rx1) <= fst r)%Q) rest).
      { eapply Forall_impl; [|exact Hr]. intros a Ha.
        unfold PySort.key_le in Ha. now apply Qltb_false_le in Ha. }
      destruct (IH (columns ++ [(cs, ce)]) (rx0, rx1) Hs Hc2) as [A B].
      split.
      * intros c Hc0. apply A. apply in_or_app. now left.
      * intros r [<-|Hr0]; [|now apply B].
        apply A. apply in_or_app. right. now left.
Qed.

(** X10.  Every interval handed to the clustering lies within one of
    the columns it returns: a column starts no later than the interval
    and ends no earlier. *)
Theorem detect_columns_cover (x_coords : list (Q * Q)) (page_width : Q) :
  Forall (covered (detect_columns x_coords page_width)) x_coords.
Proof.
  apply Forall_forall. intros i Hi. unfold detect_columns.
  pose proof (sorted_perm Py.Qltb fst x_coords) as Hp.
  pose proof (sorted_strongly Py.Qltb fst Qltb_asym Qltb_cotrans x_coords)
    as Hs.
  apply (Permutation_in _ (Permutation_sym Hp)) in Hi.
  destruct (PySort.sorted Py.Qltb fst x_coords) as [|first rest];
    [destruct Hi|].
  apply StronglySorted_inv in Hs. destruct Hs as [Hs Hf].
  assert (Hc : Forall (fun r => (fst first <= fst r)%Q) rest).
  { eapply Forall_impl; [|exact Hf]. intros a Ha.
    unfold PySort.key_le in Ha. now apply Qltb_false_le in Ha. }
  destruct (fold_columns_cover rest [] first Hs Hc) as [A B].
  destruct (fold_left columns_step rest ([], first)) as [columns cur].
  cbn [fst snd] in A, B.
  destruct Hi as [<-|Hi]; [apply A; now left|now apply B].
Qed.

(** X11.  A page whose text is empty or white space only is routed to
    OCR, under either setting and whatever else it holds - a blank
    page included. *)
Theorem page_without_text_goes_to_ocr (self : Router) (page : Page) :
  PyText.strip (pg_text page) = [] ->
  rd_decision (route_page self page None) = OCR
  /\ text_density (rd_metadata (route_page self page None)) = 0.
Proof.
  intros E. unfold route_page, apply_routing_rules, analyze_page.
  cbn [has_text_layer text_density]. unfold has_text_layer_of,
    estimate_text_density. rewrite E. cbn [negb]. split; reflexivity.
Qed.

Lemma page_without_text_goes_to_ocr_witness :
  rd_decision
    (route_page (mkRouter false)
       (mkPage 3 595 842 0 (Py.lit "  ") [] [] []) None) = OCR
  /\ text_density
       (rd_metadata
          (route_page (mkRouter false)
             (mkPage 3 595 842 0 (Py.lit "  ") [] [] []) None)) = 0.
Proof. apply page_without_text_goes_to_ocr. reflexivity. Defined.

End PageFacts.

(** ** OCR client: retries and parsing *)

Module ClientRetryFacts.
Import DataModels StateM OCRClient Requests Answers PySortFacts BBoxFacts.

Lemma counting_post {W} (S : Service W) request w n :
  @post (W * nat) (counting S) request (w, n) =
  (fst (@post W S request w), (snd (@post W S request w), Datatypes.S n)).
Proof. simpl. now destruct (@post W S request w). Qed.

(** The counter changes nothing in what the client does, and the
    client asks at most once per attempt. *)
Lemma ocr_image_loop_counted {W} (S : Service W) attempts page_num :
  forall request w n,
    let plain := @ocr_image_loop W S attempts request page_num w in
    let counted :=
      @ocr_image_loop (W * nat) (counting S) attempts request page_num
        (w, n) in
    fst counted = fst plain
    /\ fst (snd counted) = snd plain
    /\ snd (snd counted)
       = (n + answers_used page_num (@answers W S attempts request w))%nat.
Proof.
  induction attempts as [|k IH]; intros request w n; cbv zeta.
  - simpl. repeat split. lia.
  - cbn [ocr_image_loop answers]. unfold bind.
    rewrite counting_post.
    destruct (@post W S request w) as [result w1]. cbn [fst snd].
    specialize (IH (retry_of request) w1 (Datatypes.S n)). cbv zeta in IH.
    destruct IH as (I1 & I2 & I3).
    destruct result as [| |status| |data]; cbn [answers_used is_transient].
    + rewrite I1, I2, I3. repeat split. lia.
    + rewrite I1, I2, I3. repeat split. lia.
    + destruct (status >=? 500).
      * rewrite I1, I2, I3. repeat split. lia.
      * unfold ret. cbn [fst snd]. repeat split. lia.
    + rewrite I1, I2, I3. repeat split. lia.
    + destruct (parse_ocr_response data page_num).
      * unfold ret. cbn [fst snd]. repeat split. lia.
      * rewrite I1, I2, I3. repeat split. lia.
Qed.

Lemma answers_used_bound page_num results :
  (answers_used page_num results <= length results)%nat.
Proof.
  induction results as [|r rest IH]; simpl; [lia|].
  destruct (is_transient page_num r); lia.
Qed.

Lemma answers_length {W} `{Service W} k :
  forall request w, length (answers k request w) = k.
Proof.
  induction k as [|k IH]; intros request w; [reflexivity|].
  cbn [answers]. destruct (post request w) as [r w1]. simpl. now rewrite IH.
Qed.

Lemma retry_of_again request : retry_of (retry_of request) = retry_of request.
Proof. reflexivity. Qed.

(** From the second attempt on the same request goes out. *)
Lemma answers_of_retries {W} `{Service W} k request :
  forall w,
    answers k (retry_of request) w
    = answers_to (repeat (retry_of request) k) w.
Proof.
  induction k as [|k IH]; intros w; [reflexivity|].
  cbn [answers repeat answers_to]. rewrite retry_of_again.
  destruct (post (retry_of request) w) as [r w1]. now rewrite IH.
Qed.

Lemma loop_first_decisive {W} `{Service W} page_num k :
  forall request w,
    fst (ocr_image_loop k request page_num w)
    = match decisive page_num (answers k request w) with
      | Some result => outcome_of page_num result
      | None => Raised
      end.
Proof.
  induction k as [|k IH]; intros request w; [reflexivity|].
  cbn [ocr_image_loop answers]. unfold bind.
  destruct (post request w) as [result w1].
  unfold decisive in *. cbn [find].
  destruct result as [| |status| |data];
    cbn [is_transient negb outcome_of]; try apply IH.
  - destruct (status >=? 500); cbn [negb]; [apply IH|reflexivity].
  - destruct (parse_ocr_response data page_num) eqn:E; cbn [negb];
      [|apply IH].
    cbn [outcome_of]. now rewrite E.
Qed.

(** X12.  A call of [ocr_image] sends at most [max_retries] requests,
    none at all when [max_retries] is zero or negative, in which case
    it raises; counting the requests does not change the outcome. *)
Theorem ocr_image_request_budget {W} (S : Service W) (self : Client)
    (image_data : list N) (page_num : Z) (bbox : option BBox)
    (prompt_type : string) (base_size image_size : Z) (crop_mode : bool)
    (w : W) (n : nat) :
  let counted :=
    @ocr_image (W * nat) (counting S) self image_data page_num bbox
      prompt_type base_size image_size crop_mode (w, n) in
  let plain :=
    @ocr_image W S self image_data page_num bbox prompt_type base_size
      image_size crop_mode w in
  (n <= snd (snd counted) <= n + Z.to_nat (max_retries self))%nat
  /\ fst counted = fst plain
  /\ fst (snd counted) = snd plain
  /\ match fst plain with
     | Returned _ => (n < snd (snd counted))%nat
     | Raised => True
     end.
Proof.
  cbv zeta. unfold ocr_image.
  set (request := mkRequest _ _ _ _ _ _ _).
  destruct (ocr_image_loop_counted S (Z.to_nat (max_retries self)) page_num
              request w n) as (H1 & H2 & H3).
  pose proof (answers_used_bound page_num
                (@answers W S (Z.to_nat (max_retries self)) request w)) as Hb.
  rewrite answers_length in Hb.
  split; [rewrite H3; lia|]. split; [exact H1|]. split; [exact H2|].
  rewrite H3.
  destruct (Z.to_nat (max_retries self)) as [|k] eqn:Ek; [exact I|].
  destruct (fst (ocr_image_loop (Datatypes.S k) request page_num w));
    [exact I|].
  cbn [answers]. destruct (@post W S request w) as [r w1].
  cbn [answers_used]. destruct (is_transient page_num r); lia.
Qed.

(** X13.  Only the first attempt of a call uploads the image: every
    later attempt sends the same form data with an empty file, the
    stream having been read to its end.  The outcome of the call is
    decided by the first answer that is not transient among the
    answers the service gives to these requests, at most [max_retries]
    of them: a parsed document is returned, an HTTP error below 500
    raises at once; timeouts, connection errors, other exceptions, HTTP
    errors from 500 on and documents that cannot be parsed are passed
    over, and when nothing else comes the call raises. *)
Theorem ocr_image_first_decisive_answer {W} `{Service W} (self : Client)
    (image_data : list N) (page_num : Z) (bbox : option BBox)
    (prompt_type : string) (base_size image_size : Z) (crop_mode : bool)
    (w : W) :
  let url := (base_url self ++ "/ocr/figure")%string in
  let first_request :=
    mkRequest url image_data prompt_type base_size image_size crop_mode
      (timeout self) in
  let later_request :=
    mkRequest url [] prompt_type base_size image_size crop_mode
      (timeout self) in
  let requests :=
    match Z.to_nat (max_retries self) with
    | O => []
    | S retries => first_request :: repeat later_request retries
    end in
  fst (ocr_image self image_data page_num bbox prompt_type base_size
         image_size crop_mode w)
  = match decisive page_num (answers_to requests w) with
    | Some result => outcome_of page_num result
    | None => Raised
    end.
Proof.
  cbv zeta. unfold ocr_image. rewrite loop_first_decisive.
  destruct (Z.to_nat (max_retries self)) as [|retries]; [reflexivity|].
  cbn [answers answers_to].
  destruct (post _ w) as [result w1].
  now rewrite answers_of_retries.
Qed.

(** A service that is busy once and then reads the upload: the retry
    reaches it with an empty file and is refused, although the same
    service accepts the image when it comes with the request. *)
Example retry_uploads_an_empty_file :
  fst (@ocr_image nat busy_once Samples.client [137; 80; 78; 71]%N 2 None
         "parse_figure" 1024 1024 false 0%nat)
  = Raised
  /\ fst (@ocr_image nat busy_once Samples.client [137; 80; 78; 71]%N 2 None
            "parse_figure" 1024 1024 false 1%nat)
     <> Raised.
Proof. split; [reflexivity|discriminate]. Qed.

(** *** Parsing *)

Lemma parse_block_malformed block_data page_num :
  match parse_block block_data page_num with
  | None => malformed_bbox block_data = true
  | Some (b, c) =>
      malformed_bbox block_data = false
      /\ c = ob_confidence b
      /\ ob_content b = get (bd_content block_data) []
      /\ ob_type b = fragment_type block_data
      /\ ob_page_num b = page_num
      /\ ob_source b = "ocr"%string
      /\ ob_confidence b = get (bd_confidence block_data) 1%Q
  end.
Proof.
  unfold parse_block, malformed_bbox, fragment_type.
  destruct (bd_bbox block_data) as [[dx0 dy0 dx1 dy1|coords]|];
    cbn [get parse_bbox]; try (repeat split; reflexivity).
  destruct coords as [|a [|b [|c [|d [|e rest]]]]]; cbn;
    try reflexivity; repeat split; reflexivity.
Qed.

Lemma parse_blocks_shape blocks_data page_num :
  forall acc_blocks acc_conf,
    match parse_blocks blocks_data page_num acc_blocks acc_conf with
    | None => existsb malformed_bbox blocks_data = true
    | Some (bs, cs) =>
        existsb malformed_bbox blocks_data = false
        /\ exists new,
             bs = acc_blocks ++ new
             /\ cs = acc_conf ++ map ob_confidence new
             /\ map ob_content new =
                  map (fun d => get (bd_content d) []) blocks_data
             /\ map ob_type new = map fragment_type blocks_data
             /\ map ob_confidence new =
                  map (fun d => get (bd_confidence d) 1%Q) blocks_data
             /\ Forall (fun b => ob_page_num b = page_num
                                 /\ ob_source b = "ocr"%string) new
    end.
Proof.
  induction blocks_data as [|d rest IH]; intros ab ac.
  - simpl. split; [reflexivity|]. exists []. rewrite !app_nil_r.
    repeat split. constructor.
  - cbn [parse_blocks existsb].
    pose proof (parse_block_malformed d page_num) as Hd.
    destruct (parse_block d page_num) as [[b c]|]; [|now rewrite Hd].
    destruct Hd as (Hm & Hc & Hct & Hty & Hp & Hs & Hcf). rewrite Hm.
    cbn [orb]. specialize (IH (ab ++ [b]) (ac ++ [c])).
    destruct (parse_blocks rest page_num (ab ++ [b]) (ac ++ [c]))
      as [[bs cs]|]; [|exact IH].
    destruct IH as (He & new & -> & -> & I1 & I2 & I3 & I4).
    split; [exact He|]. exists (b :: new). subst c.
    rewrite <- !app_assoc. cbn [app map].
    split; [reflexivity|]. split; [reflexivity|].
    split; [now rewrite Hct, I1|]. split; [now rewrite Hty, I2|].
    split; [now rewrite Hcf, I3|].
    constructor; [now split|exact I4].
Qed.


(** X15.  A parsed answer has one fragment per element of ["blocks"],
    in the same order: each takes the content, the type and the
    confidence of its element (the empty string, Paragraph and 1.0
    when the key is missing, Paragraph also for an unknown type name),
    the page number of the call and the source "ocr"; the mode of the
    response is Base whatever was asked for. *)
Theorem parse_keeps_fragments
    (response_data : ResponseData) (page_num : Z) (response : OCRResponse) :
  parse_ocr_response response_data page_num = Some response ->
  let blocks_data := get (rd_blocks response_data) [] in
  map ob_content (or_blocks response) =
    map (fun d => get (bd_content d) []) blocks_data
  /\ map ob_type (or_blocks response) = map fragment_type blocks_data
  /\ map ob_confidence (or_blocks response) =
       map (fun d => get (bd_confidence d) 1%Q) blocks_data
  /\ Forall (fun b => ob_page_num b = page_num
                      /\ ob_source b = "ocr"%string) (or_blocks response)
  /\ or_mode response = BASE
  /\ or_page_id response = page_num.
Proof.
  unfold parse_ocr_response.
  pose proof (parse_blocks_shape (get (rd_blocks response_data) [])
                page_num [] []) as Hs.
  destruct (parse_blocks (get (rd_blocks response_data) []) page_num [] [])
    as [[bs cs]|]; [|discriminate].
  destruct Hs as (_ & new & -> & _ & H1 & H2 & H3 & H4).
  intros E. injection E as <-. cbv zeta. cbn [or_blocks or_mode or_page_id app].
  repeat split; assumption.
Qed.

Lemma parse_keeps_fragments_witness :
  exists response,
    parse_ocr_response Samples.answer_A_B 2 = Some response
    /\ map ob_content (or_blocks response) = [Py.lit "A"; Py.lit "B"]
    /\ map ob_type (or_blocks response) = [HEADING; PARAGRAPH].
Proof.
  destruct (parse_ocr_response Samples.answer_A_B 2) as [response|] eqn:E;
    [|vm_compute in E; discriminate E].
  exists response. split; [reflexivity|].
  destruct (parse_keeps_fragments Samples.answer_A_B 2 response E)
    as (H1 & H2 & _).
  split; [exact H1|exact H2].
Defined.

(** *** The average confidence *)

Lemma Qsum_acc_bounds (lo hi : Q) l :
  Forall (fun c => (lo <= c)%Q /\ (c <= hi)%Q) l ->
  forall acc,
    (acc + lo * inject_Z (Z.of_nat (length l)) <= fold_left Qplus l acc)%Q
    /\ (fold_left Qplus l acc
        <= acc + hi * inject_Z (Z.of_nat (length l)))%Q.
Proof.
  induction 1 as [|c rest [Hlo Hhi] _ IH]; intros acc.
  - cbn [fold_left length Z.of_nat]. change (inject_Z 0) with 0%Q.
    split; lra.
  - cbn [fold_left length]. destruct (IH (acc + c)%Q) as [I1 I2].
    rewrite Nat2Z.inj_succ. unfold Z.succ. rewrite inject_Z_plus.
    change (inject_Z 1) with 1%Q. split; lra.
Qed.

Lemma Qmean_bounds (lo hi : Q) l :
  l <> [] ->
  Forall (fun c => (lo <= c)%Q /\ (c <= hi)%Q) l ->
  (lo <= Py.Qmean l)%Q /\ (Py.Qmean l <= hi)%Q.
Proof.
  intros Hne Hf. unfold Py.Qmean, Py.Qsum.
  destruct (Qsum_acc_bounds lo hi l Hf 0%Q) as [H1 H2].
  assert (Hn : (0 < inject_Z (Z.of_nat (length l)))%Q).
  { destruct l; [congruence|]. unfold Qlt. simpl. lia. }
  split.
  - apply Qle_shift_div_l; [exact Hn|]. lra.
  - apply Qle_shift_div_r; [exact Hn|]. lra.
Qed.

(** X16.  The average confidence of a parsed answer lies between 0 and
    1 whenever the confidence of every fragment does; it is 1.0 for an
    answer without fragments. *)
Theorem average_confidence_in_unit_interval
    (response_data : ResponseData) (page_num : Z) (response : OCRResponse) :
  parse_ocr_response response_data page_num = Some response ->
  Forall (fun d => in_unit_interval (get (bd_confidence d) 1%Q))
    (get (rd_blocks response_data) []) ->
  in_unit_interval (or_confidence_avg response)
  /\ (or_blocks response = [] -> or_confidence_avg response = 1%Q).
Proof.
  intros E Hc. unfold parse_ocr_response in E.
  pose proof (parse_blocks_shape (get (rd_blocks response_data) [])
                page_num [] []) as Hs.
  destruct (parse_blocks (get (rd_blocks response_data) []) page_num [] [])
    as [[bs cs]|]; [|discriminate].
  destruct Hs as (_ & new & -> & -> & _ & _ & H3 & _).
  injection E as <-. cbn [or_confidence_avg or_blocks app].
  split.
  - destruct (map ob_confidence new) as [|c cs] eqn:Em.
    + split; simpl; discriminate.
    + apply Qmean_bounds; [discriminate|].
      rewrite H3. apply Forall_map.
      eapply Forall_impl; [|exact Hc]. intros d Hd. exact Hd.
  - intros ->. reflexivity.
Qed.

Lemma average_confidence_in_unit_interval_witness :
  exists response,
    parse_ocr_response Samples.answer_A_B 2 = Some response
    /\ in_unit_interval (or_confidence_avg response).
Proof.
  destruct (parse_ocr_response Samples.answer_A_B 2) as [response|] eqn:E;
    [|vm_compute in E; discriminate E].
  exists response. split; [reflexivity|].
  apply (average_confidence_in_unit_interval Samples.answer_A_B 2 response E).
  repeat constructor; simpl; discriminate.
Defined.

End ClientRetryFacts.

(** ** Structure preserver: what a page comes out as *)

Module PreserverFlowFacts.
Import DataModels StateM OCRClient StructurePreserver Recognition Pipeline.
Import PySortFacts PreserverFacts.

Section Flow.
Context {W : Type} `{Service W}.
Variable self : Preserver.
Variable page_num : Z.

Local Abbreviation run := (process_blocks self page_num).

(** One block in, at most one block out: nothing for a drawing, the
    block itself unless it is a flagged image, and never a drawing. *)
Lemma process_block_shape b st :
  match b with
  | BDrawing _ => fst (process_block self page_num b st) = []
  | _ =>
      exists b',
        fst (process_block self page_num b st) = [b']
        /\ is_drawing b' = false
        /\ (is_flagged_image b = false ->
            b' = b /\ snd (process_block self page_num b st) = st)
  end.
Proof.
  destruct st as [w s].
  destruct b as [t|image|d|t|o].
  - exists (BText t). split; [reflexivity|]. split; [reflexivity|].
    intros _. split; reflexivity.
  - unfold process_block. cbn [is_flagged_image].
    destruct (ib_needs_ocr image).
    + unfold bind, on_snd, on_fst. cbn [fst snd].
      destruct (process_image_ocr self image page_num w) as [[o|] w1];
        cbn [fst snd ret].
      * exists (BOCR o). split; [reflexivity|]. split; [reflexivity|].
        discriminate.
      * exists (BImage image). split; [reflexivity|].
        split; [reflexivity|]. discriminate.
    + exists (BImage image). split; [reflexivity|]. split; [reflexivity|].
      intros _. split; reflexivity.
  - reflexivity.
  - exists (BTable t). split; [reflexivity|]. split; [reflexivity|].
    intros _. split; reflexivity.
  - exists (BOCR o). split; [reflexivity|]. split; [reflexivity|].
    intros _. split; reflexivity.
Qed.

Lemma run_output blocks :
  forall st,
    let out := fst (run blocks [] st) in
    length out = length (filter kept blocks)
    /\ Forall (fun b => is_drawing b = false) out
    /\ Forall (fun b => In b out)
         (filter (fun b => kept b && negb (is_flagged_image b)) blocks).
Proof.
  induction blocks as [|b rest IH]; intros st; cbv zeta.
  - repeat split; constructor.
  - rewrite process_blocks_cons. cbn [fst].
    pose proof (process_block_shape b st) as Hb.
    destruct (IH (snd (process_block self page_num b st)))
      as (I1 & I2 & I3).
    assert (I3' : forall out0,
               Forall (fun b0 => In b0
                 (out0 ++ fst (run rest []
                                 (snd (process_block self page_num b st)))))
                 (filter (fun b0 => kept b0 && negb (is_flagged_image b0))
                    rest)).
    { intros out0. eapply Forall_impl; [|exact I3].
      intros a Ha. apply in_or_app. now right. }
    destruct b as [t|image|d|t|o]; cbn [filter kept is_drawing negb andb].
    5:{ destruct Hb as (b' & -> & Hd & Hk). cbn [is_flagged_image negb].
        destruct (Hk eq_refl) as [-> _].
        split; [cbn [app length]; now rewrite I1|]. split; [now constructor|].
        constructor; [now left|apply (I3' [BOCR o])]. }
    4:{ destruct Hb as (b' & -> & Hd & Hk). cbn [is_flagged_image negb].
        destruct (Hk eq_refl) as [-> _].
        split; [cbn [app length]; now rewrite I1|]. split; [now constructor|].
        constructor; [now left|apply (I3' [BTable t])]. }
    3:{ rewrite Hb. cbn [app]. repeat split; assumption. }
    1:{ destruct Hb as (b' & -> & Hd & Hk). cbn [is_flagged_image negb].
        destruct (Hk eq_refl) as [-> _].
        split; [cbn [app length]; now rewrite I1|]. split; [now constructor|].
        constructor; [now left|apply (I3' [BText t])]. }
    destruct Hb as (b' & Eo & Hd & Hk). rewrite Eo in *.
    split; [cbn [app length]; now rewrite I1|]. split; [now constructor|].
    cbn [is_flagged_image]. destruct (ib_needs_ocr image) eqn:Ef;
      cbn [negb]; [apply (I3' [b'])|].
    destruct (Hk Ef) as [-> _].
    constructor; [now left|apply (I3' [BImage image])].
Qed.

(** X17.  In the list [process_structure] returns the keys
    (page_num, -y1, x0) of the blocks never decrease: the page number
    of the block decides, then -y1 of its bbox, then x0.  The list
    holds no drawing and has one block for every input block that is
    not a drawing. *)
Theorem process_structure_output (blocks : list Block) (st : W * Stats) :
  let out := fst (process_structure self blocks page_num st) in
  StronglySorted
    (fun a b =>
       KeyOrder.key_order_le
         (block_page_num a, (- y1 (block_bbox a))%Q, x0 (block_bbox a))
         (block_page_num b, (- y1 (block_bbox b))%Q, x0 (block_bbox b)))
    out
  /\ Forall (fun b => is_drawing b = false) out
  /\ length out = length (filter kept blocks).
Proof.
  cbv zeta. destruct (run_output blocks st) as (H1 & H2 & _).
  unfold process_structure, bind.
  destruct (run blocks [] st) as [out st1]. unfold ret. cbn [fst] in *.
  split; [|split].
  - apply (StronglySorted_weaken
             (PySort.key_le PySort.position_ltb get_position_key)).
    + intros a b Hab. exact (position_not_ltb_le _ _ Hab).
    + apply sorted_strongly.
      * exact position_ltb_asym.
      * exact position_ltb_cotrans.
  - rewrite Forall_forall in *. intros b Hb. apply H2.
    revert Hb. apply Permutation_in, sorted_perm.
  - now rewrite sorted_length.
Qed.

(** X18.  Every block of the page that is neither a drawing nor a
    flagged image - text, table, OCR block, image without the flag -
    is in the returned list, unchanged. *)
Theorem process_structure_passes_through
    (blocks : list Block) (st : W * Stats) :
  Forall (fun b => In b (fst (process_structure self blocks page_num st)))
    (filter (fun b => kept b && negb (is_flagged_image b)) blocks).
Proof.
  destruct (run_output blocks st) as (_ & _ & H3).
  unfold process_structure, bind.
  destruct (run blocks [] st) as [out st1]. unfold ret. cbn [fst] in *.
  eapply Forall_impl; [|exact H3]. intros b Hb.
  revert Hb. apply Permutation_in, Permutation_sym, sorted_perm.
Qed.

Lemma run_without_flagged blocks :
  forall st,
    existsb is_flagged_image blocks = false ->
    run blocks [] st = (filter kept blocks, st).
Proof.
  induction blocks as [|b rest IH]; intros st Hn; [reflexivity|].
  cbn [existsb] in Hn. apply orb_false_iff in Hn. destruct Hn as [Hb Hr].
  rewrite process_blocks_cons.
  pose proof (process_block_shape b st) as Hs.
  destruct b as [t|image|d|t|o]; cbn [filter kept is_drawing negb].
  3:{ rewrite Hs. replace (snd (process_block self page_num (BDrawing d) st))
        with st by (destruct st; reflexivity).
      now rewrite (IH st Hr). }
  all: destruct Hs as (b' & -> & _ & Hk); destruct (Hk Hb) as [-> ->];
    now rewrite (IH st Hr).
Qed.

(** X19.  On a page without a flagged image the preserver sends no
    request and counts nothing: it returns the blocks that are not
    drawings, in reading order, and leaves the service and the
    statistics as they were - drawings are dropped even when they
    carry the flag and a rendered image. *)
Theorem page_without_flagged_images
    (blocks : list Block) (st : W * Stats) :
  existsb is_flagged_image blocks = false ->
  process_structure self blocks page_num st =
    (in_reading_order (filter kept blocks), st).
Proof.
  intros Hn. unfold process_structure, bind.
  now rewrite (run_without_flagged blocks st Hn).
Qed.

(** When a flagged image is replaced, the block that takes its
    place carries the page number of the call and the bbox of the
    image: its position key is (page_num, -y1, x0) of the image, so it
    sorts where the image sorted when the preserver is called with the
    page number of the image. *)
Lemma merged_block_position (image : ImageBlock) (w : W) :
  match fst (process_image_ocr self image page_num w) with
  | Some merged =>
      get_position_key (BOCR merged)
      = (page_num, (- y1 (ib_bbox image))%Q, x0 (ib_bbox image))
      /\ ob_source merged = "ocr"%string
  | None => True
  end.
Proof.
  unfold process_image_ocr.
  destruct (ocr_client self) as [client|]; [|exact I].
  unfold bind.
  destruct (ocr_figure client (ib_image_data image) page_num
              (Some (ib_bbox image)) "parse_figure" 1024 1024 w)
    as [outcome w1].
  destruct outcome as [|response]; [exact I|].
  destruct (or_blocks response) as [|first others]; [exact I|].
  split; reflexivity.
Qed.
End Flow.

Lemma run_without_client {W} `{Service W} min_area page_num blocks :
  forall w s,
    process_blocks (mkPreserver None min_area) page_num blocks [] (w, s) =
    (filter kept blocks,
     (w,
      mkStats
        (total_images s
         + Z.of_nat (length (filter is_flagged_image blocks)))
        (total_drawings s) (ocr_processed s) (ocr_skipped s)
        (ocr_errors s
         + Z.of_nat (length (filter is_flagged_image blocks))))).
Proof.
  induction blocks as [|b rest IH]; intros w s.
  - simpl. unfold ret. destruct s. simpl. now rewrite !Z.add_0_r.
  - rewrite process_blocks_cons.
    destruct b as [t|image|d|t|o];
      try (cbn [process_block ret fst snd filter kept is_drawing negb
                is_flagged_image]; now rewrite IH).
    cbn [filter kept is_drawing negb is_flagged_image].
    unfold process_block. destruct (ib_needs_ocr image).
    + unfold bind, on_snd, on_fst, process_image_ocr.
      cbn [ocr_client fst snd ret]. rewrite IH.
      cbn [app length total_images total_drawings ocr_processed
           ocr_skipped ocr_errors incr_total_images incr_ocr_errors].
      cbn [length fst snd]. rewrite Nat2Z.inj_succ.
      do 3 f_equal; lia.
    + cbn [ret fst snd]. now rewrite IH.
Qed.

(** X20.  A preserver that has no client never touches the service:
    it returns the blocks that are not drawings in reading order,
    flagged images included, and adds the number of flagged images to
    both [total_images] and [ocr_errors]. *)
Theorem process_structure_without_client {W} `{Service W}
    (min_area : Q) (page_num : Z) (blocks : list Block) (w : W) (s : Stats) :
  let flagged := Z.of_nat (length (filter is_flagged_image blocks)) in
  process_structure (mkPreserver None min_area) blocks page_num (w, s) =
    (in_reading_order (filter kept blocks),
     (w,
      mkStats (total_images s + flagged) (total_drawings s)
        (ocr_processed s) (ocr_skipped s) (ocr_errors s + flagged))).
Proof.
  cbv zeta. unfold process_structure, bind.
  now rewrite run_without_client.
Qed.

Lemma page_without_flagged_images_witness :
  @process_structure unit unreachable_service Samples.preserver
    [BDrawing Samples.border_drawing; BText Samples.paragraph_above] 2
    (init tt)
  = ([BText Samples.paragraph_above], init tt).
Proof.
  apply (@page_without_flagged_images unit unreachable_service
           Samples.preserver 2
           [BDrawing Samples.border_drawing; BText Samples.paragraph_above]
           (init tt)).
  reflexivity.
Defined.

End PreserverFlowFacts.

(* ------------------------------------------------------------------ *)
(** ** The page loop of the pipeline *)

Module PipelineFacts.
Import DataModels StateM OCRClient StructurePreserver Recognition Pipeline.
Import PySortFacts PreserverFacts PreserverFlowFacts.

Lemma split_fold blocks :
  forall acc,
    fold_left split_step blocks acc =
    mkPageData (text_blocks acc ++ texts_of blocks)
      (image_blocks acc ++ images_of blocks)
      (drawing_blocks acc ++ drawings_of blocks)
      (table_blocks acc ++ tables_of blocks)
      (ocr_blocks acc ++ ocrs_of blocks).
Proof.
  induction blocks as [|b rest IH]; intros acc.
  - destruct acc. cbn. now rewrite !app_nil_r.
  - cbn [fold_left]. rewrite IH.
    destruct b; cbn; rewrite <- ?app_assoc; reflexivity.
Qed.

Lemma split_by_kind blocks :
  split_blocks_by_type blocks =
  mkPageData (texts_of blocks) (images_of blocks) (drawings_of blocks)
    (tables_of blocks) (ocrs_of blocks).
Proof. unfold split_blocks_by_type. now rewrite split_fold. Qed.

Lemma kinds_count blocks :
  (length (texts_of blocks) + length (images_of blocks)
   + length (drawings_of blocks) + length (tables_of blocks)
   + length (ocrs_of blocks) = length blocks)%nat.
Proof.
  induction blocks as [|b rest IH]; [reflexivity|].
  destruct b; cbn [texts_of images_of drawings_of tables_of ocrs_of
                   flat_map app length];
    fold (texts_of rest) (images_of rest) (drawings_of rest)
         (tables_of rest) (ocrs_of rest); lia.
Qed.

Lemma kinds_of_all_blocks page_data :
  texts_of (all_blocks page_data) = text_blocks page_data
  /\ images_of (all_blocks page_data) = image_blocks page_data
  /\ drawings_of (all_blocks page_data) = drawing_blocks page_data
  /\ tables_of (all_blocks page_data) = table_blocks page_data
  /\ ocrs_of (all_blocks page_data) = [].
Proof.
  assert (K : forall (A B : Type) (c : A -> Block) (f : Block -> list B)
                     (l : list A),
             (forall a, f (c a) = []) -> flat_map f (map c l) = []).
  { intros A B c f l Hf. induction l as [|a l IH]; [reflexivity|].
    cbn. now rewrite Hf, IH. }
  assert (S : forall (A : Type) (c : A -> Block) (f : Block -> list A)
                     (l : list A),
             (forall a, f (c a) = [a]) -> flat_map f (map c l) = l).
  { intros A c f l Hf. induction l as [|a l IH]; [reflexivity|].
    cbn. now rewrite Hf, IH. }
  unfold all_blocks, texts_of, images_of, drawings_of, tables_of, ocrs_of.
  rewrite !flat_map_app.
  repeat split;
    rewrite ?S by reflexivity; rewrite ?K by reflexivity;
    rewrite ?app_nil_r; reflexivity.
Qed.

(** X22.  [_split_blocks_by_type] sorts the blocks into the five lists
    by their class, keeps their order within each list and loses none;
    applied to the concatenation the pipeline hands to the preserver it
    gives the lists of the page back, with no OCR block. *)
Theorem split_blocks_by_type_keeps_all (blocks : list Block)
    (page_data : PageData) :
  split_blocks_by_type blocks =
    mkPageData (texts_of blocks) (images_of blocks) (drawings_of blocks)
      (tables_of blocks) (ocrs_of blocks)
  /\ (length (text_blocks (split_blocks_by_type blocks))
      + length (image_blocks (split_blocks_by_type blocks))
      + length (drawing_blocks (split_blocks_by_type blocks))
      + length (table_blocks (split_blocks_by_type blocks))
      + length (ocr_blocks (split_blocks_by_type blocks))
      = length blocks)%nat
  /\ split_blocks_by_type (all_blocks page_data) =
       mkPageData (text_blocks page_data) (image_blocks page_data)
         (drawing_blocks page_data) (table_blocks page_data) [].
Proof.
  split; [apply split_by_kind|]. split.
  - rewrite split_by_kind. cbn [text_blocks image_blocks drawing_blocks
                                table_blocks ocr_blocks].
    apply kinds_count.
  - rewrite split_by_kind.
    destruct (kinds_of_all_blocks page_data) as (-> & -> & -> & -> & ->).
    reflexivity.
Qed.

Section Page.
Context {W : Type} `{Service W}.
Variable preserver : Preserver.
Variable page_num : Z.

(** An image comes out as it is or as an OCR block. *)
Lemma process_block_image image st :
  exists b',
    fst (process_block preserver page_num (BImage image) st) = [b']
    /\ (b' = BImage image \/ exists o, b' = BOCR o).
Proof.
  unfold process_block. destruct (ib_needs_ocr image).
  - unfold bind, on_snd, on_fst. cbn [fst snd].
    destruct (process_image_ocr preserver image page_num (fst st))
      as [[o|] w1]; cbn [fst snd ret].
    + exists (BOCR o). split; [reflexivity|]. right. now exists o.
    + exists (BImage image). split; [reflexivity|]. now left.
  - exists (BImage image). split; [reflexivity|]. now left.
Qed.

(** What the loop of the preserver does to each kind of block. *)
Lemma run_kinds blocks :
  forall st,
    let out := fst (process_blocks preserver page_num blocks [] st) in
    texts_of out = texts_of blocks
    /\ tables_of out = tables_of blocks
    /\ drawings_of out = []
    /\ (length (images_of out) + length (ocrs_of out)
        = length (images_of blocks) + length (ocrs_of blocks))%nat.
Proof.
  induction blocks as [|b rest IH]; intros st; cbv zeta.
  - repeat split.
  - rewrite process_blocks_cons. cbn [fst].
    destruct (IH (snd (process_block preserver page_num b st)))
      as (I1 & I2 & I3 & I4).
    pose proof (process_block_shape preserver page_num b st) as Hb.
    unfold texts_of, tables_of, drawings_of, images_of, ocrs_of in *.
    rewrite !flat_map_app, I1, I2, I3, !length_app.
    destruct b as [t|image|d|t|o].
    3:{ rewrite Hb. cbn. repeat split; trivial. }
    1,3,4: destruct Hb as (b' & -> & _ & Hk);
      destruct (Hk eq_refl) as [-> Es]; rewrite Es in I4; cbn;
      repeat split; lia.
    destruct (process_block_image image st) as (b' & Eo & Hi).
    rewrite Eo.
    set (st1 := snd (process_block preserver page_num (BImage image) st))
      in *.
    clearbody st1.
    destruct Hi as [->|[o ->]]; cbn; repeat split; lia.
Qed.

Lemma structure_kinds blocks st :
  let out := fst (process_structure preserver blocks page_num st) in
  Permutation (texts_of out) (texts_of blocks)
  /\ Permutation (tables_of out) (tables_of blocks)
  /\ drawings_of out = []
  /\ (length (images_of out) + length (ocrs_of out)
      = length (images_of blocks) + length (ocrs_of blocks))%nat.
Proof.
  cbv zeta.
  pose proof (process_structure_perm preserver page_num blocks st) as P.
  destruct (run_kinds blocks st) as (K1 & K2 & K3 & K4).
  cbv zeta in K1, K2, K3, K4.
  repeat split.
  - rewrite <- K1. unfold texts_of. now apply Permutation_flat_map.
  - rewrite <- K2. unfold tables_of. now apply Permutation_flat_map.
  - apply Permutation_nil. rewrite <- K3. apply Permutation_sym.
    unfold drawings_of. now apply Permutation_flat_map.
  - rewrite <- K4. f_equal; apply Permutation_length;
      [unfold images_of|unfold ocrs_of]; now apply Permutation_flat_map.
Qed.

(** X23.  One page of [process_to_ir].  With OCR disabled, or on a page
    without images, the page data goes to the builder as the extractor
    delivered it, drawings included, and no request is made.
    Otherwise the preserver runs: the drawings of the page are gone,
    the text blocks and the tables are the same up to their order,
    and every image is there either as an image or as an OCR block. *)
Theorem process_to_ir_page (enable_ocr : bool) (page_data : PageData)
    (st : W * Stats) :
  let result := embed_ocr enable_ocr preserver page_data page_num st in
  if enable_ocr
     && match image_blocks page_data with [] => false | _ => true end
  then
    drawing_blocks (fst result) = []
    /\ Permutation (text_blocks (fst result)) (text_blocks page_data)
    /\ Permutation (table_blocks (fst result)) (table_blocks page_data)
    /\ (length (image_blocks (fst result))
        + length (ocr_blocks (fst result))
        = length (image_blocks page_data))%nat
  else result = (page_data, st).
Proof.
  cbv zeta. unfold embed_ocr.
  destruct (enable_ocr
            && match image_blocks page_data with
               | [] => false
               | _ => true
               end); [|reflexivity].
  unfold bind.
  destruct (structure_kinds (all_blocks page_data) st)
    as (K1 & K2 & K3 & K4).
  cbv zeta in K1, K2, K3, K4.
  destruct (process_structure preserver (all_blocks page_data) page_num st)
    as [out st1].
  cbn [fst snd ret] in *. rewrite split_by_kind.
  cbn [text_blocks image_blocks drawing_blocks table_blocks ocr_blocks].
  destruct (kinds_of_all_blocks page_data) as (E1 & E2 & E3 & E4 & E5).
  rewrite E1 in K1. rewrite E4 in K2. rewrite E2, E5 in K4.
  cbn [length] in K4. rewrite Nat.add_0_r in K4.
  repeat split; assumption.
Qed.

(** X24.  [process] and [process_to_ir] treat a page in the same way
    unless OCR is enabled and the page has drawings and no image.  On
    such a page [process_to_ir] passes the page data on unchanged,
    while [process] runs the preserver, which makes no request, drops
    the drawings and returns the text blocks and the tables. *)
Theorem process_drops_drawings_of_page_without_images
    (enable_ocr : bool) (page_data : PageData) (st : W * Stats) :
  (enable_ocr = false \/ image_blocks page_data <> []
   \/ drawing_blocks page_data = [] ->
   embed_ocr_process enable_ocr preserver page_data page_num st
   = embed_ocr enable_ocr preserver page_data page_num st)
  /\ (enable_ocr = true -> image_blocks page_data = [] ->
      drawing_blocks page_data <> [] ->
      let result :=
        embed_ocr_process enable_ocr preserver page_data page_num st in
      embed_ocr enable_ocr preserver page_data page_num st
      = (page_data, st)
      /\ snd result = st
      /\ drawing_blocks (fst result) = []
      /\ image_blocks (fst result) = []
      /\ ocr_blocks (fst result) = []
      /\ Permutation (text_blocks (fst result)) (text_blocks page_data)
      /\ Permutation (table_blocks (fst result))
           (table_blocks page_data)).
Proof.
  split.
  - unfold embed_ocr_process, embed_ocr.
    intros [->|[Hi| ->]]; [reflexivity| |].
    + destruct (image_blocks page_data); [contradiction|reflexivity].
    + now rewrite orb_false_r.
  - intros -> Hi Hd. cbv zeta. unfold embed_ocr_process, embed_ocr.
    rewrite Hi. destruct (drawing_blocks page_data) as [|d0 ds] eqn:Ed;
      [contradiction|].
    cbn [andb orb]. split; [reflexivity|].
    assert (Hn : existsb is_flagged_image (all_blocks page_data) = false).
    { unfold all_blocks. rewrite Hi. cbn [map app].
      rewrite !existsb_app.
      assert (N : forall (A : Type) (c : A -> Block) (l : list A),
                 (forall a, is_flagged_image (c a) = false) ->
                 existsb is_flagged_image (map c l) = false).
      { intros A c l Hc. induction l as [|a l IH]; [reflexivity|].
        cbn. now rewrite Hc, IH. }
      rewrite !N by reflexivity. reflexivity. }
    unfold bind, process_structure, bind.
    rewrite (run_without_flagged preserver page_num _ st Hn).
    cbn [fst snd ret]. rewrite split_by_kind.
    cbn [text_blocks image_blocks drawing_blocks table_blocks ocr_blocks].
    destruct (kinds_of_all_blocks page_data) as (E1 & E2 & E3 & E4 & E5).
    pose proof (sorted_perm PySort.position_ltb get_position_key
                  (filter kept (all_blocks page_data))) as P.
    (* the kinds of the blocks that are kept *)
    assert (F : forall (B : Type) (f : Block -> list B) (l : list Block),
               (forall b, kept b = false -> f b = []) ->
               flat_map f (filter kept l) = flat_map f l).
    { intros B f l Hf. induction l as [|b l IH]; [reflexivity|].
      cbn [filter]. destruct (kept b) eqn:Ek; cbn [flat_map].
      - now rewrite IH.
      - now rewrite (Hf b Ek), IH. }
    assert (D : drawings_of (filter kept (all_blocks page_data)) = []).
    { generalize (all_blocks page_data). intros l.
      induction l as [|b l IH]; [reflexivity|].
      destruct b; cbn; trivial. }
    split; [reflexivity|]. repeat split.
    + apply Permutation_nil. rewrite <- D. apply Permutation_sym.
      unfold drawings_of. now apply Permutation_flat_map.
    + apply Permutation_nil. apply Permutation_sym.
      transitivity (images_of (filter kept (all_blocks page_data))).
      * unfold images_of. now apply Permutation_flat_map.
      * unfold images_of. rewrite F by (now intros []).
        fold (images_of (all_blocks page_data)). rewrite E2, Hi.
        constructor.
    + apply Permutation_nil. apply Permutation_sym.
      transitivity (ocrs_of (filter kept (all_blocks page_data))).
      * unfold ocrs_of. now apply Permutation_flat_map.
      * unfold ocrs_of. rewrite F by (now intros []).
        fold (ocrs_of (all_blocks page_data)). rewrite E5. constructor.
    + transitivity (texts_of (filter kept (all_blocks page_data))).
      * unfold texts_of. now apply Permutation_flat_map.
      * unfold texts_of. rewrite F by (now intros []).
        fold (texts_of (all_blocks page_data)). now rewrite E1.
    + transitivity (tables_of (filter kept (all_blocks page_data))).
      * unfold tables_of. now apply Permutation_flat_map.
      * unfold tables_of. rewrite F by (now intros []).
        fold (tables_of (all_blocks page_data)). now rewrite E4.
Qed.

End Page.

Lemma process_drops_drawings_of_page_without_images_witness :
  @embed_ocr unit unreachable_service true Samples.preserver
    (mkPageData [Samples.paragraph_above] [] [Samples.border_drawing] [] [])
    2 (init tt)
  = (mkPageData [Samples.paragraph_above] [] [Samples.border_drawing] [] [],
     init tt)
  /\ drawing_blocks
       (fst (@embed_ocr_process unit unreachable_service true
               Samples.preserver
               (mkPageData [Samples.paragraph_above] []
                  [Samples.border_drawing] [] [])
               2 (init tt)))
     = [].
Proof.
  destruct (@process_drops_drawings_of_page_without_images unit
              unreachable_service Samples.preserver 2 true
              (mkPageData [Samples.paragraph_above] []
                 [Samples.border_drawing] [] [])
              (init tt)) as [_ Hd].
  destruct (Hd eq_refl eq_refl ltac:(discriminate)) as (H1 & _ & H3 & _).
  split; [exact H1|exact H3].
Defined.

End PipelineFacts.

(* ------------------------------------------------------------------ *)
(** ** Structure analyzer: the passes together *)

Module StructureFacts.
Import DataModels IR Regex StructureAnalyzer Headings StructureAnalysis.
Import Outline.

Section Passes.
Context `{DecimalTable}.

(** *** The heading pass *)

Lemma heuristic_patterns_level text :
  1 <= snd (heuristic_patterns text) <= 3.
Proof.
  unfold heuristic_patterns.
  destruct (existsb _ HEADING_PATTERNS); cbn [snd]; [|lia].
  destruct (re_match depth3 text); [lia|].
  destruct (re_match depth2 text); [lia|].
  destruct (re_match depth1 text); lia.
Qed.

Lemma heuristic_font_level avg font st :
  1 <= snd st <= 3 -> 1 <= snd (heuristic_font avg font st) <= 3.
Proof.
  intros Hs. unfold heuristic_font.
  destruct (Py.Qgtb font (avg * (12 # 10))); [|exact Hs]. cbn [snd].
  destruct (Py.Qgtb font (avg * (15 # 10))); [lia|].
  destruct (Py.Qgtb font (avg * (13 # 10))); lia.
Qed.

Lemma heuristic_bold_level bold text st :
  1 <= snd st <= 3 -> 1 <= snd (heuristic_bold bold text st) <= 3.
Proof.
  intros Hs. unfold heuristic_bold.
  destruct (bold && (Py.len text <? 100)); [|exact Hs]. cbn [snd]. lia.
Qed.

Lemma classify_block_outcome avg block :
  match classify_block avg block with
  | TypeError => font_size_is_none block = true
  | Ok block' => font_size_is_none block = false /\ promoted block block'
  end.
Proof.
  unfold classify_block, font_size_is_none.
  destruct (is_candidate_type (type block)) eqn:Ec; cbn [negb andb].
  2:{ split; [reflexivity|now left]. }
  pose proof (heuristic_patterns_level (PyText.strip (content block)))
    as Hp.
  destruct (font_size (metadata block)) as [| |v]; [|reflexivity|].
  - pose proof (heuristic_bold_level (is_bold (metadata block))
                  (PyText.strip (content block)) _
                  (heuristic_font_level avg avg _ Hp)) as Hb.
    destruct (heuristic_bold _ _ _) as [heading level].
    cbn [snd] in Hb.
    destruct heading; (split; [reflexivity|]); [right|now left].
    split; [exact Ec|]. now exists level.
  - pose proof (heuristic_bold_level (is_bold (metadata block))
                  (PyText.strip (content block)) _
                  (heuristic_font_level avg v _ Hp)) as Hb.
    destruct (heuristic_bold _ _ _) as [heading level].
    cbn [snd] in Hb.
    destruct heading; (split; [reflexivity|]); [right|now left].
    split; [exact Ec|]. now exists level.
Qed.

Lemma classify_blocks_outcome avg blocks :
  match classify_blocks avg blocks with
  | TypeError => existsb font_size_is_none blocks = true
  | Ok blocks' =>
      existsb font_size_is_none blocks = false
      /\ Forall2 promoted blocks blocks'
  end.
Proof.
  induction blocks as [|b rest IH]; cbn [classify_blocks existsb].
  - split; [reflexivity|constructor].
  - pose proof (classify_block_outcome avg b) as Hb.
    destruct (classify_block avg b) as [b'|].
    + destruct Hb as [-> Hp]. cbn [orb].
      destruct (classify_blocks avg rest) as [rest'|]; [|exact IH].
      destruct IH as [-> Hr]. split; [reflexivity|now constructor].
    + now rewrite Hb.
Qed.

(** X25.  The heading pass raises a [TypeError] exactly when a block
    typed Text, Paragraph or Heading carries the key [font_size] with
    the value [None], as the builder writes it for a text block without
    a font size.  Otherwise it returns as many blocks as it got and
    every block is either untouched or, when typed Text, Paragraph or
    Heading, turned into a heading of level 1, 2 or 3 with nothing else
    changed: no other type is ever assigned and no block of another
    type is touched. *)
Theorem identify_headings_outcome (blocks : list IRBlock) :
  match identify_headings blocks with
  | TypeError => existsb font_size_is_none blocks = true
  | Ok blocks' =>
      existsb font_size_is_none blocks = false
      /\ Forall2 promoted blocks blocks'
  end.
Proof. apply classify_blocks_outcome. Qed.


(** *** The list pass *)

Lemma list_item_type_values text list_type :
  list_item_type text = Some list_type ->
  list_type = "ordered"%string \/ list_type = "unordered"%string.
Proof.
  unfold list_item_type.
  destruct (find _ LIST_PATTERNS) as [p|]; [|discriminate].
  intros E. injection E as <-.
  destruct (startswith _ _); [now left|now right].
Qed.

Lemma lists_step_shape st block :
  (snd (lists_step st block) = block
   /\ (is_text_type (type block) = false
       \/ list_item_type (PyText.strip (content block)) = None))
  \/ (is_text_type (type block) = true
      /\ exists list_id list_type,
           (list_type = "ordered"%string \/ list_type = "unordered"%string)
           /\ snd (lists_step st block)
              = set_list_item block list_id list_type).
Proof.
  destruct st as [counter current]. unfold lists_step.
  destruct (is_text_type (type block)) eqn:Et; cbn [negb].
  2:{ left. split; [reflexivity|now left]. }
  destruct (list_item_type (PyText.strip (content block)))
    as [list_type|] eqn:El.
  - right. split; [reflexivity|].
    pose proof (list_item_type_values _ _ El) as Hv.
    destruct current as [cur|]; cbn [snd]; eauto.
  - left. split; [reflexivity|now right].
Qed.

Lemma lists_step_again st st' block :
  snd (lists_step st' (snd (lists_step st block)))
  = snd (lists_step st block).
Proof.
  destruct (lists_step_shape st block)
    as [[E Hn]|[Et (list_id & list_type & _ & E)]]; rewrite E.
  - destruct st' as [c cur]. unfold lists_step. destruct Hn as [Hn|Hn].
    + now rewrite Hn.
    + destruct (is_text_type (type block)); cbn [negb]; [|reflexivity].
      now rewrite Hn.
  - destruct st' as [c cur]. reflexivity.
Qed.

Lemma lists_loop_again blocks :
  forall st st',
    lists_loop st' (lists_loop st blocks) = lists_loop st blocks.
Proof.
  induction blocks as [|b rest IH]; intros st st'; [reflexivity|].
  cbn [lists_loop].
  pose proof (lists_step_again st st' b) as Hb.
  destruct (lists_step st b) as [st1 b1]. cbn [lists_loop snd] in *.
  destruct (lists_step st' b1) as [st2 b2]. cbn [snd] in Hb. subst b2.
  now rewrite IH.
Qed.

Lemma lists_loop_listed blocks :
  forall st, Forall2 listed blocks (lists_loop st blocks).
Proof.
  induction blocks as [|b rest IH]; intros st; [constructor|].
  cbn [lists_loop].
  pose proof (lists_step_shape st b) as Hb.
  destruct (lists_step st b) as [st1 b1]. cbn [snd] in Hb.
  constructor; [|apply IH].
  destruct Hb as [[-> _]|[Et Hb]]; [now left|right; now split].
Qed.

(** X26.  The list pass changes nothing when it is run again on its
    own outcome, and the first run only turns blocks typed Text or
    Paragraph into list items, of type "ordered" or "unordered": it
    leaves every other block, headings included, as it is. *)
Theorem identify_lists_idempotent (blocks : list IRBlock) :
  identify_lists (identify_lists blocks) = identify_lists blocks
  /\ Forall2 listed blocks (identify_lists blocks).
Proof.
  split; [apply lists_loop_again|apply lists_loop_listed].
Qed.

(** *** What the passes keep *)

Lemma listed_outline before after :
  listed before after -> outline_of after = outline_of before.
Proof.
  intros [->|[Et (list_id & list_type & _ & ->)]]; [reflexivity|].
  unfold outline_of, is_heading. cbn [set_list_item id content page bbox
                                     type metadata heading_level].
  destruct (type before); try discriminate; reflexivity.
Qed.

Lemma lists_loop_outline blocks st :
  map outline_of (lists_loop st blocks) = map outline_of blocks.
Proof.
  pose proof (lists_loop_listed blocks st) as HF.
  induction HF as [|b b' l l' Hb _ IH]; [reflexivity|].
  cbn [map]. now rewrite (listed_outline _ _ Hb), IH.
Qed.

Lemma hierarchy_step_outline stack block :
  outline_of (snd (hierarchy_step stack block)) = outline_of block.
Proof.
  unfold hierarchy_step.
  destruct (ContentType_eqb (type block) HEADING).
  - cbn [snd]. destruct (pop_while stack _) as [|[l i] t]; reflexivity.
  - destruct stack as [|[l i] t]; reflexivity.
Qed.

Lemma hierarchy_loop_outline blocks :
  forall stack,
    map outline_of (snd (hierarchy_loop stack blocks))
    = map outline_of blocks.
Proof.
  induction blocks as [|b rest IH]; intros stack; [reflexivity|].
  cbn [hierarchy_loop].
  pose proof (hierarchy_step_outline stack b) as Hb.
  destruct (hierarchy_step stack b) as [stack1 b1]. cbn [snd] in Hb.
  specialize (IH stack1).
  destruct (hierarchy_loop stack1 rest) as [final rest'].
  cbn [snd map] in *. now rewrite Hb, IH.
Qed.

Lemma build_toc_outline l :
  forall l',
    map outline_of l = map outline_of l' -> build_toc l = build_toc l'.
Proof.
  induction l as [|b rest IH]; intros [|b' rest'] E; try discriminate;
    [reflexivity|].
  cbn [map] in E. unfold outline_of at 1 3 in E.
  injection E as Ei Ec Ep _ Eh El Er.
  cbn [build_toc]. unfold level_of. rewrite Ei, Ec, Ep, Eh, El.
  now rewrite (IH rest' Er).
Qed.

Lemma build_toc_ids l :
  map toc_block_id (build_toc l) = map id (filter is_heading l).
Proof.
  induction l as [|b rest IH]; [reflexivity|].
  cbn [build_toc filter]. destruct (is_heading b); cbn [map];
    now rewrite IH.
Qed.

Lemma build_toc_levels l :
  Forall level_in_range l ->
  Forall (fun entry => 1 <= toc_level entry <= 3) (build_toc l).
Proof.
  induction 1 as [|b rest Hb _ IH]; [constructor|].
  cbn [build_toc]. destruct (is_heading b); [|exact IH].
  constructor; [exact Hb|exact IH].
Qed.

Lemma promoted_level_in_range blocks blocks' :
  Forall2 promoted blocks blocks' ->
  Forall level_in_range blocks -> Forall level_in_range blocks'.
Proof.
  induction 1 as [|b b' l l' Hb _ IH]; intros Hr; [constructor|].
  inversion Hr as [|? ? Hb0 Hl]; subst.
  constructor; [|now apply IH].
  destruct Hb as [->|[_ (level & Hl' & ->)]]; [exact Hb0|].
  exact Hl'.
Qed.

Lemma kept_through before after final :
  promoted before after ->
  outline_of final = outline_of after ->
  kept_by_analysis before final.
Proof.
  intros Hp Eo. unfold outline_of in Eo.
  injection Eo as Ei Ec Ep Eb Eh El.
  unfold kept_by_analysis. rewrite Ei, Ec, Ep, Eb, Eh.
  destruct Hp as [->|[_ (level & _ & ->)]]; repeat split; trivial.
Qed.

Lemma kept_through_all blocks with_headings :
  Forall2 promoted blocks with_headings ->
  forall final,
    map outline_of final = map outline_of with_headings ->
    Forall2 kept_by_analysis blocks final.
Proof.
  induction 1 as [|b b' l l' Hb _ IH]; intros [|f final] E;
    try discriminate; [constructor|].
  cbn [map] in E.
  assert (Ef : outline_of f = outline_of b') by congruence.
  assert (Er : map outline_of final = map outline_of l') by congruence.
  constructor; [now apply (kept_through b b')|now apply IH].
Qed.

(** X27.  [analyze] on blocks whose heading level, where they have
    one, is 1, 2 or 3 - the builder gives them none.  Unless the
    heading pass raises, the three passes return the same blocks in
    the same order, each with its id, text, page and bbox, and a block
    that came as a heading stays one; the table of contents has one
    entry for each heading, in document order, and every level in it
    is 1, 2 or 3. *)
Theorem analyze_outline (blocks : list IRBlock) :
  Forall level_in_range blocks ->
  match analyze blocks with
  | TypeError => existsb font_size_is_none blocks = true
  | Ok (blocks', toc) =>
      Forall2 kept_by_analysis blocks blocks'
      /\ map toc_block_id toc = map id (filter is_heading blocks')
      /\ Forall (fun entry => 1 <= toc_level entry <= 3) toc
  end.
Proof.
  intros Hr. unfold analyze, identify_headings.
  pose proof (classify_blocks_outcome (avg_font_size blocks) blocks) as Hc.
  destruct (classify_blocks (avg_font_size blocks) blocks)
    as [with_headings|]; [|exact Hc].
  destruct Hc as [_ Hp].
  assert (Eo : map outline_of
                 (build_hierarchy (identify_lists with_headings))
               = map outline_of with_headings).
  { unfold build_hierarchy, identify_lists.
    now rewrite hierarchy_loop_outline, lists_loop_outline. }
  split; [now apply (kept_through_all blocks with_headings)|].
  split; [apply build_toc_ids|].
  rewrite (build_toc_outline _ _ Eo).
  apply build_toc_levels. now apply (promoted_level_in_range blocks).
Qed.

End Passes.

Lemma analyze_outline_witness :
  match analyze outline_page with
  | TypeError => existsb font_size_is_none outline_page = true
  | Ok (blocks', toc) =>
      Forall2 kept_by_analysis outline_page blocks'
      /\ map toc_block_id toc = map id (filter is_heading blocks')
      /\ Forall (fun entry => 1 <= toc_level entry <= 3) toc
  end.
Proof.
  apply (analyze_outline outline_page).
  repeat constructor; vm_compute; discriminate.
Defined.

(** *** Sections and parents *)

Lemma close_section_app sections current more :
  close_section sections current ++ more
  = sections ++ close_section [] current ++ more.
Proof.
  destruct current as [section|]; cbn [close_section app].
  - now rewrite <- app_assoc.
  - reflexivity.
Qed.

Lemma sections_headers blocks :
  forall sections current,
    map header_of (finish (fold_left sections_step blocks
                             (sections, current)))
    = map header_of (close_section sections current) ++ build_toc blocks.
Proof.
  induction blocks as [|b rest IH]; intros sections current.
  - cbn [fold_left build_toc]. unfold finish. cbn [fst snd].
    now rewrite app_nil_r.
  - cbn [fold_left build_toc]. unfold sections_step at 2.
    destruct (is_heading b).
    + rewrite IH. cbn [close_section]. rewrite map_app.
      rewrite <- app_assoc. reflexivity.
    + destruct current as [section|]; rewrite IH; [|reflexivity].
      cbn [close_section]. now rewrite !map_app.
Qed.

Lemma sections_blocks blocks :
  forall sections current,
    concat (map sec_blocks (finish (fold_left sections_step blocks
                                      (sections, current))))
    = concat (map sec_blocks (close_section sections current))
      ++ filter (fun b => negb (is_heading b))
           (match current with
            | Some _ => blocks
            | None => from_first_heading blocks
            end).
Proof.
  induction blocks as [|b rest IH]; intros sections current.
  - cbn [fold_left]. unfold finish. cbn [fst snd].
    destruct current; cbn [from_first_heading filter];
      now rewrite app_nil_r.
  - cbn [fold_left from_first_heading filter]. unfold sections_step at 2.
    destruct (is_heading b) eqn:Eh; cbn [negb].
    + rewrite IH. cbn [close_section]. rewrite map_app, concat_app.
      cbn [map sec_blocks concat app]. rewrite app_nil_r.
      destruct current; cbn [filter]; rewrite Eh; reflexivity.
    + destruct current as [section|]; rewrite IH; [|reflexivity].
      cbn [close_section]. rewrite !map_app, !concat_app.
      cbn [map sec_blocks concat]. rewrite !app_nil_r.
      cbn [filter]. rewrite Eh. cbn [negb].
      rewrite <- !app_assoc. reflexivity.
Qed.

Lemma hierarchy_step_heading stack block :
  is_heading block = true ->
  let '(stack', block') := hierarchy_step stack block in
  is_heading block' = true /\ id block' = id block
  /\ exists level below, stack' = (level, id block) :: below.
Proof.
  unfold is_heading, hierarchy_step. intros E. rewrite E.
  destruct (pop_while stack _) as [|[l i] t] eqn:Ep;
    (split; [exact E|]); (split; [reflexivity|]); eauto.
Qed.

Lemma hierarchy_step_body stack block :
  is_heading block = false ->
  let '(stack', block') := hierarchy_step stack block in
  is_heading block' = false /\ stack' = stack
  /\ match stack with
     | (_, parent_id) :: _ =>
         parent_heading (metadata block') = Some parent_id
     | [] => block' = block
     end.
Proof.
  unfold is_heading, hierarchy_step. intros E. rewrite E.
  destruct stack as [|[l i] t]; repeat split; trivial.
Qed.

Lemma sections_parents blocks :
  forall stack sections current,
    Forall parent_is_heading sections ->
    open_section_on_top stack current ->
    Forall parent_is_heading
      (finish (fold_left sections_step
                 (snd (hierarchy_loop stack blocks))
                 (sections, current))).
Proof.
  induction blocks as [|b rest IH]; intros stack sections current Hs Hc.
  - cbn [hierarchy_loop snd fold_left]. unfold finish. cbn [fst snd].
    destruct current as [section|]; cbn [close_section]; [|exact Hs].
    apply Forall_app. split; [exact Hs|].
    constructor; [apply Hc|constructor].
  - cbn [hierarchy_loop].
    destruct (is_heading b) eqn:Eh.
    + pose proof (hierarchy_step_heading stack b Eh) as Hb.
      destruct (hierarchy_step stack b) as [stack1 b1].
      destruct Hb as (Eh1 & Ei & level & below & ->).
      specialize (IH ((level, id b) :: below)).
      destruct (hierarchy_loop ((level, id b) :: below) rest)
        as [final rest'].
      cbn [snd fold_left] in *. unfold sections_step at 2. rewrite Eh1.
      apply IH.
      * destruct current as [section|]; cbn [close_section]; [|exact Hs].
        apply Forall_app. split; [exact Hs|].
        constructor; [apply Hc|constructor].
      * cbn [open_section_on_top]. split; [constructor|].
        cbn [sec_heading_block_id]. rewrite Ei. eauto.
    + pose proof (hierarchy_step_body stack b Eh) as Hb.
      destruct (hierarchy_step stack b) as [stack1 b1].
      destruct Hb as (Eh1 & -> & Hp).
      specialize (IH stack).
      destruct (hierarchy_loop stack rest) as [final rest'].
      cbn [snd fold_left] in *. unfold sections_step at 2. rewrite Eh1.
      destruct current as [section|].
      * apply IH; [exact Hs|].
        destruct Hc as (Hsec & level & below & ->).
        cbn [open_section_on_top sec_heading_block_id]. split; [|eauto].
        unfold parent_is_heading in *. cbn [sec_blocks sec_heading_block_id].
        apply Forall_app. split; [exact Hsec|].
        constructor; [exact Hp|constructor].
      * apply IH; [exact Hs|exact Hc].
Qed.

(** X28.  The sections of a document and the parents the hierarchy
    pass records agree: in the sections of the blocks the pass
    returns, every block of a section names the heading of that
    section as its parent.  The headers of the sections are the
    entries of the table of contents, and their blocks are the blocks
    that follow the first heading and are not headings, in document
    order: a block before the first heading is in no section. *)
Theorem sections_agree_with_hierarchy (blocks : list IRBlock) :
  let with_parents := build_hierarchy blocks in
  let sections := get_sections with_parents in
  Forall parent_is_heading sections
  /\ map header_of sections = build_toc with_parents
  /\ concat (map sec_blocks sections)
     = filter (fun b => negb (is_heading b))
         (from_first_heading with_parents).
Proof.
  cbv zeta.
  assert (G : forall l,
             get_sections l = finish (fold_left sections_step l ([], None))).
  { intros l. unfold get_sections, finish.
    now destruct (fold_left sections_step l ([], None)). }
  rewrite G. split; [|split].
  - unfold build_hierarchy. apply sections_parents; [constructor|].
    reflexivity.
  - now rewrite sections_headers.
  - now rewrite sections_blocks.
Qed.

End StructureFacts.


(* ------------------------------------------------------------------ *)
(** ** The IR: lookups and statistics *)

Module IRFacts.
Import DataModels IR IRQueries.

Section DictFacts.
Context {K V : Type}.
Variable eqb : K -> K -> bool.
Hypothesis eqb_spec : forall a b, eqb a b = true <-> a = b.

Lemma eqb_refl_of a : eqb a a = true.
Proof. now apply eqb_spec. Qed.

Lemma dict_get_set (d : dict K V) k v k' :
  dict_get eqb (dict_set eqb d k v) k'
  = if eqb k k' then Some v else dict_get eqb d k'.
Proof.
  induction d as [|[k0 v0] rest IH]; cbn [dict_set dict_get].
  - reflexivity.
  - destruct (eqb k0 k) eqn:E0; cbn [dict_get].
    + apply eqb_spec in E0. subst k0.
      destruct (eqb k k'); reflexivity.
    + destruct (eqb k0 k') eqn:E1; [|exact IH].
      apply eqb_spec in E1. subst k0.
      destruct (eqb k k') eqn:E2; [|reflexivity].
      apply eqb_spec in E2. subst k'.
      rewrite eqb_refl_of in E0. discriminate.
Qed.
End DictFacts.

Lemma Zeqb_spec a b : (a =? b) = true <-> a = b.
Proof. apply Z.eqb_eq. Qed.

Lemma find_app {A} (p : A -> bool) l1 l2 :
  find p (l1 ++ l2)
  = match find p l1 with Some x => Some x | None => find p l2 end.
Proof.
  induction l1 as [|a l1 IH]; [reflexivity|].
  cbn [app find]. destruct (p a); [reflexivity|exact IH].
Qed.

Lemma index_by_id_get blocks block_id :
  forall d,
    dict_get String.eqb
      (fold_left (fun d block => dict_set String.eqb d (id block) block)
         blocks d) block_id
    = match find (fun b => String.eqb (id b) block_id) (rev blocks) with
      | Some b => Some b
      | None => dict_get String.eqb d block_id
      end.
Proof.
  induction blocks as [|b rest IH]; intros d; [reflexivity|].
  cbn [fold_left rev]. rewrite IH, find_app.
  destruct (find _ (rev rest)); [reflexivity|].
  rewrite (dict_get_set String.eqb String.eqb_eq). cbn [find].
  destruct (String.eqb (id b) block_id); reflexivity.
Qed.

Lemma index_by_page_get blocks p :
  forall d,
    on_page_of
      (fold_left
         (fun d block =>
            match dict_get Z.eqb d (page block) with
            | None => dict_set Z.eqb d (page block) [block]
            | Some on_page =>
                dict_set Z.eqb d (page block) (on_page ++ [block])
            end)
         blocks d) p
    = on_page_of d p ++ filter (fun b => page b =? p) blocks.
Proof.
  induction blocks as [|b rest IH]; intros d.
  - cbn [fold_left filter]. now rewrite app_nil_r.
  - cbn [fold_left filter]. rewrite IH. unfold on_page_of.
    destruct (dict_get Z.eqb d (page b)) as [on_page|] eqn:Ed;
      rewrite (dict_get_set Z.eqb Zeqb_spec);
      destruct (page b =? p) eqn:Ep.
    + apply Z.eqb_eq in Ep. rewrite <- Ep, Ed.
      now rewrite <- app_assoc.
    + reflexivity.
    + apply Z.eqb_eq in Ep. rewrite <- Ep, Ed. reflexivity.
    + reflexivity.
Qed.

Lemma find_unique_id (l : list IRBlock) :
  NoDup (map id l) ->
  forall b, In b l -> find (fun x => String.eqb (id x) (id b)) l = Some b.
Proof.
  induction l as [|a l IH]; intros Hn b Hb; [contradiction|].
  cbn [map] in Hn. inversion Hn as [|? ? Ha Hl]; subst.
  cbn [find]. destruct Hb as [->|Hb].
  - now rewrite String.eqb_refl.
  - destruct (String.eqb (id a) (id b)) eqn:E; [|now apply IH].
    apply String.eqb_eq in E. exfalso. apply Ha. rewrite E.
    now apply in_map.
Qed.

(** X29.  The lookups of an [IR].  [get_block] returns the last block
    that carries the id, so of two blocks with the same id the first
    cannot be found; when the ids are distinct it finds every block.
    [get_blocks_by_page] returns the blocks of the page in document
    order, and the empty list for a page without blocks. *)
Theorem index_lookups (all_blocks : list IRBlock)
    (all_relations : list IRRelation) (pages : Z) :
  let ir := IR_new all_blocks all_relations pages in
  (forall block_id,
      get_block ir block_id
      = find (fun b => String.eqb (id b) block_id) (rev all_blocks))
  /\ (forall p,
         get_blocks_by_page ir p
         = filter (fun b => page b =? p) all_blocks)
  /\ (NoDup (map id all_blocks) ->
      forall b, In b all_blocks -> get_block ir (id b) = Some b).
Proof.
  cbv zeta.
  assert (G : forall block_id,
             get_block (IR_new all_blocks all_relations pages) block_id
             = find (fun b => String.eqb (id b) block_id) (rev all_blocks)).
  { intros block_id. unfold get_block, IR_new, index_by_id.
    cbn [blocks_by_id]. rewrite index_by_id_get.
    now destruct (find _ (rev all_blocks)). }
  split; [exact G|]. split.
  - intros p. unfold get_blocks_by_page, IR_new, index_by_page.
    cbn [blocks_by_page].
    exact (index_by_page_get all_blocks p []).
  - intros Hn b Hb. rewrite G. apply find_unique_id.
    + rewrite map_rev. now apply NoDup_rev.
    + now apply in_rev in Hb.
Qed.

Lemma index_lookups_witness :
  get_block (IR_new Headings.one_size [] 1) "text_2"
  = Some (Headings.text_block "text_2" "summary" 12 true).
Proof.
  destruct (index_lookups Headings.one_size [] 1) as (_ & _ & Hu).
  apply (Hu ltac:(repeat constructor; cbn; intuition discriminate)
            (Headings.text_block "text_2" "summary" 12 true)).
  right. now left.
Defined.

(** *** Statistics *)

Lemma ContentType_value_eqb a b :
  String.eqb (ContentType_value a) (ContentType_value b)
  = ContentType_eqb a b.
Proof. destruct a, b; reflexivity. Qed.

Lemma count_fold blocks type_name :
  forall counts,
    dict_get String.eqb (fold_left count_step blocks counts) type_name
    = match
        filter (fun b => String.eqb (ContentType_value (type b)) type_name)
          blocks
      with
      | [] => dict_get String.eqb counts type_name
      | found =>
          Some (match dict_get String.eqb counts type_name with
                | Some n => n
                | None => 0
                end + len found)
      end.
Proof.
  induction blocks as [|b rest IH]; intros counts; [reflexivity|].
  cbn [fold_left filter]. rewrite IH. unfold count_step.
  rewrite !(dict_get_set String.eqb String.eqb_eq).
  destruct (String.eqb (ContentType_value (type b)) type_name) eqn:E.
  - apply String.eqb_eq in E. rewrite E.
    destruct (filter _ rest) as [|x found]; unfold len; cbn [length].
    + reflexivity.
    + f_equal. lia.
  - reflexivity.
Qed.

Lemma sources_count blocks :
  let native :=
    len (filter (fun b => String.eqb (source b) "native") blocks) in
  let ocr := len (filter (fun b => String.eqb (source b) "ocr") blocks) in
  native + ocr <= len blocks
  /\ (native + ocr =? len blocks) = forallb known_source blocks
  /\ native <= len (filter (fun b => negb (is_from_ocr b)) blocks)
  /\ len (filter (fun b => negb (is_from_ocr b)) blocks)
     + len (filter is_from_ocr blocks) = len blocks.
Proof.
  cbv zeta. unfold len, is_from_ocr.
  induction blocks as [|b rest (I1 & I2 & I3 & I4)].
  - repeat split; cbn; lia.
  - cbn [filter forallb]. unfold known_source at 1. rewrite <- I2.
    destruct (String.eqb (source b) "native") eqn:En;
      destruct (String.eqb (source b) "ocr") eqn:Eo;
      cbn [orb negb andb length].
    1:{ apply String.eqb_eq in En. rewrite En in Eo. discriminate. }
    all: repeat split; try lia;
      repeat match goal with
             | |- context [?x =? ?y] => destruct (Z.eqb_spec x y)
             end;
      try reflexivity; exfalso; lia.
Qed.

(** X30.  The statistics of an [IR] add up, those of the builder need
    not.  In [get_statistics] the native and the OCR blocks together
    are all the blocks, and the count under the name of a type is the
    number of blocks [get_blocks_by_type] returns, with no entry for a
    type that does not occur.  [build_ir] counts the types and the OCR
    blocks in the same way, but as native only the blocks whose source
    is "native": its two counts add up to the total exactly when every
    source is "native" or "ocr", while [get_statistics] counts a block
    of any other source as native. *)
Theorem statistics_add_up (all_blocks : list IRBlock)
    (all_relations : list IRRelation) (pages : Z) :
  let ir := IR_new all_blocks all_relations pages in
  let st := get_statistics ir in
  let ps := processing_stats all_blocks in
  st_native st + st_ocr st = st_total_blocks st
  /\ (forall t,
         dict_get String.eqb (st_blocks_by_type st) (ContentType_value t)
         = match get_blocks_by_type ir t with
           | [] => None
           | found => Some (len found)
           end)
  /\ ps_blocks_by_type ps = st_blocks_by_type st
  /\ ps_total_blocks ps = st_total_blocks st
  /\ ps_ocr_blocks ps = st_ocr st
  /\ ps_native_blocks ps <= st_native st
  /\ (ps_native_blocks ps + ps_ocr_blocks ps =? ps_total_blocks ps)
     = forallb known_source all_blocks.
Proof.
  cbv zeta.
  destruct (sources_count all_blocks) as (S1 & S2 & S3 & S4).
  cbv zeta in S1, S2, S3, S4.
  unfold get_statistics, processing_stats, IR_new, get_native_blocks,
    get_ocr_blocks, get_blocks_by_type, count_by_type.
  cbn [blocks relations st_native st_ocr st_total_blocks st_blocks_by_type
       ps_blocks_by_type ps_total_blocks ps_ocr_blocks ps_native_blocks].
  split; [exact S4|]. split.
  - intros t. rewrite count_fold. cbn [dict_get].
    rewrite (filter_ext _ (fun b => ContentType_eqb (type b) t))
      by (intros b; apply ContentType_value_eqb).
    destruct (filter _ all_blocks); reflexivity.
  - repeat split; trivial.
Qed.

Example foreign_table_counts :
  let st := get_statistics (IR_new [foreign_table] [] 1) in
  let ps := processing_stats [foreign_table] in
  (st_native st, st_ocr st, st_total_blocks st) = (1, 0, 1)
  /\ (ps_native_blocks ps, ps_ocr_blocks ps, ps_total_blocks ps) = (0, 0, 1).
Proof. split; reflexivity. Qed.

End IRFacts.


(* ------------------------------------------------------------------ *)
(** ** The numbering patterns and the heading level *)

Module NumberingFacts.
Import DataModels IR Regex StructureAnalyzer RegexFacts Numbering.

Local Abbreviation all p := (Forall (fun c : N => p c = true)).

(** *** What an expression matches *)

Lemma matches_Sym_inv p s :
  matches (Sym p) s -> exists c, s = [c] /\ p c = true.
Proof. intros M. inversion M; subst. eauto. Qed.

Lemma matches_Cat_inv a b s :
  matches (Cat a b) s ->
  exists s1 s2, s = s1 ++ s2 /\ matches a s1 /\ matches b s2.
Proof. intros M. inversion M; subst. eauto. Qed.

Lemma matches_Star_Sym p s : matches (Star (Sym p)) s -> all p s.
Proof.
  intros M. remember (Star (Sym p)) as r eqn:Er. revert Er.
  induction M as [|p' c Hp|a b s t Ha IHa Hb IHb|a b s Ha IH|a b s Hb IH
                  |a|a s t Ha IHa Hs IHs]; intros Er; try discriminate Er.
  - constructor.
  - injection Er as ->. apply matches_Sym_inv in Ha.
    destruct Ha as (c & -> & Hc). constructor; [exact Hc|].
    now apply IHs.
Qed.

Lemma matches_Plus_Sym p s :
  matches (Plus (Sym p)) s ->
  exists c t, s = c :: t /\ p c = true /\ all p t.
Proof.
  unfold Plus. intros M. apply matches_Cat_inv in M.
  destruct M as (s1 & s2 & -> & M1 & M2).
  apply matches_Sym_inv in M1. destruct M1 as (c & -> & Hc).
  exists c, s2. repeat split; trivial. now apply matches_Star_Sym.
Qed.

Lemma matches_word w s : matches (word w) s -> s = w.
Proof.
  revert s. induction w as [|c w IH]; intros s M; cbn [word] in M.
  - now inversion M.
  - apply matches_Cat_inv in M. destruct M as (s1 & s2 & -> & M1 & M2).
    apply matches_Sym_inv in M1. destruct M1 as (c' & -> & Hc).
    apply N.eqb_eq in Hc. subst c'. cbn [app]. f_equal. now apply IH.
Qed.

(** *** Prefixes *)

Lemma prefix_Cat a b text :
  match_prefix (Cat a b) text = true ->
  exists s rest,
    text = s ++ rest /\ matches a s /\ match_prefix b rest = true.
Proof.
  intros M. apply match_prefix_spec in M. destruct M as (p & q & -> & M).
  apply matches_Cat_inv in M. destruct M as (s1 & s2 & -> & M1 & M2).
  exists s1, (s2 ++ q). rewrite <- app_assoc.
  repeat split; trivial. apply match_prefix_spec. now exists s2, q.
Qed.

(** An expression accepts what a longer one accepts. *)
Lemma prefix_shorten a b c d text :
  match_prefix (Cat a (Cat b (Cat c d))) text = true ->
  match_prefix (Cat a (Cat b c)) text = true.
Proof.
  intros M. apply match_prefix_spec in M. destruct M as (p & q & -> & M).
  apply matches_Cat_inv in M. destruct M as (sa & s2 & -> & Ma & M).
  apply matches_Cat_inv in M. destruct M as (sb & s3 & -> & Mb & M).
  apply matches_Cat_inv in M. destruct M as (sc & sd & -> & Mc & Md).
  apply match_prefix_spec. exists (sa ++ sb ++ sc), (sd ++ q).
  split; [now rewrite <- !app_assoc|].
  constructor; [exact Ma|]. now constructor.
Qed.

Lemma prefix_Plus_Sym p text :
  match_prefix (Plus (Sym p)) text = true ->
  exists c rest, text = c :: rest /\ p c = true.
Proof.
  intros M. apply match_prefix_spec in M. destruct M as (s & q & -> & M).
  apply matches_Plus_Sym in M. destruct M as (c & t & -> & Hc & _).
  now exists c, (t ++ q).
Qed.

(** A text that begins with a number and a full stop. *)
Lemma prefix_number_dot r text :
  match_prefix (Cat (Plus digit) (Cat (chr ".") r)) text = true ->
  exists c t rest,
    text = (c :: t) ++ DOT :: rest
    /\ is_decimal c = true /\ all is_decimal t
    /\ match_prefix r rest = true.
Proof.
  intros M. apply prefix_Cat in M. destruct M as (s & rest & -> & Ms & M).
  apply matches_Plus_Sym in Ms. destruct Ms as (c & t & -> & Hc & Ht).
  apply prefix_Cat in M. destruct M as (dot & rest' & -> & Md & M).
  apply matches_word in Md. subst dot.
  exists c, t, rest'. repeat split; trivial.
Qed.

(** Two ways of reading a run of code points of one class up to a
    code point outside it are the same way. *)
Lemma run_unique (p : N -> bool) d :
  forall e x y r r',
    all p d -> all p e -> p x = false -> p y = false ->
    d ++ x :: r = e ++ y :: r' -> d = e /\ x = y /\ r = r'.
Proof.
  induction d as [|a d IH]; intros [|b e] x y r r' Hd He Hx Hy E;
    cbn [app] in E.
  - injection E as -> ->. repeat split.
  - injection E as -> _. inversion He; subst. congruence.
  - injection E as -> _. inversion Hd; subst. congruence.
  - injection E as -> E. inversion Hd; inversion He; subst.
    destruct (IH e x y r r') as (-> & -> & ->); trivial.
    repeat split.
Qed.

(** *** The table of decimal digits *)

Lemma space_listed c :
  PyText.is_space c = true -> In c space_code_points.
Proof.
  unfold PyText.is_space. intros Hs.
  repeat rewrite ?orb_true_iff, ?andb_true_iff, ?N.leb_le, ?N.eqb_eq in Hs.
  unfold space_code_points. cbn [In]. lia.
Qed.

Lemma capital_listed c : is_capital c = true -> In c capital_code_points.
Proof.
  unfold is_capital, in_range. intros Hs.
  repeat rewrite ?orb_true_iff, ?andb_true_iff, ?N.leb_le, ?N.eqb_eq in Hs.
  unfold capital_code_points. cbn [In]. lia.
Qed.

Lemma decimal_not_space c :
  PyText.is_space c = true -> is_decimal c = false.
Proof.
  intros Hs. apply space_listed in Hs. revert c Hs. apply Forall_forall.
  repeat constructor.
Qed.

Lemma decimal_not_capital c : is_capital c = true -> is_decimal c = false.
Proof.
  intros Hs. apply capital_listed in Hs. revert c Hs. apply Forall_forall.
  repeat constructor.
Qed.

(** *** The patterns against one another *)

Lemma number_then_space_or_digit text :
  re_match numbered_one_level text = true ->
  re_match depth2 text = false.
Proof.
  cbn [re_match numbered_one_level depth2 dollar body]. intros M1.
  apply not_true_is_false. intros M2.
  apply prefix_number_dot in M1.
  destruct M1 as (c & t & rest & -> & Hc & Ht & M1).
  apply prefix_number_dot in M2.
  destruct M2 as (c' & t' & rest' & E & Hc' & Ht' & M2).
  apply (run_unique is_decimal) in E; trivial; try (now constructor).
  destruct E as (_ & _ & <-).
  apply prefix_Plus_Sym in M1. destruct M1 as (x & tail & -> & Hx).
  apply prefix_Plus_Sym in M2. destruct M2 as (x' & tail' & E & Hx').
  injection E as <- _. apply decimal_not_space in Hx. congruence.
Qed.

Lemma two_levels_not_three text :
  re_match numbered_two_levels text = true ->
  re_match depth3 text = false.
Proof.
  cbn [re_match numbered_two_levels depth3 dollar body]. intros M1.
  apply not_true_is_false. intros M2.
  apply prefix_number_dot in M1.
  destruct M1 as (c & t & rest & -> & Hc & Ht & M1).
  apply prefix_number_dot in M2.
  destruct M2 as (c' & t' & rest' & E & Hc' & Ht' & M2).
  apply (run_unique is_decimal) in E; trivial; try (now constructor).
  destruct E as (_ & _ & <-).
  apply prefix_Cat in M1. destruct M1 as (run & after & -> & Mr & M1).
  apply matches_Plus_Sym in Mr. destruct Mr as (d & ds & -> & Hd & Hds).
  apply prefix_Plus_Sym in M1. destruct M1 as (x & tail & -> & Hx).
  apply prefix_number_dot in M2.
  destruct M2 as (d' & ds' & after' & E & Hd' & Hds' & _).
  apply (run_unique is_decimal) in E; trivial; try (now constructor).
  - destruct E as (_ & -> & _). discriminate Hx.
  - now apply decimal_not_space.
Qed.

Lemma two_levels_depth2 text :
  re_match numbered_two_levels text = true -> re_match depth2 text = true.
Proof.
  cbn [re_match numbered_two_levels depth2 dollar body].
  apply prefix_shorten.
Qed.

Lemma depth3_depth2 text :
  re_match depth3 text = true -> re_match depth2 text = true.
Proof.
  cbn [re_match depth3 depth2 dollar body]. apply prefix_shorten.
Qed.

Lemma depth2_first text :
  re_match depth2 text = true ->
  exists c rest, text = c :: rest /\ is_decimal c = true.
Proof.
  cbn [re_match depth2 dollar body]. intros M.
  apply prefix_number_dot in M.
  destruct M as (c & t & rest & -> & Hc & _). now exists c, (t ++ DOT :: rest).
Qed.

Lemma capitals_first r text :
  match_dollar (Cat (Sym is_capital) r) text = true ->
  exists c rest, text = c :: rest /\ is_decimal c = false.
Proof.
  intros M. apply match_dollar_spec in M.
  destruct M as (p & q & -> & M & _).
  apply matches_Cat_inv in M. destruct M as (s1 & s2 & -> & M1 & _).
  apply matches_Sym_inv in M1. destruct M1 as (c & -> & Hc).
  exists c, (s2 ++ q). split; [reflexivity|now apply decimal_not_capital].
Qed.

Lemma word_first c w r text :
  match_prefix (Cat (word (c :: w)) r) text = true ->
  exists rest, text = c :: rest.
Proof.
  intros M. apply prefix_Cat in M. destruct M as (s & rest & -> & Ms & _).
  apply matches_word in Ms. subst s. now exists (w ++ rest).
Qed.

Lemma other_patterns_not_numbered text :
  existsb (fun p => re_match p text) HEADING_PATTERNS = true ->
  re_match numbered_two_levels text = false ->
  re_match depth2 text = false.
Proof.
  intros Ex E2. apply not_true_is_false. intros M2.
  cbn [existsb HEADING_PATTERNS] in Ex.
  fold numbered_one_level numbered_two_levels in Ex.
  rewrite E2 in Ex. cbn [orb] in Ex.
  destruct (re_match numbered_one_level text) eqn:E1.
  { apply number_then_space_or_digit in E1. congruence. }
  cbn [orb] in Ex.
  apply depth2_first in M2. destruct M2 as (c & rest & -> & Hc).
  rewrite !orb_true_iff in Ex.
  destruct Ex as [M|[M|[M|[M|M]]]]; [| | | |discriminate M];
    cbn [re_match dollar body] in M.
  - apply capitals_first in M. destruct M as (c' & rest' & E & Hc').
    injection E as <- _. congruence.
  - apply word_first in M. destruct M as (rest' & E).
    injection E as -> _. discriminate Hc.
  - apply word_first in M. destruct M as (rest' & E).
    injection E as -> _. discriminate Hc.
  - apply word_first in M. destruct M as (rest' & E).
    injection E as -> _. discriminate Hc.
Qed.

(** X21.  The level the numbering patterns give is 2 when the text
    matches [^\d+\.\d+\s+] and 1 otherwise: the branch that assigns
    level 3 is never taken, since no pattern of [HEADING_PATTERNS]
    accepts a text that begins with three numbers separated by full
    stops - among them a text such as "1.2.3 Details", which
    no pattern recognises as a heading. *)
Theorem numbering_gives_level_1_or_2 (text : Py.pystr) :
  heuristic_patterns text
  = (existsb (fun p => re_match p text) HEADING_PATTERNS,
     if re_match numbered_two_levels text then 2 else 1)
  /\ (re_match depth3 text = true ->
      existsb (fun p => re_match p text) HEADING_PATTERNS = false).
Proof.
  assert (D : existsb (fun p => re_match p text) HEADING_PATTERNS = true ->
              re_match depth3 text = false).
  { intros Ex. destruct (re_match numbered_two_levels text) eqn:E2.
    - now apply two_levels_not_three.
    - apply not_true_is_false. intros M3. apply depth3_depth2 in M3.
      now rewrite (other_patterns_not_numbered text Ex E2) in M3. }
  split.
  - unfold heuristic_patterns.
    destruct (existsb (fun p => re_match p text) HEADING_PATTERNS) eqn:Ex.
    + rewrite (D eq_refl).
      destruct (re_match numbered_two_levels text) eqn:E2.
      * now rewrite (two_levels_depth2 text E2).
      * rewrite (other_patterns_not_numbered text Ex E2).
        now destruct (re_match depth1 text).
    + destruct (re_match numbered_two_levels text) eqn:E2; [|reflexivity].
      cbn [existsb HEADING_PATTERNS] in Ex.
      fold numbered_two_levels in Ex. rewrite E2 in Ex.
      now rewrite orb_true_r in Ex.
  - intros M3.
    destruct (existsb (fun p => re_match p text) HEADING_PATTERNS) eqn:Ex;
      [|reflexivity].
    rewrite (D eq_refl) in M3. discriminate M3.
Qed.

Lemma numbering_gives_level_1_or_2_witness :
  existsb (fun p => re_match p (Py.lit "1.2.3 Details")) HEADING_PATTERNS
  = false.
Proof.
  apply (numbering_gives_level_1_or_2 (Py.lit "1.2.3 Details")).
  reflexivity.
Defined.

End NumberingFacts.
